(** * SkidmarkOS roast generator: a shallow embedding of
      [backend/lambda/roast_generator.py] and the properties of its prompt
      assembly, batching and response decoding.

    Conventions of the embedding.

    - A Python [str] is a Rocq [string] holding its UTF-8 bytes.  Every
      string operation the program uses (concatenation, [join],
      [startswith]/[endswith] on ASCII markers, [split] on a newline,
      slicing off an ASCII marker, [strip]) acts on the bytes exactly as it
      acts on the code points.
    - A JSON object is a record.  A key the program reads with [d.get(k,
      default)] is an [option] field ([None]: the key is absent).  A key it
      reads with [d[k]] alone is a plain field: the embedding covers the
      requests that carry these keys (["id"], ["owner"] and ["record"] of a
      team, the keys of a top player, of an inside joke and of a
      personality), and says nothing of the [KeyError] the program raises
      without them.  The ["name"] of a team is read both ways and is an
      [option] field.  A JSON [null] in the place of an object or a list is
      outside the embedding as well.
    - A value that the program only ever prints through [str()] or an
      f-string placeholder without a format (team ids, seeds, rounds,
      records, season points) is carried as that printed text.
    - A number the program compares or prints with [:.1f] (scores, weekly
      points) is the exact rational value of the Python number: a finite
      [float] other than [-0.0], or an [int] that a [float] holds exactly
      (every [int] of magnitude up to [2^53]).  On these, comparisons and
      the correctly rounded [:.1f] depend on that value alone; larger
      [int]s, which [:.1f] rounds through [float] or refuses with
      [OverflowError], are outside the embedding.
    - [p is q] on the dict objects of a player list compares object
      identities: each player carries the identity [oid] of its dict. *)

From Stdlib Require Import String Ascii List ZArith QArith Qabs Lia Bool.
From Stdlib Require Import DecimalString.
Import ListNotations.
Local Close Scope Q_scope.
Local Open Scope list_scope.
Local Open Scope string_scope.

(** [++] appends strings; [+++] appends lists. *)
Local Notation "l +++ m" := (@app _ l m) (at level 60, right associativity).

(** ** Python primitives *)

Module Py.

Definition nl : string := String (ascii_of_nat 10) EmptyString.
Definition dq : string := String (ascii_of_nat 34) EmptyString.

(** [sep.join(l)] *)
Fixpoint str_join (sep : string) (l : list string) : string :=
  match l with
  | [] => EmptyString
  | x :: rest =>
      match rest with
      | [] => x
      | _ :: _ => x ++ sep ++ str_join sep rest
      end
  end.

(** [str(n)] for an [int]. *)
Definition str_int (z : Z) : string := NilZero.string_of_int (Z.to_int z).

(** [a < b] and [a > b] on numbers. *)
Definition num_lt (a b : Q) : bool := negb (Qle_bool b a).
Definition num_gt (a b : Q) : bool := num_lt b a.

(** Nearest integer to a non-negative rational, ties to even. *)
Definition round_half_even (q : Q) : Z :=
  let n := Qnum q in
  let d := Z.pos (Qden q) in
  let f := (n / d)%Z in
  let r := (n mod d)%Z in
  if (2 * r <? d)%Z then f
  else if (d <? 2 * r)%Z then (f + 1)%Z
  else if Z.even f then f else (f + 1)%Z.

(** [f"{q:.1f}"]: one decimal, correctly rounded, the sign kept even when
    the digits round to zero. *)
Definition fmt1 (q : Q) : string :=
  let tenths := round_half_even (Qabs q * inject_Z 10)%Q in
  (if num_lt q 0%Q then "-" else EmptyString)
    ++ str_int (tenths / 10) ++ "." ++ str_int (tenths mod 10).

(** [sub in s] on strings. *)
Fixpoint contains (sub s : string) : bool :=
  String.prefix sub s
  || match s with
     | EmptyString => false
     | String _ s' => contains sub s'
     end.

(** [d.get(k, default)] on an optional field. *)
Definition get {A : Type} (field : option A) (default : A) : A :=
  match field with
  | Some v => v
  | None => default
  end.

(** Truth value of a list, of a string and of their optional versions
    ([None] and the empty value are false). *)
Definition truthy_list {A : Type} (l : option (list A)) : bool :=
  match l with
  | Some (_ :: _) => true
  | _ => false
  end.

Definition truthy_str (s : string) : bool :=
  match s with
  | EmptyString => false
  | String _ _ => true
  end.

(** [max(x :: xs, key=key)] and [min(x :: xs, key=key)]: one pass that
    replaces the current best only on a strict improvement. *)
Definition max_by {A : Type} (key : A -> Q) (x : A) (xs : list A) : A :=
  fold_left (fun best y => if num_gt (key y) (key best) then y else best) xs x.

Definition min_by {A : Type} (key : A -> Q) (x : A) (xs : list A) : A :=
  fold_left (fun best y => if num_lt (key y) (key best) then y else best) xs x.

(** A [dict] with string keys, in insertion order. *)
Definition dict (V : Type) : Type := list (string * V).

Fixpoint dict_get {V : Type} (k : string) (d : dict V) : option V :=
  match d with
  | [] => None
  | (k', v) :: d' => if String.eqb k' k then Some v else dict_get k d'
  end.

(** [d[k] = v]: an existing key keeps its place and takes the new value. *)
Fixpoint dict_set {V : Type} (k : string) (v : V) (d : dict V) : dict V :=
  match d with
  | [] => [(k, v)]
  | (k', v') :: d' =>
      if String.eqb k' k then (k', v) :: d' else (k', v') :: dict_set k v d'
  end.

(** [d.update(e)] *)
Definition dict_update {V : Type} (d e : dict V) : dict V :=
  fold_left (fun acc kv => dict_set (fst kv) (snd kv) acc) e d.

End Py.

(** ** Data model (the JSON objects of a request) *)

Module PlayerSummary.
Record t := mk { name : string; position : string; points : string }.
End PlayerSummary.

(** [name] is read both as [t.get("name", ...)] (TeamDirectory) and as
    [t['name']] (PromptAssembler), so it is optional here and its absence
    raises in the second reading. *)
Module Team.
Record t := mk {
  id : string;
  name : option string;
  owner : string;
  record : string;
  points_for : option string;
  points_against : option string;
  streak : option string;
  top_players : option (list PlayerSummary.t)
}.
End Team.

Module PlayerStat.
Record t := mk {
  oid : nat;
  name : option string;
  position : option string;
  points : option Q;
  is_starter : option bool
}.
End PlayerStat.

Module Matchup.
Record t := mk {
  home_team_id : option string;
  away_team_id : option string;
  home_score : option Q;
  away_score : option Q;
  home_players : option (list PlayerStat.t);
  away_players : option (list PlayerStat.t)
}.
End Matchup.

Module BracketEntry.
Record t := mk {
  team_id : option string;
  seed : option string;
  current_round : option string;
  opponent_team_id : option string;
  is_eliminated : option bool;
  is_consolation : option bool;
  is_championship : option bool
}.
End BracketEntry.

Module Joke.
Record t := mk { term : string; explanation : string }.
End Joke.

Module Personality.
Record t := mk { player_name : string; description : string }.
End Personality.

Module Ctx.
Record t := mk {
  inside_jokes : option (list Joke.t);
  personalities : option (list Personality.t);
  sacko_punishment : option string;
  culture_notes : option string
}.
Definition empty : t := mk None None None None.
End Ctx.

(** ** TeamDirectory *)

(** [{str(t["id"]): t.get("name", f"Team {t['id']}") for t in all_teams}] *)
Definition team_names (all_teams : list Team.t) : Py.dict string :=
  fold_left
    (fun d t => Py.dict_set (Team.id t) (Py.get (Team.name t) ("Team " ++ Team.id t)) d)
    all_teams [].

(** [team_names.get(tid, f"Team {tid}")] *)
Definition display_name (names : Py.dict string) (tid : string) : string :=
  Py.get (Py.dict_get tid names) ("Team " ++ tid).

(** ** MatchupFormatter *)

(** The two marker literals, byte for byte as the source file holds them:
    a space, the bytes C3 A2 C2 AD (for [TOP_SCORER]) or C3 B0 C5 B8 E2 80
    99 C2 A9 (for [BIGGEST_BUST]), a space and the label.  The bytes are
    those of a star and of a pile-of-poo emoji decoded once too often; the
    program prints them as they stand. *)
Definition TOP_SCORER : string := " â­ TOP SCORER".
Definition BIGGEST_BUST : string := " ðŸ’© BIGGEST BUST".

Definition week_label (week_number : option Z) : string :=
  match week_number with
  | Some n => if (n =? 0)%Z then "THIS WEEK" else "WEEK " ++ Py.str_int n
  | None => "THIS WEEK"
  end.

Definition matchups_header (week_number : option Z) : string :=
  "=== " ++ week_label week_number ++ "'S MATCHUPS ===" ++ Py.nl.

Definition outcome (home_score away_score : Q) : string * string :=
  if Py.num_gt home_score away_score then ("WIN", "LOSS")
  else if Py.num_gt away_score home_score then ("LOSS", "WIN")
  else ("TIE", "TIE").

Definition starters_of (players : list PlayerStat.t) : list PlayerStat.t :=
  filter (fun p => Py.get (PlayerStat.is_starter p) false) players.

Definition points_key (p : PlayerStat.t) : Q := Py.get (PlayerStat.points p) 0%Q.

(** [p is q] *)
Definition same_object (p q : PlayerStat.t) : bool :=
  Nat.eqb (PlayerStat.oid p) (PlayerStat.oid q).

Definition marker (top bust p : PlayerStat.t) : string :=
  if same_object p top then TOP_SCORER
  else if same_object p bust then BIGGEST_BUST
  else EmptyString.

Definition starter_text (p : PlayerStat.t) : string :=
  "    " ++ Py.get (PlayerStat.name p) "Unknown"
    ++ " (" ++ Py.get (PlayerStat.position p) "??" ++ "): "
    ++ Py.fmt1 (points_key p) ++ " pts".

Definition starter_line (top bust p : PlayerStat.t) : string :=
  starter_text p ++ marker top bust p.

(** The lines of the [if starters: ... else: ...] statement. *)
Definition starter_lines (starters : list PlayerStat.t) : list string :=
  match starters with
  | [] => ["    No starter data available"]
  | s0 :: rest =>
      let top := Py.max_by points_key s0 rest in
      let bust := Py.min_by points_key s0 rest in
      map (starter_line top bust) starters
  end.

Definition side_lines (team_name : string) (score : Q) (result : string)
    (players : option (list PlayerStat.t)) : list string :=
  ("  " ++ team_name ++ " -- " ++ Py.fmt1 score ++ " pts (" ++ result ++ ")")
    :: starter_lines (starters_of (Py.get players [])) +++ [EmptyString].

Definition matchup_title (home_name : string) (home_score : Q)
    (away_name : string) (away_score : Q) : string :=
  home_name ++ " (" ++ Py.fmt1 home_score ++ ") vs "
    ++ away_name ++ " (" ++ Py.fmt1 away_score ++ ")".

(** The lines one pass of [for m in matchups] appends. *)
Definition matchup_lines (names : Py.dict string) (m : Matchup.t) : list string :=
  let home_id := Py.get (Matchup.home_team_id m) EmptyString in
  let away_id := Py.get (Matchup.away_team_id m) EmptyString in
  let home_name := display_name names home_id in
  let away_name := display_name names away_id in
  let home_score := Py.get (Matchup.home_score m) 0%Q in
  let away_score := Py.get (Matchup.away_score m) 0%Q in
  let (result_home, result_away) := outcome home_score away_score in
  [matchup_title home_name home_score away_name away_score; EmptyString]
    +++ side_lines home_name home_score result_home (Matchup.home_players m)
    +++ side_lines away_name away_score result_away (Matchup.away_players m)
    +++ ["---"].

Definition _format_matchups_section (matchups : option (list Matchup.t))
    (all_teams : list Team.t) (week_number : option Z) : string :=
  match matchups with
  | Some ((_ :: _) as ms) =>
      Py.str_join Py.nl
        (matchups_header week_number :: flat_map (matchup_lines (team_names all_teams)) ms)
  | _ => EmptyString
  end.

(** ** BracketFormatter *)

(** [e.get(flag, False)] used as a condition. *)
Definition flag (f : option bool) : bool := Py.get f false.

Definition PLAYOFF_BRACKET_HEADER : string := "=== PLAYOFF BRACKET ===".

(** The titles of the three groups.  The first one opens, in the source
    file, with the bytes C3 B0 C5 B8 E2 80 A0 (a trophy emoji decoded once
    too often). *)
Definition CHAMPIONSHIP_TITLE : string := "ðŸ† CHAMPIONSHIP MATCHUP:".
Definition WINNERS_TITLE : string := "WINNERS BRACKET:".
Definition CONSOLATION_TITLE : string := "CONSOLATION BRACKET (the losers' lounge):".

(** The three list comprehensions under [# Group entries by bracket type]. *)
Definition championship_group (playoff_bracket : list BracketEntry.t) : list BracketEntry.t :=
  filter (fun e => flag (BracketEntry.is_championship e)) playoff_bracket.

Definition winners_group (playoff_bracket : list BracketEntry.t) : list BracketEntry.t :=
  filter
    (fun e => negb (flag (BracketEntry.is_consolation e))
              && negb (flag (BracketEntry.is_championship e)))
    playoff_bracket.

Definition consolation_group (playoff_bracket : list BracketEntry.t) : list BracketEntry.t :=
  filter (fun e => flag (BracketEntry.is_consolation e)) playoff_bracket.

Definition entry_name (names : Py.dict string) (e : BracketEntry.t) : string :=
  display_name names (Py.get (BracketEntry.team_id e) EmptyString).

Definition entry_seed (e : BracketEntry.t) : string := Py.get (BracketEntry.seed e) "?".

Definition opponent_name (names : Py.dict string) (e : BracketEntry.t) : string :=
  let opp_id := Py.get (BracketEntry.opponent_team_id e) EmptyString in
  if Py.truthy_str opp_id then display_name names opp_id else "TBD".

Definition eliminated_tag (e : BracketEntry.t) : string :=
  if flag (BracketEntry.is_eliminated e) then " [ELIMINATED]" else EmptyString.

Definition championship_line (names : Py.dict string) (e : BracketEntry.t) : string :=
  "  #" ++ entry_seed e ++ " " ++ entry_name names e ++ " vs " ++ opponent_name names e.

Definition winners_line (names : Py.dict string) (e : BracketEntry.t) : string :=
  "  #" ++ entry_seed e ++ " " ++ entry_name names e
    ++ " (Round " ++ Py.get (BracketEntry.current_round e) "?" ++ ") vs "
    ++ opponent_name names e ++ eliminated_tag e.

Definition consolation_line (names : Py.dict string) (e : BracketEntry.t) : string :=
  "  #" ++ entry_seed e ++ " " ++ entry_name names e ++ eliminated_tag e.

(** [if group: lines.append(title); for entry in group: ...; lines.append("")] *)
Definition group_block {A : Type} (title : string) (line : A -> string) (group : list A)
    : list string :=
  match group with
  | [] => []
  | _ :: _ => title :: map line group +++ [EmptyString]
  end.

Definition bracket_lines (playoff_bracket : list BracketEntry.t) (all_teams : list Team.t)
    : list string :=
  let names := team_names all_teams in
  [PLAYOFF_BRACKET_HEADER ++ Py.nl]
    +++ group_block CHAMPIONSHIP_TITLE (championship_line names)
          (championship_group playoff_bracket)
    +++ group_block WINNERS_TITLE (winners_line names) (winners_group playoff_bracket)
    +++ group_block CONSOLATION_TITLE (consolation_line names)
          (consolation_group playoff_bracket).

Definition _format_playoff_bracket_section (playoff_bracket : option (list BracketEntry.t))
    (all_teams : list Team.t) : string :=
  match playoff_bracket with
  | Some ((_ :: _) as b) => Py.str_join Py.nl (bracket_lines b all_teams)
  | _ => EmptyString
  end.

(** ** NarrativeModeSelector *)

Definition PLAYOFF_MODE_HEADER : string := "=== ROASTING APPROACH (PLAYOFF MODE) ===".

(** The four list comprehensions of [_build_playoff_roasting_approach]. *)
Definition champ_teams (playoff_bracket : list BracketEntry.t) : list BracketEntry.t :=
  filter (fun e => flag (BracketEntry.is_championship e)) playoff_bracket.

Definition eliminated (playoff_bracket : list BracketEntry.t) : list BracketEntry.t :=
  filter (fun e => flag (BracketEntry.is_eliminated e)) playoff_bracket.

Definition consolation (playoff_bracket : list BracketEntry.t) : list BracketEntry.t :=
  filter
    (fun e => flag (BracketEntry.is_consolation e)
              && negb (flag (BracketEntry.is_eliminated e)))
    playoff_bracket.

Definition active (playoff_bracket : list BracketEntry.t) : list BracketEntry.t :=
  filter
    (fun e => negb (flag (BracketEntry.is_championship e))
              && negb (flag (BracketEntry.is_eliminated e))
              && negb (flag (BracketEntry.is_consolation e)))
    playoff_bracket.

(** [team_names.get(str(e.get("team_id", "")), "Unknown")] *)
Definition approach_name (names : Py.dict string) (e : BracketEntry.t) : string :=
  Py.get (Py.dict_get (Py.get (BracketEntry.team_id e) EmptyString) names) "Unknown".

Definition champ_names (names : Py.dict string) (playoff_bracket : list BracketEntry.t) : string :=
  Py.str_join ", " (map (approach_name names) (champ_teams playoff_bracket)).

Definition eliminated_names (names : Py.dict string) (playoff_bracket : list BracketEntry.t)
    : string :=
  Py.str_join ", " (map (approach_name names) (eliminated playoff_bracket)).

(** The sentence opens with the same seven bytes as [CHAMPIONSHIP_TITLE]. *)
Definition contenders_sentence (names_text : string) : string :=
  "ðŸ† CHAMPIONSHIP CONTENDERS (" ++ names_text ++ "): These teams are playing for "
    ++ "the title and their legacy. Roast them like legends on trial -- acknowledge "
    ++ "they made it this far, then question whether they deserve it. Reference their "
    ++ "seed, their bracket path, and why their opponent might end their dream.".

Definition active_sentence : string :=
  "ACTIVE BRACKET: Still alive but one bad week from elimination. Mock their "
    ++ "playoff seed, their matchup, and the pressure of knowing it could all end. "
    ++ "Reference their opponent and what a loss would mean.".

Definition consolation_sentence : string :=
  "CONSOLATION BRACKET: Already out of title contention but still playing "
    ++ "meaningless games. Mock the futility of consolation playoff wins. "
    ++ "They are playing for pride that does not exist.".

Definition eliminated_sentence (names_text : string) : string :=
  "ELIMINATED (" ++ names_text ++ "): Absolute destruction. Their season is OVER. "
    ++ "They are watching from the couch while others compete for glory. "
    ++ "Reference their seed, how far they fell, and the shame of early elimination.".

(** [if group: lines.append(sentence); lines.append("")] *)
Definition when_nonempty {A : Type} (group : list A) (sentence : string) : list string :=
  match group with
  | [] => []
  | _ :: _ => [sentence; EmptyString]
  end.

Definition playoff_approach_lines (playoff_bracket : list BracketEntry.t)
    (all_teams : list Team.t) : list string :=
  let names := team_names all_teams in
  [PLAYOFF_MODE_HEADER;
   EmptyString;
   "This is the PLAYOFFS. Every game is win-or-go-home. The stakes are real, "
     ++ "the pressure is crushing, and the roasts should match the intensity.";
   EmptyString]
    +++ when_nonempty (champ_teams playoff_bracket)
          (contenders_sentence (champ_names names playoff_bracket))
    +++ when_nonempty (active playoff_bracket) active_sentence
    +++ when_nonempty (consolation playoff_bracket) consolation_sentence
    +++ when_nonempty (eliminated playoff_bracket)
          (eliminated_sentence (eliminated_names names playoff_bracket)).

Definition _build_playoff_roasting_approach (playoff_bracket : list BracketEntry.t)
    (all_teams : list Team.t) : string :=
  Py.str_join Py.nl (playoff_approach_lines playoff_bracket all_teams).

(** Tier cutoffs. *)
Definition top_cutoff : Z := 3%Z.
Definition mid_cutoff (total_teams : Z) : Z := Z.min 7 (total_teams - 1)%Z.

Definition NOT_SPECIFIED : string := "not specified".

Definition regular_approach (sacko : string) (total_teams : Z) : string :=
  Py.str_join Py.nl
    ["=== ROASTING APPROACH ===";
     EmptyString;
     "TOP TIER (ranks 1-" ++ Py.str_int top_cutoff
       ++ "): Celebrate success with backhanded compliments. Find the crack -- luck-carried records, boneheaded decisions, fraudulent point differentials -- and stick your finger in it.";
     EmptyString;
     "MIDDLE TIER (ranks " ++ Py.str_int (top_cutoff + 1)%Z ++ "-"
       ++ Py.str_int (mid_cutoff total_teams)
       ++ "): These are the frauds and pretenders. Mock their inconsistency and mediocrity ruthlessly. Not good enough to celebrate, not bad enough to pity.";
     EmptyString;
     "BOTTOM TIER (ranks " ++ Py.str_int (mid_cutoff total_teams + 1)%Z
       ++ "+): Absolute destruction. Reference their actual terrible stats. Mock delusional optimism. "
       ++ (if String.eqb sacko NOT_SPECIFIED
           then "They are not tanking, they are just bad."
           else "The sacko punishment (" ++ sacko ++ ") is looming -- remind them VIVIDLY.")].

Definition offseason_approach (sacko : string) (total_teams : Z) : string :=
  Py.str_join Py.nl
    ["=== ROASTING APPROACH (OFFSEASON MODE) ===";
     EmptyString;
     "The season is OVER. These are the final standings. Every win, every loss, every embarrassing stat line is now permanently etched in league history. There are no more chances to redeem a garbage season or prove the doubters wrong.";
     EmptyString;
     "TOP TIER (ranks 1-" ++ Py.str_int top_cutoff
       ++ "): They won when it mattered. But did they REALLY earn it, or did they get carried by one lucky draft pick? Question their legacy. Were they actually good, or was everyone else just worse?";
     EmptyString;
     "MIDDLE TIER (ranks " ++ Py.str_int (top_cutoff + 1)%Z ++ "-"
       ++ Py.str_int (mid_cutoff total_teams)
       ++ "): The most forgettable teams in league history. Not good enough to celebrate, not bad enough to be memorable. They existed. That's about it.";
     EmptyString;
     "BOTTOM TIER (ranks " ++ Py.str_int (mid_cutoff total_teams + 1)%Z
       ++ "+): Their season was a disaster from start to finish. "
       ++ (if String.eqb sacko NOT_SPECIFIED
           then "They have nothing to show for an entire season of effort."
           else "The sacko punishment (" ++ sacko
                  ++ ") awaits -- describe their impending humiliation in vivid detail.")].

Definition PLAYOFF_REQUIREMENTS : string :=
  Py.str_join Py.nl
    ["- Reference each team's playoff seed and bracket position.";
     "- Emphasize elimination pressure -- every loss could be the last.";
     "- Mock eliminated teams mercilessly and reference their consolation bracket exile.";
     "- For head-to-head playoff matchups, reference what is at stake.";
     "- Give championship matchup teams an elevated, legacy-defining roast treatment."].

(** [season_phase == "playoffs" and bool(playoff_bracket)] *)
Definition is_playoff_mode (season_phase : string)
    (playoff_bracket : option (list BracketEntry.t)) : bool :=
  String.eqb season_phase "playoffs" && Py.truthy_list playoff_bracket.

Definition is_offseason (season_phase : string) : bool :=
  String.eqb season_phase "offseason".

(** What the [if is_playoff_mode: ... elif is_offseason: ... else: ...]
    statement of [_build_prompt] assigns. *)
Record ModeText := mkModeText {
  roasting_approach : string;
  bracket_section : string;
  playoff_requirements : string
}.

Definition mode_text (season_phase : string) (playoff_bracket : option (list BracketEntry.t))
    (resolve_teams : list Team.t) (sacko : string) (total_teams : Z) : ModeText :=
  if is_playoff_mode season_phase playoff_bracket then
    mkModeText
      (_build_playoff_roasting_approach (Py.get playoff_bracket []) resolve_teams)
      (_format_playoff_bracket_section playoff_bracket resolve_teams)
      PLAYOFF_REQUIREMENTS
  else if is_offseason season_phase then
    mkModeText (offseason_approach sacko total_teams) EmptyString EmptyString
  else
    mkModeText (regular_approach sacko total_teams) EmptyString EmptyString.

(** ** Exceptions *)

Inductive exn : Type :=
| JSONDecodeError
| KeyError
| TypeError
| AttributeError
| ValueError
| ServiceError.

Inductive result (A : Type) : Type :=
| Ok (a : A)
| Raise (e : exn).
Arguments Ok {A} a.
Arguments Raise {A} e.

Definition bind_result {A B : Type} (r : result A) (k : A -> result B) : result B :=
  match r with
  | Ok a => k a
  | Raise e => Raise e
  end.

(** A [for] loop whose body may raise: the first exception ends it. *)
Fixpoint map_result {A B : Type} (f : A -> result B) (l : list A) : result (list B) :=
  match l with
  | [] => Ok []
  | x :: rest =>
      bind_result (f x) (fun y =>
      bind_result (map_result f rest) (fun ys => Ok (y :: ys)))
  end.

(** ** PromptAssembler *)

Definition summary_text (p : PlayerSummary.t) : string :=
  PlayerSummary.name p ++ " (" ++ PlayerSummary.position p ++ ", "
    ++ PlayerSummary.points p ++ " pts)".

(** One pass of [for t in teams]: [t['name']] raises [KeyError] on a team
    without a name. *)
Definition team_block (t : Team.t) : result string :=
  match Team.name t with
  | None => Raise KeyError
  | Some name =>
      let players :=
        Py.str_join ", " (map summary_text (Py.get (Team.top_players t) [])) in
      Ok ("- ID: " ++ Team.id t ++ " | " ++ Py.dq ++ name ++ Py.dq
            ++ " owned by " ++ Team.owner t ++ Py.nl
            ++ "  Record: " ++ Team.record t
            ++ " | PF: " ++ Py.get (Team.points_for t) "?"
            ++ " | PA: " ++ Py.get (Team.points_against t) "?"
            ++ " | Streak: " ++ Py.get (Team.streak t) "?" ++ Py.nl
            ++ "  Top players: "
            ++ (if Py.truthy_str players then players else "none listed"))
  end.

Definition jokes_text (ctx : Ctx.t) : string :=
  match Py.get (Ctx.inside_jokes ctx) [] with
  | [] => "None provided."
  | jokes =>
      Py.str_join Py.nl
        (map (fun j => "- " ++ Py.dq ++ Joke.term j ++ Py.dq ++ ": " ++ Joke.explanation j)
           jokes)
  end.

Definition personalities_text (ctx : Ctx.t) : string :=
  match Py.get (Ctx.personalities ctx) [] with
  | [] => "None provided."
  | personalities =>
      Py.str_join Py.nl
        (map (fun p => "- " ++ Personality.player_name p ++ ": " ++ Personality.description p)
           personalities)
  end.

(** [", ".join(f'"{tid}"' for tid in team_ids)] with
    [team_ids = [t["id"] for t in teams]] *)
Definition id_list (teams : list Team.t) : string :=
  Py.str_join ", " (map (fun tid => Py.dq ++ tid ++ Py.dq) (map Team.id teams)).

(** [all_teams if all_teams else teams] *)
Definition resolve_teams (all_teams : option (list Team.t)) (teams : list Team.t)
    : list Team.t :=
  if Py.truthy_list all_teams then Py.get all_teams [] else teams.

Definition MATCHUP_REQUIREMENTS : string :=
  "- Reference specific player performances from this week's matchups. "
    ++ "Call out breakout games and busts BY NAME." ++ Py.nl
    ++ "- Mention at least one specific player performance per roast -- "
    ++ "use their actual point totals." ++ Py.nl
    ++ "- Mock teams that lost despite having a high-scoring player on their roster. "
    ++ "Mock teams that won despite having a bust starter.".

(** ["\n".join(r for r in [matchup_requirements, playoff_requirements] if r)] *)
Definition all_extra_requirements (matchup_requirements playoff_requirements : string)
    : string :=
  Py.str_join Py.nl (filter Py.truthy_str [matchup_requirements; playoff_requirements]).

Definition PREAMBLE : string :=
  "You are Skidmark -- the most vulgar, profane, brutally honest fantasy football roast bot ever created. Swearing is your native language: "
    ++ Py.dq ++ "fucking," ++ Py.dq ++ " " ++ Py.dq ++ "shit," ++ Py.dq ++ " "
    ++ Py.dq ++ "ass," ++ Py.dq ++ " " ++ Py.dq ++ "goddamn" ++ Py.dq
    ++ " and creative compound insults flow in every roast. You call out poor performances with zero sugarcoating. You are roasting FRIENDS -- the goal is laughs so hard they screenshot it for the group chat, not cruelty without comedic payoff.".

Definition KEYS_LABEL : string := "Keys for this batch: ".

(** The template after the [{id_list}] placeholder. *)
Definition OUTPUT_TAIL : string :=
  Py.nl ++ Py.nl
    ++ "Example: {" ++ Py.dq ++ "1" ++ Py.dq ++ ": " ++ Py.dq ++ "roast text here" ++ Py.dq
    ++ ", " ++ Py.dq ++ "2" ++ Py.dq ++ ": " ++ Py.dq ++ "roast text here" ++ Py.dq ++ "}"
    ++ Py.nl ++ Py.nl
    ++ "Now channel your inner Skidmark. Be vulgar. Be brutal. Be statistically accurate. Be fucking hilarious. Go.".

(** The template up to the [{id_list}] placeholder. *)
Definition prompt_head (mode : ModeText) (matchups_section extra_requirements : string)
    (teams_text : string) (ctx : Ctx.t) : string :=
  Py.str_join Py.nl
    [PREAMBLE;
     EmptyString;
     roasting_approach mode;
     EmptyString;
     matchups_section ++ bracket_section mode ++ "=== REQUIREMENTS ===";
     EmptyString;
     "- Every stat, score, and record you reference MUST be exactly correct from the data provided. Use real numbers to twist the knife.";
     "- Weave inside jokes and personality descriptions naturally into roasts -- these are GOLD. Generic insults are forgettable; personal references hit different. Only include inside jokes if you are confident it will make sense to the recipient and there is inside joke content loaded. ";
     "- Write exactly 3-5 punchy sentences per team. No filler, no warm-up intros. Every sentence hits.";
     "- Reference at least one actual statistic per roast.";
     "- Use vivid metaphors, pop culture references, dark humor, and absurd comparisons.";
     extra_requirements;
     EmptyString;
     "=== LEAGUE DATA ===";
     EmptyString;
     "TEAMS (ranked by standing):";
     teams_text;
     EmptyString;
     "INSIDE JOKES:";
     jokes_text ctx;
     EmptyString;
     "OWNER PERSONALITIES:";
     personalities_text ctx;
     EmptyString;
     "SACKO PUNISHMENT: " ++ Py.get (Ctx.sacko_punishment ctx) NOT_SPECIFIED;
     "LEAGUE CULTURE: " ++ Py.get (Ctx.culture_notes ctx) NOT_SPECIFIED;
     EmptyString;
     "=== OUTPUT FORMAT ===";
     EmptyString;
     "Return ONLY valid JSON (no markdown, no code fences). Each key is the team ID string, each value is the roast text (3-5 sentences).";
     KEYS_LABEL].

Definition _build_prompt (teams : list Team.t) (ctx : Ctx.t) (total_teams : Z)
    (matchups : option (list Matchup.t)) (week_number : option Z) (season_phase : string)
    (playoff_bracket : option (list BracketEntry.t)) (all_teams : option (list Team.t))
    : result string :=
  bind_result (map_result team_block teams) (fun team_blocks =>
    let teams_text := Py.str_join Py.nl team_blocks in
    let sacko := Py.get (Ctx.sacko_punishment ctx) NOT_SPECIFIED in
    let resolve := resolve_teams all_teams teams in
    let matchups_section :=
      if Py.truthy_list matchups
      then _format_matchups_section matchups resolve week_number
      else EmptyString in
    let matchup_requirements :=
      if Py.truthy_list matchups then MATCHUP_REQUIREMENTS else EmptyString in
    let mode := mode_text season_phase playoff_bracket resolve sacko total_teams in
    Ok (prompt_head mode matchups_section
          (all_extra_requirements matchup_requirements (playoff_requirements mode))
          teams_text ctx
        ++ id_list teams ++ OUTPUT_TAIL)).

(** ** Response decoder: the string operations of [_call_bedrock] *)

Module Str.

Fixpoint rev (s : string) : string :=
  match s with
  | EmptyString => EmptyString
  | String c s' => rev s' ++ String c EmptyString
  end.

Fixpoint drop (n : nat) (s : string) : string :=
  match n, s with
  | O, _ => s
  | S _, EmptyString => EmptyString
  | S n', String _ s' => drop n' s'
  end.

(** [s.startswith(p)] and [s.endswith(p)] *)
Definition startswith (p s : string) : bool := String.prefix p s.
Definition endswith (p s : string) : bool := String.prefix (rev p) (rev s).

(** [s[:-n]] for [0 < n] *)
Definition drop_last (n : nat) (s : string) : string := rev (drop n (rev s)).

Definition newline : ascii := ascii_of_nat 10.

(** ["\n" in s] *)
Fixpoint has_newline (s : string) : bool :=
  match s with
  | EmptyString => false
  | String c s' => if Ascii.eqb c newline then true else has_newline s'
  end.

(** [s.split("\n", 1)[1]] when [s] has a newline. *)
Fixpoint after_first_newline (s : string) : string :=
  match s with
  | EmptyString => EmptyString
  | String c s' => if Ascii.eqb c newline then s' else after_first_newline s'
  end.

Definition bytes (l : list nat) : string :=
  string_of_list_ascii (map ascii_of_nat l).

(** The characters [str.strip()] removes, each as its UTF-8 bytes:
    U+0009..U+000D, U+001C..U+001F, U+0020, U+0085, U+00A0, U+1680,
    U+2000..U+200A, U+2028, U+2029, U+202F, U+205F, U+3000. *)
Definition whitespace : list string :=
  map (fun b => bytes [b]) [9; 10; 11; 12; 13; 28; 29; 30; 31; 32]
  +++ [bytes [194; 133]; bytes [194; 160]; bytes [225; 154; 128]]
  +++ map (fun b => bytes [226; 128; b]) [128; 129; 130; 131; 132; 133; 134; 135; 136; 137; 138]
  +++ [bytes [226; 128; 168]; bytes [226; 128; 169]; bytes [226; 128; 175];
       bytes [226; 129; 159]; bytes [227; 128; 128]].

(** Removes one leading marker of [marks], if there is one. *)
Fixpoint strip_one (marks : list string) (s : string) : option string :=
  match marks with
  | [] => None
  | m :: rest =>
      if String.prefix m s then Some (drop (String.length m) s) else strip_one rest s
  end.

Fixpoint strip_leading (marks : list string) (fuel : nat) (s : string) : string :=
  match fuel with
  | O => s
  | S fuel' =>
      match strip_one marks s with
      | Some s' => strip_leading marks fuel' s'
      | None => s
      end
  end.

(** [s.lstrip()], [s.rstrip()], [s.strip()]: each removal takes at
    least one byte, so the length of [s] is fuel enough. *)
Definition lstrip (s : string) : string :=
  strip_leading whitespace (String.length s) s.

Definition rstrip (s : string) : string :=
  rev (strip_leading (map rev whitespace) (String.length s) (rev s)).

Definition strip (s : string) : string := rstrip (lstrip s).

End Str.

Definition FENCE : string := "```".

(** The statements of [_call_bedrock] under
    [# Strip markdown fences if Claude wraps the JSON anyway]. *)
Definition strip_fences (text : string) : string :=
  let text := Str.strip text in
  if Str.startswith FENCE text then
    let text :=
      if Str.has_newline text then Str.after_first_newline text else Str.drop 3 text in
    let text := if Str.endswith FENCE text then Str.drop_last 3 text else text in
    Str.strip text
  else text.

(** ** BatchCoordinator *)

Definition BATCH_SIZE : nat := 2.

(** [range(0, stop, step)] for [0 < step] *)
Definition range_step (stop step : nat) : list nat :=
  map (fun k => k * step) (seq 0 ((stop + step - 1) / step)).

(** [l[i:j]] for [i <= j] *)
Definition slice {A : Type} (l : list A) (i j : nat) : list A :=
  firstn (j - i) (skipn i l).

(** [[teams[i:i + BATCH_SIZE] for i in range(0, len(teams), BATCH_SIZE)]] *)
Definition batches (teams : list Team.t) : list (list Team.t) :=
  map (fun i => slice teams i (i + BATCH_SIZE)) (range_step (length teams) BATCH_SIZE).

(** The prompt [_generate_roasts_parallel] builds for one batch. *)
Definition batch_prompt (teams : list Team.t) (ctx : Ctx.t)
    (matchups : option (list Matchup.t)) (week_number : option Z) (season_phase : string)
    (playoff_bracket : option (list BracketEntry.t)) (batch : list Team.t) : result string :=
  _build_prompt batch ctx (Z.of_nat (length teams)) matchups week_number season_phase
    playoff_bracket (Some teams).

(** The roasts of a response: team id to roast text. *)
Definition Roasts : Type := Py.dict string.

(** A computation that may raise and that records, in order, the prompts
    for which a generation call was started. *)
Definition Gen (A : Type) : Type := list string -> result A * list string.

Definition ret {A : Type} (a : A) : Gen A := fun calls => (Ok a, calls).
Definition raise {A : Type} (e : exn) : Gen A := fun calls => (Raise e, calls).
Definition lift {A : Type} (r : result A) : Gen A := fun calls => (r, calls).
Definition bind {A B : Type} (m : Gen A) (k : A -> Gen B) : Gen B :=
  fun calls =>
    match m calls with
    | (Ok a, calls') => k a calls'
    | (Raise e, calls') => (Raise e, calls')
    end.

Notation "x <- m ;; k" := (bind m (fun x => k))
  (at level 61, m at next level, right associativity).

(** The request envelope. *)
Module Request.
Record t := mk {
  teams : option (list Team.t);
  context : option Ctx.t;
  matchups : option (list Matchup.t);
  week_number : option Z;
  season_phase : option string;
  playoff_bracket : option (list BracketEntry.t)
}.
End Request.

(** What [json.loads] makes of a body text: a JSON object, read at the
    type of the envelope, or any other JSON value. *)
Inductive Decoded : Type :=
| DObject (r : Request.t)
| DOther.

(** [event["body"]]: no such key, [None], or a text. *)
Inductive EventBody : Type :=
| BodyMissing
| BodyNull
| BodyText (s : string).

Inductive ResponseBody : Type :=
| RoastsBody (roasts : Roasts)
| ErrorBody (error : string).

Module Response.
Record t := mk {
  statusCode : Z;
  headers : list (string * string);
  body : ResponseBody
}.
End Response.

(** [_response(status, body)]; the body is kept before [json.dumps]. *)
Definition _response (status : Z) (body : ResponseBody) : Response.t :=
  Response.mk status
    [("Content-Type", "application/json"); ("Access-Control-Allow-Origin", "*")]
    body.

Section Service.

(** The collaborators of the handler, outside the repository. *)

(** [json.loads] on a request body; [None]: it raises [JSONDecodeError]. *)
Variable json_loads_body : string -> option Decoded.

(** [json.loads] on a response text, read as a mapping from team id to
    roast text; [None]: it raises [JSONDecodeError]. *)
Variable json_loads_roasts : string -> option Roasts.

(** [bedrock.invoke_model] on the request for a prompt, followed by the
    reading of [result["content"][0]["text"]]. *)
Variable invoke_model : string -> result string.

(** The order in which [as_completed] yields the submitted futures: some
    rearrangement of them, different from run to run. *)
Variable as_completed : list (result Roasts) -> list (result Roasts).

(** The statements of [_call_bedrock] after the call. *)
Definition parse_response (text : string) : result Roasts :=
  match json_loads_roasts (strip_fences text) with
  | Some roasts => Ok roasts
  | None => Raise JSONDecodeError
  end.

Definition _call_bedrock (prompt : string) : Gen Roasts :=
  fun calls => (bind_result (invoke_model prompt) parse_response, calls +++ [prompt]).

(** [executor.submit(_call_bedrock, prompt)]: the call is started, what it
    returns or raises is kept in the future. *)
Definition submit (prompt : string) : Gen (result Roasts) :=
  fun calls => (Ok (fst (_call_bedrock prompt calls)), snd (_call_bedrock prompt calls)).

(** The dict comprehension over [batches]: each prompt is built, then
    submitted, before the next one is built. *)
Fixpoint submit_all (prompt_of : list Team.t -> result string)
    (bs : list (list Team.t)) : Gen (list (result Roasts)) :=
  match bs with
  | [] => ret []
  | batch :: rest =>
      prompt <- lift (prompt_of batch) ;;
      future <- submit prompt ;;
      futures <- submit_all prompt_of rest ;;
      ret (future :: futures)
  end.

(** [for future in ...: merged.update(future.result())] *)
Fixpoint merge_results (merged : Roasts) (futures : list (result Roasts)) : result Roasts :=
  match futures with
  | [] => Ok merged
  | Ok roasts :: rest => merge_results (Py.dict_update merged roasts) rest
  | Raise e :: _ => Raise e
  end.

Definition _generate_roasts_parallel (teams : list Team.t) (ctx : Ctx.t)
    (matchups : option (list Matchup.t)) (week_number : option Z) (season_phase : string)
    (playoff_bracket : option (list BracketEntry.t)) : Gen Roasts :=
  let prompt_of := batch_prompt teams ctx matchups week_number season_phase playoff_bracket in
  match batches teams with
  | [batch] =>
      prompt <- lift (prompt_of batch) ;;
      _call_bedrock prompt
  | [] => raise ValueError
  | bs =>
      futures <- submit_all prompt_of bs ;;
      lift (merge_results [] (as_completed futures))
  end.

Definition handler_body (event_body : EventBody) : Gen Response.t :=
  text <- (match event_body with
           | BodyMissing => ret "{}"
           | BodyNull => raise TypeError
           | BodyText s => ret s
           end) ;;
  body <- (match json_loads_body text with
           | None => raise JSONDecodeError
           | Some DOther => raise AttributeError
           | Some (DObject r) => ret r
           end) ;;
  let teams := Request.teams body in
  let ctx := Py.get (Request.context body) Ctx.empty in
  if negb (Py.truthy_list teams) then
    ret (_response 400%Z (ErrorBody "No teams provided"))
  else
    let matchups := Some (Py.get (Request.matchups body) []) in
    let week_number := Request.week_number body in
    let season_phase := Py.get (Request.season_phase body) "regular_season" in
    let playoff_bracket := Request.playoff_bracket body in
    roasts <- _generate_roasts_parallel (Py.get teams []) ctx matchups week_number
                season_phase playoff_bracket ;;
    ret (_response 200%Z (RoastsBody roasts)).

(** [handler(event, context)], on the ["body"] entry of the event: the
    response, and the prompts for which a generation call was started. *)
Definition handler (event_body : EventBody) : Response.t * list string :=
  match handler_body event_body [] with
  | (Ok response, calls) => (response, calls)
  | (Raise JSONDecodeError, calls) => (_response 400%Z (ErrorBody "Invalid JSON body"), calls)
  | (Raise _, calls) => (_response 500%Z (ErrorBody "Failed to generate roasts"), calls)
  end.

End Service.

(** The [k]-th run of [step] consecutive elements of a list. *)
Definition chunk {A : Type} (step : nat) (l : list A) (k : nat) : list A :=
  firstn step (skipn (k * step) l).

(** The characters that open or close a JSON object text or a fence. *)
Definition solid (c : ascii) : Prop := c = "{"%char \/ c = "}"%char \/ c = "`"%char.

(** The prompts of a list of builds up to the first one that raises. *)
Fixpoint ok_prefix {A : Type} (l : list (result A)) : list A :=
  match l with
  | Ok a :: rest => a :: ok_prefix rest
  | _ => []
  end.

(** ** Rank bands of the tier template

    The three bands the regular-season and offseason templates display:
    [ranks 1-{top_cutoff}], [ranks {top_cutoff + 1}-{mid_cutoff}] and
    [ranks {mid_cutoff + 1}+], the last one read up to the last rank. *)

Definition in_top_tier (rank : Z) : bool :=
  ((1 <=? rank) && (rank <=? top_cutoff))%Z.

Definition in_middle_tier (total_teams rank : Z) : bool :=
  ((top_cutoff + 1 <=? rank) && (rank <=? mid_cutoff total_teams))%Z.

Definition in_bottom_tier (total_teams rank : Z) : bool :=
  ((mid_cutoff total_teams + 1 <=? rank) && (rank <=? total_teams))%Z.

(** The number of bands a rank stands in. *)
Definition tier_count (total_teams rank : Z) : nat :=
  length (filter (fun b : bool => b)
            [in_top_tier rank; in_middle_tier total_teams rank;
             in_bottom_tier total_teams rank]).

(** ** Extremes of a starter list

    [first_max_at l i]: position [i] of [l] holds a starter of maximal
    points and every earlier starter has strictly fewer points;
    [first_min_at] likewise for minimal points. *)





(** ** Sample data *)

Module Sample.

Definition team (id name : string) : Team.t :=
  Team.mk id (Some name) "Owner" "5-3" (Some "900") (Some "850") (Some "W2")
    (Some [PlayerSummary.mk "Player X" "QB" "20.0"]).

Definition teams : list Team.t :=
  [team "1" "Eagles"; team "2" "Bears"; team "3" "Lions"].

Definition entry (team_id seed : string) (opponent : option string)
    (is_eliminated is_consolation is_championship : bool) : BracketEntry.t :=
  BracketEntry.mk (Some team_id) (Some seed) (Some "1") opponent
    (Some is_eliminated) (Some is_consolation) (Some is_championship).

(** A championship entry that is also flagged as consolation. *)
Definition both_flags : BracketEntry.t := entry "1" "1" (Some "2") false true true.

(** A championship entry that is also flagged as eliminated. *)
Definition fallen_finalist : BracketEntry.t := entry "2" "2" (Some "1") true false true.

Definition player (oid : nat) (name position : string) (points : Q) : PlayerStat.t :=
  PlayerStat.mk oid (Some name) (Some position) (Some points) (Some true).

Definition starters : list PlayerStat.t :=
  [player 0 "Star QB" "QB" 30%Q; player 1 "Bust WR" "WR" (21 # 10)%Q;
   player 2 "OK TE" "TE" 8%Q].

Definition matchup : Matchup.t :=
  Matchup.mk (Some "1") (Some "2") (Some 110%Q) (Some 95%Q) (Some starters) None.

(** A matchup that carries no score at all. *)
Definition unscored : Matchup.t :=
  Matchup.mk (Some "1") (Some "2") None None None None.

(** A response text, the roasts it denotes, and [json.loads] on that
    text alone. *)
Definition roasts_body : string :=
  Py.dq ++ "1" ++ Py.dq ++ ": " ++ Py.dq ++ "Fraud." ++ Py.dq ++ ", "
    ++ Py.dq ++ "2" ++ Py.dq ++ ": " ++ Py.dq ++ "Pretender." ++ Py.dq.

Definition roasts : Roasts := [("1", "Fraud."); ("2", "Pretender.")].

Definition loads_roasts (s : string) : option Roasts :=
  if String.eqb s ("{" ++ roasts_body ++ "}") then Some roasts else None.

Definition fenced_response : string :=
  FENCE ++ "json" ++ Py.nl ++ "{" ++ roasts_body ++ "}" ++ Py.nl ++ FENCE.

(** [json.loads] on the body texts [[]] (a list) and [{}] (an object
    without keys), every other text taken as not decodable. *)
Definition loads_body (s : string) : option Decoded :=
  if String.eqb s "[]" then Some DOther
  else if String.eqb s "{}"
       then Some (DObject (Request.mk None None None None None None))
       else None.

Definition no_service (prompt : string) : result string := Raise ServiceError.

(** A service that answers every prompt with the fenced sample response. *)
Definition fenced_service (prompt : string) : result string := Ok fenced_response.

Definition in_order (futures : list (result Roasts)) : list (result Roasts) := futures.

End Sample.

(** ** Definitions for the further properties *)

(** The text [json.loads] is given: [event.get("body", "{}")] when it is a
    text. *)
Definition body_text_of (event_body : EventBody) : option string :=
  match event_body with
  | BodyMissing => Some "{}"
  | BodyNull => None
  | BodyText s => Some s
  end.

(** The answer of the handler to what [_generate_roasts_parallel] returned
    or raised, with the calls it started. *)
Definition answer_of (run : result Roasts * list string) : Response.t * list string :=
  match fst run with
  | Ok roasts => (_response 200%Z (RoastsBody roasts), snd run)
  | Raise JSONDecodeError => (_response 400%Z (ErrorBody "Invalid JSON body"), snd run)
  | Raise _ => (_response 500%Z (ErrorBody "Failed to generate roasts"), snd run)
  end.

(** The run of [_generate_roasts_parallel] the handler makes for an
    envelope. *)
Definition run_of (json_loads_roasts : string -> option Roasts)
    (invoke_model : string -> result string)
    (as_completed : list (result Roasts) -> list (result Roasts))
    (r : Request.t) : result Roasts * list string :=
  _generate_roasts_parallel json_loads_roasts invoke_model as_completed
    (Py.get (Request.teams r) []) (Py.get (Request.context r) Ctx.empty)
    (Some (Py.get (Request.matchups r) [])) (Request.week_number r)
    (Py.get (Request.season_phase r) "regular_season")
    (Request.playoff_bracket r) [].

(** What the future of a batch holds once its call is over. *)
Definition outcome_of (json_loads_roasts : string -> option Roasts)
    (invoke_model : string -> result string) (prompt : string) : result Roasts :=
  bind_result (invoke_model prompt) (parse_response json_loads_roasts).

(** The ASCII characters [str.strip()] removes. *)
Definition ascii_space (c : ascii) : bool :=
  existsb (Ascii.eqb c) (map ascii_of_nat [9; 10; 11; 12; 13; 28; 29; 30; 31; 32]).

(** A text made of such characters only. *)
Fixpoint blank (w : string) : bool :=
  match w with
  | EmptyString => true
  | String c w' => ascii_space c && blank w'
  end.

(** [x] stands somewhere in [s]. *)
Definition occurs_in (x s : string) : Prop := exists pre post, s = pre ++ x ++ post.

(** The title line of a matchup, as [matchup_lines] writes it. *)
Definition title_of (names : Py.dict string) (m : Matchup.t) : string :=
  matchup_title
    (display_name names (Py.get (Matchup.home_team_id m) EmptyString))
    (Py.get (Matchup.home_score m) 0%Q)
    (display_name names (Py.get (Matchup.away_team_id m) EmptyString))
    (Py.get (Matchup.away_score m) 0%Q).

(** The starters of both sides of a matchup. *)
Definition starters_in (m : Matchup.t) : list PlayerStat.t :=
  starters_of (Py.get (Matchup.home_players m) [])
  +++ starters_of (Py.get (Matchup.away_players m) []).

(** The text every line of a bracket entry opens with. *)
Definition entry_tag (names : Py.dict string) (e : BracketEntry.t) : string :=
  "  #" ++ entry_seed e ++ " " ++ entry_name names e.

(** The lines that follow the first line equal to [title], up to the next
    empty line: what the section lists under this title.  [None]: no line
    is the title. *)
Fixpoint until_blank (lines : list string) : list string :=
  match lines with
  | [] => []
  | l :: rest => if String.eqb l EmptyString then [] else l :: until_blank rest
  end.

Fixpoint listed_under (title : string) (lines : list string) : option (list string) :=
  match lines with
  | [] => None
  | l :: rest => if String.eqb l title then Some (until_blank rest) else listed_under title rest
  end.

(** The lines of the entries that pass [test], in bracket order; [None]
    when no entry passes. *)
Definition lines_of (line : BracketEntry.t -> string) (test : BracketEntry.t -> bool)
    (playoff_bracket : list BracketEntry.t) : option (list string) :=
  match filter test playoff_bracket with
  | [] => None
  | group => Some (map line group)
  end.

(** The number of groups the flags of an entry send it to. *)
Definition group_count (e : BracketEntry.t) : nat :=
  length (filter (fun b : bool => b)
            [flag (BracketEntry.is_championship e);
             flag (BracketEntry.is_consolation e);
             negb (flag (BracketEntry.is_championship e))
               && negb (flag (BracketEntry.is_consolation e))]).

(** The last team of [all_teams] that carries the id [tid]: the one whose
    entry the dict comprehension of the team directory keeps. *)
Definition last_team_with (tid : string) (all_teams : list Team.t) : option Team.t :=
  find (fun t => String.eqb (Team.id t) tid) (rev all_teams).

(** ** The inputs of the test suite *)

Module Suite.

(** [_make_matchup("1", "2")] *)
Definition matchup : Matchup.t :=
  Matchup.mk (Some "1") (Some "2") (Some 110%Q) (Some 95%Q)
    (Some [PlayerStat.mk 0 (Some "Star QB") (Some "QB") (Some 30%Q) (Some true);
           PlayerStat.mk 1 (Some "Bust WR") (Some "WR") (Some (21 # 10)%Q) (Some true);
           PlayerStat.mk 2 (Some "Bench RB") (Some "RB") (Some 0%Q) (Some false)])
    (Some [PlayerStat.mk 3 (Some "Solid RB") (Some "RB") (Some (37 # 2)%Q) (Some true);
           PlayerStat.mk 4 (Some "OK TE") (Some "TE") (Some 8%Q) (Some true)]).

(** [[_make_team("1", "Eagles"), _make_team("2", "Bears")]] *)
Definition teams : list Team.t := [Sample.team "1" "Eagles"; Sample.team "2" "Bears"].

(** The texts [test_top_scorer_highlighted] and
    [test_biggest_bust_highlighted] look for in the section. *)
Definition expected_top : string := "Star QB (QB): 30.0 pts ⭐ TOP SCORER".
Definition expected_bust : string := "Bust WR (WR): 2.1 pts 💩 BIGGEST BUST".

End Suite.

(** ** Demonstration data for the handler *)

Module Demo.

Definition team : Team.t := Team.mk "1" (Some "Eagles") "Alice" "5-3" None None None None.

Definition request : Request.t := Request.mk (Some [team]) None None None None None.

(** The body text of [request]. *)
Definition body_text : string :=
  "{" ++ Py.dq ++ "teams" ++ Py.dq ++ ": [{"
    ++ Py.dq ++ "id" ++ Py.dq ++ ": " ++ Py.dq ++ "1" ++ Py.dq ++ ", "
    ++ Py.dq ++ "name" ++ Py.dq ++ ": " ++ Py.dq ++ "Eagles" ++ Py.dq ++ ", "
    ++ Py.dq ++ "owner" ++ Py.dq ++ ": " ++ Py.dq ++ "Alice" ++ Py.dq ++ ", "
    ++ Py.dq ++ "record" ++ Py.dq ++ ": " ++ Py.dq ++ "5-3" ++ Py.dq ++ "}]}".

(** [json.loads] on [body_text] alone. *)
Definition loads_body (s : string) : option Decoded :=
  if String.eqb s body_text then Some (DObject request) else None.

(** A team object without the ["name"] key. *)
Definition nameless : Team.t := Team.mk "7" None "Bob" "0-8" None None None None.

(** A service that answers in prose. *)
Definition prose_service (prompt : string) : result string :=
  Ok "Sorry, I cannot roast these teams.".

End Demo.

(** * Properties *)

(** ** Strings and joins *)

Lemma str_join_cons (sep x y : string) (l : list string) :
  Py.str_join sep (x :: y :: l) = x ++ sep ++ Py.str_join sep (y :: l).
Proof. reflexivity. Qed.

Lemma string_app_assoc (a b c : string) : (a ++ b) ++ c = a ++ b ++ c.
Proof. induction a as [|ch a IH]; simpl; [reflexivity | now rewrite IH]. Qed.

Lemma string_app_nil_r (a : string) : a ++ EmptyString = a.
Proof. induction a as [|ch a IH]; simpl; [reflexivity | now rewrite IH]. Qed.

Lemma prefix_nil (s : string) : String.prefix EmptyString s = true.
Proof. now destruct s. Qed.

Lemma prefix_app (p x y : string) :
  String.prefix p x = true -> String.prefix p (x ++ y) = true.
Proof.
  revert x; induction p as [|c p IH]; intros x H; [apply prefix_nil|].
  destruct x as [|d x]; simpl in *; [discriminate|].
  destruct (ascii_dec c d); [now apply IH | discriminate].
Qed.

Lemma prefix_str_join_head (p sep x : string) (l : list string) :
  String.prefix p x = true -> String.prefix p (Py.str_join sep (x :: l)) = true.
Proof.
  intros H; destruct l as [|y l]; [exact H|].
  rewrite str_join_cons; now apply prefix_app.
Qed.

(** A line of a joined text stands in it between a left and a right context. *)
Lemma str_join_In (sep line : string) (l : list string) :
  In line l -> exists pre post, Py.str_join sep l = pre ++ line ++ post.
Proof.
  induction l as [|x l IH]; intros Hin; [destruct Hin|].
  destruct l as [|y l].
  - destruct Hin as [->|[]]. exists EmptyString, EmptyString.
    simpl; now rewrite string_app_nil_r.
  - rewrite str_join_cons. destruct Hin as [->|Hin].
    + exists EmptyString, (sep ++ Py.str_join sep (y :: l)). reflexivity.
    + destruct (IH Hin) as (pre & post & E). rewrite E.
      exists (x ++ sep ++ pre), post. now rewrite !string_app_assoc.
Qed.

(** ** Lemmas shared by the properties *)

Lemma str_join_snoc (sep x y : string) (l : list string) :
  Py.str_join sep ((x :: l) +++ [y]) = Py.str_join sep (x :: l) ++ sep ++ y.
Proof.
  revert x. induction l as [|z l IH]; intros x; [reflexivity|].
  cbn [app]. rewrite str_join_cons.
  change (z :: l +++ [y]) with ((z :: l) +++ [y]).
  rewrite IH, str_join_cons. now rewrite !string_app_assoc.
Qed.

Lemma Ok_inj {A : Type} (a b : A) : Ok a = Ok b -> a = b.
Proof. now intros [= ->]. Qed.

Lemma first_char_differs (a b : string) :
  String.get 0 a <> String.get 0 b -> a <> b.
Proof. intros H E. apply H. now rewrite E. Qed.

Lemma occurs_in_trans (x y z : string) : occurs_in x y -> occurs_in y z -> occurs_in x z.
Proof.
  intros (a & b & ->) (c & d & ->). exists (c ++ a), (b ++ d).
  now rewrite !string_app_assoc.
Qed.

Lemma occurs_in_prefix (x rest s : string) : occurs_in (x ++ rest) s -> occurs_in x s.
Proof.
  intros (a & b & ->). exists a, (rest ++ b). now rewrite !string_app_assoc.
Qed.

Lemma occurs_in_refl (x : string) : occurs_in x x.
Proof. exists EmptyString, EmptyString. now rewrite string_app_nil_r. Qed.

Lemma occurs_in_app_l (x a b : string) : occurs_in x a -> occurs_in x (a ++ b).
Proof.
  intros (pre & post & ->). exists pre, (post ++ b). now rewrite !string_app_assoc.
Qed.

Lemma occurs_in_app_r (x a b : string) : occurs_in x b -> occurs_in x (a ++ b).
Proof.
  intros (pre & post & ->). exists (a ++ pre), post. now rewrite !string_app_assoc.
Qed.

Lemma occurs_in_line (sep line : string) (l : list string) :
  In line l -> occurs_in line (Py.str_join sep l).
Proof. apply str_join_In. Qed.

Lemma str_join_layout (sep a c e m0 k : string) (mid : list string) :
  Py.str_join sep (a :: EmptyString :: c :: EmptyString :: e :: ((m0 :: mid) +++ [k]))
  = a ++ sep ++ sep ++ c ++ sep ++ sep ++ e ++ sep
      ++ (Py.str_join sep (m0 :: mid) ++ sep) ++ k.
Proof.
  cbn [app]. do 5 rewrite str_join_cons. cbn [append].
  change (m0 :: (mid +++ [k])) with ((m0 :: mid) +++ [k]).
  now rewrite str_join_snoc, string_app_assoc.
Qed.

(** The layout of a built prompt: the preamble, the approach text, the
    matchup section, the bracket section and the REQUIREMENTS header in this
    order, and at the end the key list and the closing text. *)
Lemma prompt_layout teams ctx total_teams matchups week_number season_phase
    playoff_bracket all_teams prompt :
  _build_prompt teams ctx total_teams matchups week_number season_phase
    playoff_bracket all_teams = Ok prompt ->
  exists middle,
    prompt
    = PREAMBLE ++ Py.nl ++ Py.nl
        ++ roasting_approach
             (mode_text season_phase playoff_bracket (resolve_teams all_teams teams)
                (Py.get (Ctx.sacko_punishment ctx) NOT_SPECIFIED) total_teams)
        ++ Py.nl ++ Py.nl
        ++ _format_matchups_section matchups (resolve_teams all_teams teams) week_number
        ++ bracket_section
             (mode_text season_phase playoff_bracket (resolve_teams all_teams teams)
                (Py.get (Ctx.sacko_punishment ctx) NOT_SPECIFIED) total_teams)
        ++ "=== REQUIREMENTS ===" ++ Py.nl
        ++ middle
        ++ KEYS_LABEL ++ id_list teams ++ OUTPUT_TAIL.
Proof.
  intros H. set (resolve := resolve_teams all_teams teams).
  set (mode := mode_text season_phase playoff_bracket resolve
                 (Py.get (Ctx.sacko_punishment ctx) NOT_SPECIFIED) total_teams).
  unfold _build_prompt in H.
  destruct (map_result team_block teams) as [blocks|]; [|discriminate].
  cbn [bind_result] in H. cbv zeta in H. apply Ok_inj in H. subst prompt.
  fold resolve. fold mode.
  assert (Esec : (if Py.truthy_list matchups
                  then _format_matchups_section matchups resolve week_number
                  else EmptyString)
                 = _format_matchups_section matchups resolve week_number).
  { destruct matchups as [[|m ms]|]; reflexivity. }
  rewrite Esec. unfold prompt_head.
  match goal with
  | |- exists middle,
         Py.str_join ?sep (?a :: _ :: ?c :: _ :: ?e :: ?m0 :: ?rest) ++ _ = _ =>
      exists (Py.str_join sep (m0 :: removelast rest) ++ sep);
      change (m0 :: rest) with ((m0 :: removelast rest) +++ [KEYS_LABEL]);
      rewrite (str_join_layout sep a c e m0 KEYS_LABEL (removelast rest))
  end.
  rewrite !string_app_assoc. reflexivity.
Qed.

Lemma dict_get_set_same {V : Type} (k : string) (v : V) (d : Py.dict V) :
  Py.dict_get k (Py.dict_set k v d) = Some v.
Proof.
  induction d as [|[k' v'] d IH]; simpl.
  - now rewrite String.eqb_refl.
  - destruct (String.eqb k' k) eqn:E; simpl; rewrite E; [reflexivity | exact IH].
Qed.

Lemma dict_get_set_other {V : Type} (k k' : string) (v : V) (d : Py.dict V) :
  String.eqb k' k = false ->
  Py.dict_get k (Py.dict_set k' v d) = Py.dict_get k d.
Proof.
  intros Hk. induction d as [|[k0 v0] d IH]; simpl.
  - now rewrite Hk.
  - destruct (String.eqb k0 k') eqn:E; simpl.
    + apply String.eqb_eq in E. subst k0. now rewrite Hk.
    + destruct (String.eqb k0 k); [reflexivity | exact IH].
Qed.

Lemma map_result_shape {A B : Type} (f : A -> result B) (l : list A) :
  match map_result f l with
  | Ok ys => Forall2 (fun x y => f x = Ok y) l ys
  | Raise e => exists x, In x l /\ f x = Raise e
  end.
Proof.
  induction l as [|x l IH]; [constructor|].
  cbn [map_result]. destruct (f x) as [y|e] eqn:Ex; cbn [bind_result].
  - destruct (map_result f l) as [ys|e]; cbn [bind_result].
    + now constructor.
    + destruct IH as (x' & Hin & Hx'). exists x'. split; [now right | exact Hx'].
  - exists x. split; [now left | exact Ex].
Qed.

Lemma ok_prefix_all {A B : Type} (f : A -> result B) (l : list A) :
  (forall x, In x l -> exists y, f x = Ok y) ->
  map Ok (ok_prefix (map f l)) = map f l.
Proof.
  induction l as [|x l IH]; intros H; [reflexivity|].
  cbn [map ok_prefix]. destruct (H x (or_introl eq_refl)) as (y & Ey). rewrite Ey.
  cbn [map]. f_equal. apply IH. intros x' Hx'. apply H. now right.
Qed.

Lemma Forall2_In_l {A B : Type} (R : A -> B -> Prop) (l : list A) (l' : list B) (x : A) :
  Forall2 R l l' -> In x l -> exists y, In y l' /\ R x y.
Proof.
  induction 1 as [|a b l l' Hab _ IH]; intros Hin; [destruct Hin|].
  destruct Hin as [<-|Hin].
  - exists b. split; [now left | exact Hab].
  - destruct (IH Hin) as (y & Hy & Hxy). exists y. split; [now right | exact Hxy].
Qed.

(** ** The model on the scenarios of the test suite *)

Example fmt1_samples :
  map Py.fmt1 [110%Q; (21 # 10)%Q; (1 # 4)%Q; (3 # 4)%Q; 0%Q; (-5 # 2)%Q]
  = ["110.0"; "2.1"; "0.2"; "0.8"; "0.0"; "-2.5"].
Proof. reflexivity. Qed.

Example matchup_section_sample :
  _format_matchups_section (Some [Sample.matchup]) Sample.teams (Some 3%Z)
  = Py.str_join Py.nl
      ["=== WEEK 3'S MATCHUPS ===";
       EmptyString;
       "Eagles (110.0) vs Bears (95.0)";
       EmptyString;
       "  Eagles -- 110.0 pts (WIN)";
       "    Star QB (QB): 30.0 pts â­ TOP SCORER";
       "    Bust WR (WR): 2.1 pts ðŸ’© BIGGEST BUST";
       "    OK TE (TE): 8.0 pts";
       EmptyString;
       "  Bears -- 95.0 pts (LOSS)";
       "    No starter data available";
       EmptyString;
       "---"].
Proof. reflexivity. Qed.

Example empty_matchups_sample :
  _format_matchups_section (Some []) Sample.teams None = EmptyString
  /\ _format_matchups_section None Sample.teams None = EmptyString.
Proof. split; reflexivity. Qed.

Example unknown_team_sample :
  display_name (team_names Sample.teams) "99" = "Team 99"
  /\ display_name (team_names Sample.teams) "2" = "Bears".
Proof. split; reflexivity. Qed.

Example batches_sample :
  map (map Team.id)
    (batches (Sample.teams +++ [Sample.team "4" "Rams"; Sample.team "5" "Jets"]))
  = [["1"; "2"]; ["3"; "4"]; ["5"]].
Proof. reflexivity. Qed.

Example strip_fences_samples :
  strip_fences ("  ```json" ++ Py.nl ++ "{x}" ++ Py.nl ++ "``` ") = "{x}"
  /\ strip_fences "```{x}```" = "{x}"
  /\ strip_fences (" {x} " ++ Py.nl) = "{x}".
Proof. repeat split; reflexivity. Qed.

Example handler_sample :
  handler Sample.loads_body Sample.loads_roasts Sample.no_service Sample.in_order
    BodyMissing
  = (_response 400 (ErrorBody "No teams provided"), []).
Proof. reflexivity. Qed.

Example generate_roasts_sample :
  let run :=
    _generate_roasts_parallel Sample.loads_roasts Sample.fenced_service Sample.in_order
      Sample.teams Ctx.empty None None "regular_season" None [] in
  fst run = Ok Sample.roasts
  /\ map Ok (snd run)
     = map (batch_prompt Sample.teams Ctx.empty None None "regular_season" None)
         (batches Sample.teams).
Proof. split; reflexivity. Qed.

(** ** C1: mode selection *)

Lemma is_playoff_mode_spec season_phase (playoff_bracket : option (list BracketEntry.t)) :
  is_playoff_mode season_phase playoff_bracket = true <->
  season_phase = "playoffs" /\ exists e b, playoff_bracket = Some (e :: b).
Proof.
  unfold is_playoff_mode. rewrite andb_true_iff, String.eqb_eq. split.
  - intros [Hp Hb]. split; [exact Hp|].
    destruct playoff_bracket as [[|e b]|]; try discriminate. now exists e, b.
  - intros [Hp (e & b & ->)]. now split.
Qed.

Lemma playoff_approach_header b all_teams :
  Str.startswith PLAYOFF_MODE_HEADER (_build_playoff_roasting_approach b all_teams) = true.
Proof.
  unfold _build_playoff_roasting_approach, playoff_approach_lines.
  apply prefix_str_join_head. reflexivity.
Qed.

Lemma bracket_section_header e b all_teams :
  Str.startswith PLAYOFF_BRACKET_HEADER
    (_format_playoff_bracket_section (Some (e :: b)) all_teams) = true.
Proof.
  unfold _format_playoff_bracket_section, bracket_lines.
  apply prefix_str_join_head. reflexivity.
Qed.

Lemma prefix_app_cancel (a p s : string) :
  String.prefix (a ++ p) (a ++ s) = String.prefix p s.
Proof.
  induction a as [|c a IH]; [reflexivity|].
  cbn [append String.prefix]. destruct (ascii_dec c c); [exact IH | congruence].
Qed.

Lemma tier_approach_header (season_phase sacko : string) (n : Z) (rest : string) :
  Str.startswith PLAYOFF_MODE_HEADER
    ((if is_offseason season_phase then offseason_approach sacko n
      else regular_approach sacko n) ++ rest) = false.
Proof. destruct (is_offseason season_phase); reflexivity. Qed.

(** C1.  A prompt that is built opens with the preamble and the PLAYOFF
    MODE approach text if and only if [season_phase] is ["playoffs"] and
    the bracket list is non-empty.  In that case the prompt holds, after the
    preamble, the playoff approach text of the bracket and, between the
    matchup section and the REQUIREMENTS header, the PLAYOFF BRACKET
    section.  In every other case it holds the tier template of the regular
    season (of the offseason for that phase) and nothing between the matchup
    section and the REQUIREMENTS header.  With phase ["playoffs"] and an
    empty or absent bracket the prompt is the regular-season prompt of the
    same request, whatever bracket that one is given. *)
Theorem C1_playoffs_mode_iff_phase_and_bracket :
  forall (teams : list Team.t) (ctx : Ctx.t) (total_teams : Z)
         (matchups : option (list Matchup.t)) (week_number : option Z)
         (season_phase : string) (playoff_bracket : option (list BracketEntry.t))
         (all_teams : option (list Team.t)) (prompt : string),
    _build_prompt teams ctx total_teams matchups week_number season_phase
      playoff_bracket all_teams = Ok prompt ->
    let resolve := resolve_teams all_teams teams in
    let sacko := Py.get (Ctx.sacko_punishment ctx) NOT_SPECIFIED in
    let matchups_section := _format_matchups_section matchups resolve week_number in
    let playoffs_with_bracket :=
      season_phase = "playoffs" /\ exists e b, playoff_bracket = Some (e :: b) in
    let prompt_with (approach bracket : string) :=
      exists middle,
        prompt = PREAMBLE ++ Py.nl ++ Py.nl ++ approach ++ Py.nl ++ Py.nl
                   ++ matchups_section ++ bracket ++ "=== REQUIREMENTS ===" ++ Py.nl
                   ++ middle ++ KEYS_LABEL ++ id_list teams ++ OUTPUT_TAIL in
    (Str.startswith (PREAMBLE ++ Py.nl ++ Py.nl ++ PLAYOFF_MODE_HEADER) prompt = true
       <-> playoffs_with_bracket)
    /\ (playoffs_with_bracket ->
          prompt_with
            (_build_playoff_roasting_approach (Py.get playoff_bracket []) resolve)
            (_format_playoff_bracket_section playoff_bracket resolve)
          /\ Str.startswith PLAYOFF_BRACKET_HEADER
               (_format_playoff_bracket_section playoff_bracket resolve) = true)
    /\ (~ playoffs_with_bracket ->
          prompt_with
            (if is_offseason season_phase then offseason_approach sacko total_teams
             else regular_approach sacko total_teams)
            EmptyString)
    /\ (season_phase = "playoffs" -> Py.truthy_list playoff_bracket = false ->
          prompt_with (regular_approach sacko total_teams) EmptyString
          /\ forall other_bracket,
               _build_prompt teams ctx total_teams matchups week_number
                 "regular_season" other_bracket all_teams = Ok prompt).
Proof.
  intros teams ctx total_teams matchups week_number season_phase playoff_bracket
    all_teams prompt Hp resolve sacko matchups_section playoffs_with_bracket prompt_with.
  assert (Hmode : is_playoff_mode season_phase playoff_bracket = true
                  <-> playoffs_with_bracket) by apply is_playoff_mode_spec.
  destruct (prompt_layout _ _ _ _ _ _ _ _ _ Hp) as (middle & E).
  fold resolve sacko matchups_section in E.
  unfold mode_text in E.
  destruct (is_playoff_mode season_phase playoff_bracket) eqn:Epm.
  - assert (Hyes : playoffs_with_bracket) by now apply Hmode.
    cbn [roasting_approach bracket_section] in E.
    split; [|split; [|split]].
    + split; [intros _; exact Hyes|]. intros _. rewrite E. unfold Str.startswith.
      rewrite !prefix_app_cancel. apply prefix_app. apply playoff_approach_header.
    + intros _. split; [now exists middle|].
      destruct Hyes as [_ (e & b & ->)]. apply bracket_section_header.
    + intros Hno. now elim Hno.
    + intros _ Hempty. destruct Hyes as [_ (e & b & ->)]. discriminate.
  - assert (Hno : ~ playoffs_with_bracket) by (intros H; apply Hmode in H; discriminate).
    assert (Htier : prompt_with
                      (if is_offseason season_phase then offseason_approach sacko total_teams
                       else regular_approach sacko total_teams) EmptyString).
    { exists middle. rewrite E. now destruct (is_offseason season_phase). }
    split; [|split; [|split]].
    + split; [|intros H; now elim Hno]. intros H. exfalso.
      destruct Htier as (middle' & E'). rewrite E' in H. unfold Str.startswith in H.
      rewrite !prefix_app_cancel in H.
      pose proof (tier_approach_header season_phase sacko total_teams) as Hh.
      unfold Str.startswith in Hh. rewrite Hh in H. discriminate.
    + intros H. now elim Hno.
    + intros _. exact Htier.
    + intros Hphase Hempty. subst season_phase. split; [exact Htier|].
      intros other_bracket. rewrite <- Hp. unfold _build_prompt.
      assert (Hslots :
        forall phase bracket, is_playoff_mode phase bracket = false ->
          is_offseason phase = false ->
          mode_text phase bracket resolve sacko total_teams
          = mkModeText (regular_approach sacko total_teams) EmptyString EmptyString).
      { intros phase bracket H1 H2. unfold mode_text. now rewrite H1, H2. }
      fold resolve. fold sacko.
      rewrite (Hslots "playoffs" playoff_bracket Epm eq_refl).
      now rewrite (Hslots "regular_season" other_bracket eq_refl eq_refl).
Qed.

Lemma C1_playoff_prompt_witness :
  let bracket := Some [Sample.both_flags; Sample.fallen_finalist] in
  let build :=
    _build_prompt Sample.teams Ctx.empty 3 None None "playoffs" bracket None in
  let prompt := match build with Ok p => p | Raise _ => EmptyString end in
  build = Ok prompt
  /\ (Str.startswith (PREAMBLE ++ Py.nl ++ Py.nl ++ PLAYOFF_MODE_HEADER) prompt = true
        <-> "playoffs" = "playoffs" /\ exists e b, bracket = Some (e :: b)).
Proof.
  assert (H : let bracket := Some [Sample.both_flags; Sample.fallen_finalist] in
              let build :=
                _build_prompt Sample.teams Ctx.empty 3 None None "playoffs" bracket None in
              build = Ok (match build with Ok p => p | Raise _ => EmptyString end))
    by reflexivity.
  split; [exact H|].
  exact (proj1 (C1_playoffs_mode_iff_phase_and_bracket Sample.teams Ctx.empty 3 None None
                  "playoffs" (Some [Sample.both_flags; Sample.fallen_finalist]) None _ H)).
Defined.

(** ** C2: tier bands *)

(** C2 as stated fails for leagues of one to three teams: the last rank
    stands in the TOP band and in the BOTTOM band. *)
Lemma C2_small_league_counterexample :
  mid_cutoff 1 = 0%Z
  /\ in_top_tier 1 = true /\ in_bottom_tier 1 1 = true
  /\ tier_count 1 1 = 2 /\ tier_count 2 2 = 2 /\ tier_count 3 3 = 2.
Proof. repeat split. Qed.

(** C2 (amended).  The cutoffs are [top_cutoff = 3] and
    [mid_cutoff = min(7, n - 1)], and for every team count [n >= 4] each
    rank of [1..n] stands in exactly one of the TOP, MIDDLE and BOTTOM
    bands. *)
Theorem C2_tiers_partition_from_four_teams :
  forall n rank : Z,
    (4 <= n)%Z -> (1 <= rank <= n)%Z ->
    top_cutoff = 3%Z
    /\ mid_cutoff n = Z.min 7 (n - 1)
    /\ tier_count n rank = 1.
Proof.
  intros n rank Hn Hr. split; [reflexivity|]. split; [reflexivity|].
  unfold tier_count, in_top_tier, in_middle_tier, in_bottom_tier, mid_cutoff, top_cutoff.
  destruct (Z.leb_spec 1 rank), (Z.leb_spec rank 3), (Z.leb_spec (3 + 1) rank),
    (Z.leb_spec rank (Z.min 7 (n - 1))), (Z.leb_spec (Z.min 7 (n - 1) + 1) rank),
    (Z.leb_spec rank n); simpl; try reflexivity; lia.
Qed.

Lemma C2_tiers_partition_witness :
  top_cutoff = 3%Z /\ mid_cutoff 10 = Z.min 7 (10 - 1) /\ tier_count 10 8 = 1.
Proof. apply (C2_tiers_partition_from_four_teams 10 8); lia. Defined.

(** ** C3: bracket groups *)

Lemma group_block_In {A : Type} (title : string) (line : A -> string) (group : list A) (x : A) :
  In x group -> In (line x) (group_block title line group).
Proof.
  intros Hin. destruct group as [|y g]; [destruct Hin|].
  unfold group_block. right. apply in_or_app. left. now apply in_map.
Qed.

(** Reading the lines of a section back. *)

Lemma until_blank_block (body rest : list string) :
  (forall l, In l body -> l <> EmptyString) ->
  until_blank (body +++ EmptyString :: rest) = body.
Proof.
  induction body as [|l body IH]; intros H; [reflexivity|].
  cbn [app until_blank]. destruct (String.eqb_spec l EmptyString) as [E|_].
  - elim (H l); [now left | exact E].
  - f_equal. apply IH. intros l' Hl'. apply H. now right.
Qed.

Lemma listed_under_skip (title : string) (pre rest : list string) :
  ~ In title pre -> listed_under title (pre +++ rest) = listed_under title rest.
Proof.
  induction pre as [|l pre IH]; intros H; [reflexivity|].
  cbn [app listed_under]. destruct (String.eqb_spec l title) as [E|_].
  - elim H. now left.
  - apply IH. intros Hin. apply H. now right.
Qed.

Lemma listed_under_absent (title : string) (lines : list string) :
  ~ In title lines -> listed_under title lines = None.
Proof.
  intros H. rewrite <- (app_nil_r lines). now rewrite listed_under_skip.
Qed.

Lemma listed_under_block {A : Type} (title : string) (line : A -> string)
    (group : list A) (rest : list string) :
  group <> [] -> (forall x, line x <> EmptyString) ->
  listed_under title (group_block title line group +++ rest) = Some (map line group).
Proof.
  destruct group as [|y g]; [congruence|]. intros _ H.
  unfold group_block. cbn [app listed_under]. rewrite String.eqb_refl. f_equal.
  rewrite <- app_assoc. cbn [app]. apply until_blank_block.
  intros l Hl. apply in_map_iff in Hl. destruct Hl as (x & <- & _). apply H.
Qed.

Lemma group_block_without {A : Type} (t title : string) (line : A -> string)
    (group : list A) :
  t <> title -> t <> EmptyString -> (forall x, line x <> t) ->
  ~ In t (group_block title line group).
Proof.
  intros H1 H2 H3 Hin. destruct group as [|y g]; [exact Hin|].
  unfold group_block in Hin. destruct Hin as [E|Hin]; [congruence|].
  apply in_app_or in Hin. destruct Hin as [Hin|[E|[]]]; [|congruence].
  apply in_map_iff in Hin. destruct Hin as (x & E & _). now apply (H3 x).
Qed.

Lemma listed_under_own {A : Type} (title : string) (line : A -> string)
    (group : list A) (post : list string) :
  ~ In title post -> (forall x, line x <> EmptyString) ->
  listed_under title (group_block title line group +++ post)
  = match group with
    | [] => None
    | y :: g => Some (map line (y :: g))
    end.
Proof.
  intros Hpost Hline. destruct group as [|y g].
  - cbn [group_block app]. now apply listed_under_absent.
  - apply listed_under_block; [discriminate | exact Hline].
Qed.

(** Every line of an entry opens with two spaces: it is neither empty nor
    a title nor the header. *)
Lemma entry_lines_differ (names : Py.dict string) (e : BracketEntry.t) (t : string) :
  String.get 0 t <> Some " "%char ->
  championship_line names e <> t /\ winners_line names e <> t
  /\ consolation_line names e <> t.
Proof.
  intros Ht. repeat split; apply first_char_differs;
    unfold championship_line, winners_line, consolation_line;
    cbn [append String.get]; congruence.
Qed.

(** C3 as stated fails: a championship entry that is also flagged as
    consolation is listed under the CONSOLATION BRACKET title as well as
    under the CHAMPIONSHIP MATCHUP title. *)
Lemma C3_championship_and_consolation_counterexample :
  let lines := bracket_lines [Sample.both_flags] Sample.teams in
  flag (BracketEntry.is_championship Sample.both_flags) = true
  /\ listed_under CHAMPIONSHIP_TITLE lines = Some ["  #1 Eagles vs Bears"]
  /\ listed_under CONSOLATION_TITLE lines = Some ["  #1 Eagles"]
  /\ _format_playoff_bracket_section (Some [Sample.both_flags]) Sample.teams
     = Py.str_join Py.nl
         ["=== PLAYOFF BRACKET ===";
          EmptyString;
          "ðŸ† CHAMPIONSHIP MATCHUP:";
          "  #1 Eagles vs Bears";
          EmptyString;
          "CONSOLATION BRACKET (the losers' lounge):";
          "  #1 Eagles";
          EmptyString].
Proof. repeat split. Qed.

(** C3 (amended).  What the section lists under the CHAMPIONSHIP MATCHUP
    title are the lines of the entries whose [is_championship] is true, in
    bracket order; under the CONSOLATION BRACKET title, those of the entries
    whose [is_consolation] is true, whatever [is_championship] is; under the
    WINNERS BRACKET title, those of the entries with both flags false; a
    title with no such entry is not written.  So an entry is listed in
    exactly one group unless both flags are true, and then in two: the
    championship group and the consolation group. *)
Theorem C3_bracket_groups_by_flag :
  forall (playoff_bracket : list BracketEntry.t) (all_teams : list Team.t),
    let champ e := flag (BracketEntry.is_championship e) in
    let cons e := flag (BracketEntry.is_consolation e) in
    let names := team_names all_teams in
    let lines := bracket_lines playoff_bracket all_teams in
    listed_under CHAMPIONSHIP_TITLE lines
    = lines_of (championship_line names) champ playoff_bracket
    /\ listed_under CONSOLATION_TITLE lines
       = lines_of (consolation_line names) cons playoff_bracket
    /\ listed_under WINNERS_TITLE lines
       = lines_of (winners_line names) (fun e => negb (champ e) && negb (cons e))
           playoff_bracket
    /\ (forall e, In e playoff_bracket ->
          (In e (championship_group playoff_bracket) <-> champ e = true)
          /\ (In e (consolation_group playoff_bracket) <-> cons e = true)
          /\ (In e (winners_group playoff_bracket) <-> champ e = false /\ cons e = false)
          /\ group_count e = (if champ e && cons e then 2 else 1))
    /\ (playoff_bracket <> [] ->
        _format_playoff_bracket_section (Some playoff_bracket) all_teams
        = Py.str_join Py.nl lines).
Proof.
  intros b all_teams champ cons names lines.
  assert (Hw : winners_group b = filter (fun e => negb (champ e) && negb (cons e)) b).
  { unfold winners_group. apply filter_ext. intros e. apply andb_comm. }
  assert (Hline : forall t, String.get 0 t <> Some " "%char ->
            (forall e, championship_line names e <> t)
            /\ (forall e, winners_line names e <> t)
            /\ (forall e, consolation_line names e <> t)).
  { intros t Ht. repeat split; intros e; now apply (entry_lines_differ names e t Ht). }
  destruct (Hline EmptyString ltac:(discriminate)) as (Ec & Ew & Es).
  assert (Hhead : forall t, String.get 0 t <> Some "="%char ->
            ~ In t [PLAYOFF_BRACKET_HEADER ++ Py.nl]).
  { intros t Ht [E|[]]. apply Ht. now rewrite <- E. }
  assert (Nc : forall t, t <> CHAMPIONSHIP_TITLE -> t <> EmptyString ->
            String.get 0 t <> Some " "%char ->
            ~ In t (group_block CHAMPIONSHIP_TITLE (championship_line names)
                      (championship_group b)))
    by (intros t H1 H2 H3; apply group_block_without; try assumption; now apply Hline).
  assert (Nw : forall t, t <> WINNERS_TITLE -> t <> EmptyString ->
            String.get 0 t <> Some " "%char ->
            ~ In t (group_block WINNERS_TITLE (winners_line names) (winners_group b)))
    by (intros t H1 H2 H3; apply group_block_without; try assumption; now apply Hline).
  assert (Ns : forall t, t <> CONSOLATION_TITLE -> t <> EmptyString ->
            String.get 0 t <> Some " "%char ->
            ~ In t (group_block CONSOLATION_TITLE (consolation_line names)
                      (consolation_group b)))
    by (intros t H1 H2 H3; apply group_block_without; try assumption; now apply Hline).
  subst lines. unfold bracket_lines, lines_of. fold names.
  change (filter champ b) with (championship_group b).
  change (filter cons b) with (consolation_group b).
  rewrite <- Hw.
  split; [|split; [|split; [|split]]].
  - rewrite listed_under_skip by (apply Hhead; discriminate).
    apply listed_under_own; [|exact Ec].
    intros Hin. apply in_app_or in Hin. destruct Hin as [Hin|Hin]; revert Hin.
    + apply Nw; discriminate.
    + apply Ns; discriminate.
  - rewrite listed_under_skip by (apply Hhead; discriminate).
    rewrite listed_under_skip by (apply Nc; discriminate).
    rewrite listed_under_skip by (apply Nw; discriminate).
    rewrite <- (app_nil_r (group_block _ _ (consolation_group b))).
    apply listed_under_own; [intros [] | exact Es].
  - rewrite listed_under_skip by (apply Hhead; discriminate).
    rewrite listed_under_skip by (apply Nc; discriminate).
    apply listed_under_own; [|exact Ew].
    apply Ns; discriminate.
  - intros e Hin. split; [|split; [|split]].
    + unfold championship_group. rewrite filter_In. tauto.
    + unfold consolation_group. rewrite filter_In. tauto.
    + unfold winners_group. rewrite filter_In, andb_true_iff, !negb_true_iff.
      fold (champ e) (cons e). tauto.
    + unfold group_count. fold (champ e) (cons e). now destruct (champ e), (cons e).
  - intros Hne. destruct b as [|e b]; [congruence | reflexivity].
Qed.

Lemma C3_bracket_groups_witness :
  let lines := bracket_lines [Sample.both_flags; Sample.fallen_finalist] Sample.teams in
  listed_under CHAMPIONSHIP_TITLE lines = Some ["  #1 Eagles vs Bears"; "  #2 Bears vs Eagles"]
  /\ listed_under CONSOLATION_TITLE lines = Some ["  #1 Eagles"]
  /\ listed_under WINNERS_TITLE lines = None.
Proof.
  pose proof (C3_bracket_groups_by_flag [Sample.both_flags; Sample.fallen_finalist]
                Sample.teams) as H.
  cbv zeta in H. destruct H as (H1 & H2 & H3 & _).
  split; [exact H1 | split; [exact H2 | exact H3]].
Defined.

(** ** C5: the header of the matchup section *)

Lemma matchup_lines_cons names m :
  exists title rest, matchup_lines names m = title :: rest.
Proof.
  unfold matchup_lines. destruct (outcome _ _). eexists. eexists. reflexivity.
Qed.

Lemma matchups_section_shape m ms all_teams week_number :
  exists rest,
    _format_matchups_section (Some (m :: ms)) all_teams week_number
    = "=== " ++ week_label week_number ++ "'S MATCHUPS ===" ++ Py.nl ++ Py.nl ++ rest.
Proof.
  unfold _format_matchups_section.
  destruct (matchup_lines_cons (team_names all_teams) m) as (title & rest & E).
  cbn [flat_map]. rewrite E. cbn [app]. rewrite str_join_cons.
  eexists. unfold matchups_header. rewrite !string_app_assoc. reflexivity.
Qed.

(** C5 as stated fails for the week number 0: it is supplied, and the
    header reads THIS WEEK'S MATCHUPS. *)
Lemma C5_week_zero_counterexample :
  Str.startswith ("=== THIS WEEK'S MATCHUPS ===" ++ Py.nl)
    (_format_matchups_section (Some [Sample.matchup]) Sample.teams (Some 0%Z)) = true
  /\ Str.startswith "=== WEEK 0'S MATCHUPS ==="
       (_format_matchups_section (Some [Sample.matchup]) Sample.teams (Some 0%Z)) = false.
Proof. split; reflexivity. Qed.

(** C5 (amended).  For every non-empty matchup list the section opens with
    the header WEEK n'S MATCHUPS when a week number [n] other than 0 is
    supplied, and with THIS WEEK'S MATCHUPS when no week number is supplied
    or the week number is 0. *)
Theorem C5_week_header :
  forall (m : Matchup.t) (ms : list Matchup.t) (all_teams : list Team.t),
    (forall n : Z, n <> 0%Z ->
       exists rest,
         _format_matchups_section (Some (m :: ms)) all_teams (Some n)
         = "=== WEEK " ++ Py.str_int n ++ "'S MATCHUPS ===" ++ Py.nl ++ Py.nl ++ rest)
    /\ (exists rest,
          _format_matchups_section (Some (m :: ms)) all_teams None
          = "=== THIS WEEK'S MATCHUPS ===" ++ Py.nl ++ Py.nl ++ rest)
    /\ (exists rest,
          _format_matchups_section (Some (m :: ms)) all_teams (Some 0%Z)
          = "=== THIS WEEK'S MATCHUPS ===" ++ Py.nl ++ Py.nl ++ rest).
Proof.
  intros m ms all_teams. split; [|split].
  - intros n Hn.
    destruct (matchups_section_shape m ms all_teams (Some n)) as (rest & E).
    exists rest. rewrite E. unfold week_label.
    apply Z.eqb_neq in Hn. rewrite Hn. rewrite !string_app_assoc. reflexivity.
  - destruct (matchups_section_shape m ms all_teams None) as (rest & E).
    exists rest. rewrite E. reflexivity.
  - destruct (matchups_section_shape m ms all_teams (Some 0%Z)) as (rest & E).
    exists rest. rewrite E. reflexivity.
Qed.

(** ** C9: absent scores *)

Lemma num_lt_iff (a b : Q) : Py.num_lt a b = true <-> (a < b)%Q.
Proof.
  unfold Py.num_lt. rewrite negb_true_iff. split.
  - intros H. apply Qnot_le_lt. intros Hle. apply Qle_bool_iff in Hle. congruence.
  - intros H. destruct (Qle_bool b a) eqn:E; [|reflexivity].
    apply Qle_bool_iff in E. exfalso. now apply (Qlt_not_le a b).
Qed.

Lemma num_gt_iff (a b : Q) : Py.num_gt a b = true <-> (b < a)%Q.
Proof. apply num_lt_iff. Qed.

Lemma num_lt_false_iff (a b : Q) : Py.num_lt a b = false <-> (b <= a)%Q.
Proof.
  unfold Py.num_lt. rewrite negb_false_iff. apply Qle_bool_iff.
Qed.

Lemma outcome_spec (home away : Q) :
  ((away < home)%Q -> outcome home away = ("WIN", "LOSS"))
  /\ ((home < away)%Q -> outcome home away = ("LOSS", "WIN"))
  /\ ((home == away)%Q -> outcome home away = ("TIE", "TIE")).
Proof.
  unfold outcome. repeat split; intros H.
  - apply num_gt_iff in H. now rewrite H.
  - assert (H1 : Py.num_gt home away = false).
    { apply num_lt_false_iff. now apply Qlt_le_weak. }
    apply num_gt_iff in H. now rewrite H1, H.
  - assert (H1 : Py.num_gt home away = false).
    { apply num_lt_false_iff. rewrite H. apply Qle_refl. }
    assert (H2 : Py.num_gt away home = false).
    { apply num_lt_false_iff. rewrite H. apply Qle_refl. }
    now rewrite H1, H2.
Qed.

(** C9.  A matchup that omits [home_score] or [away_score] is formatted as
    the same matchup with the score 0 in its place: with both scores absent
    the title shows (0.0) on both sides and both sides are labelled (TIE);
    with one score absent that side is compared with the other as a side
    that scored 0. *)
Theorem C9_absent_score_is_zero :
  forall (names : Py.dict string) (m : Matchup.t),
    let home := display_name names (Py.get (Matchup.home_team_id m) EmptyString) in
    let away := display_name names (Py.get (Matchup.away_team_id m) EmptyString) in
    let home_starters := starter_lines (starters_of (Py.get (Matchup.home_players m) [])) in
    let away_starters := starter_lines (starters_of (Py.get (Matchup.away_players m) [])) in
    matchup_lines names m
    = matchup_lines names
        (Matchup.mk (Matchup.home_team_id m) (Matchup.away_team_id m)
           (Some (Py.get (Matchup.home_score m) 0%Q))
           (Some (Py.get (Matchup.away_score m) 0%Q))
           (Matchup.home_players m) (Matchup.away_players m))
    /\ (Matchup.home_score m = None -> Matchup.away_score m = None ->
          matchup_lines names m
          = [home ++ " (0.0) vs " ++ away ++ " (0.0)"; EmptyString]
              +++ (("  " ++ home ++ " -- 0.0 pts (TIE)") :: home_starters +++ [EmptyString])
              +++ (("  " ++ away ++ " -- 0.0 pts (TIE)") :: away_starters +++ [EmptyString])
              +++ ["---"])
    /\ (forall a : Q, Matchup.home_score m = None -> Matchup.away_score m = Some a ->
          matchup_lines names m
          = [matchup_title home 0%Q away a; EmptyString]
              +++ side_lines home 0%Q (fst (outcome 0%Q a)) (Matchup.home_players m)
              +++ side_lines away a (snd (outcome 0%Q a)) (Matchup.away_players m)
              +++ ["---"])
    /\ (forall h : Q, Matchup.home_score m = Some h -> Matchup.away_score m = None ->
          matchup_lines names m
          = [matchup_title home h away 0%Q; EmptyString]
              +++ side_lines home h (fst (outcome h 0%Q)) (Matchup.home_players m)
              +++ side_lines away 0%Q (snd (outcome h 0%Q)) (Matchup.away_players m)
              +++ ["---"])
    /\ (forall a : Q,
          ((0 < a)%Q -> outcome 0%Q a = ("LOSS", "WIN") /\ outcome a 0%Q = ("WIN", "LOSS"))
          /\ ((a == 0)%Q -> outcome 0%Q a = ("TIE", "TIE") /\ outcome a 0%Q = ("TIE", "TIE"))
          /\ ((a < 0)%Q -> outcome 0%Q a = ("WIN", "LOSS") /\ outcome a 0%Q = ("LOSS", "WIN"))).
Proof.
  intros names m home away home_starters away_starters.
  split; [reflexivity|]. split; [|split; [|split]];
    [| | |intros a; split; [|split]; intros Ha; split;
           first [now apply outcome_spec | apply outcome_spec; now symmetry]].
  - intros Hh Ha. unfold matchup_lines. rewrite Hh, Ha. reflexivity.
  - intros a Hh Ha. unfold matchup_lines. rewrite Hh, Ha.
    cbn [Py.get]. fold home. fold away. now destruct (outcome 0 a).
  - intros h Hh Ha. unfold matchup_lines. rewrite Hh, Ha.
    cbn [Py.get]. fold home. fold away. now destruct (outcome h 0).
Qed.

(** ** C10: overlapping playoff groups *)

Lemma when_nonempty_In {A : Type} (group : list A) (sentence : string) (x : A) :
  In x group -> In sentence (when_nonempty group sentence).
Proof. destruct group; [intros [] | intros _; now left]. Qed.

(** The directory holds, for an id, the name of the last team that
    carries the id. *)
Lemma team_names_lookup (all_teams : list Team.t) (tid : string) :
  Py.dict_get tid (team_names all_teams)
  = option_map (fun t => Py.get (Team.name t) ("Team " ++ Team.id t))
      (last_team_with tid all_teams).
Proof.
  unfold team_names, last_team_with.
  induction all_teams as [|t l IH] using rev_ind; [reflexivity|].
  rewrite fold_left_app, rev_app_distr. cbn [fold_left rev app find].
  destruct (String.eqb (Team.id t) tid) eqn:E.
  - apply String.eqb_eq in E. subst tid. now rewrite dict_get_set_same.
  - rewrite dict_get_set_other by exact E. exact IH.
Qed.

Lemma approach_name_of_team (all_teams : list Team.t) (e : BracketEntry.t) (t : Team.t)
    (name : string) :
  last_team_with (Py.get (BracketEntry.team_id e) EmptyString) all_teams = Some t ->
  Team.name t = Some name ->
  approach_name (team_names all_teams) e = name.
Proof.
  intros Ht Hn. unfold approach_name. rewrite team_names_lookup, Ht.
  cbn [option_map Py.get]. now rewrite Hn.
Qed.

Lemma contenders_sentence_names (names_text : string) :
  occurs_in ("CHAMPIONSHIP CONTENDERS (" ++ names_text ++ "): These teams are playing for ")
    (contenders_sentence names_text).
Proof.
  unfold contenders_sentence, occurs_in.
  match goal with
  | |- exists pre post, _ ++ _ ++ _ ++ ?tail = _ => exists "ðŸ† ", tail
  end.
  rewrite !string_app_assoc. reflexivity.
Qed.

Lemma eliminated_sentence_names (names_text : string) :
  occurs_in
    ("ELIMINATED (" ++ names_text ++ "): Absolute destruction. Their season is OVER. ")
    (eliminated_sentence names_text).
Proof.
  unfold eliminated_sentence, occurs_in.
  match goal with
  | |- exists pre post, _ ++ _ ++ _ ++ ?tail = _ => exists EmptyString, tail
  end.
  rewrite !string_app_assoc. reflexivity.
Qed.

(** C10.  The groups of [_build_playoff_roasting_approach] are not
    disjoint: a bracket entry with [is_championship] and [is_eliminated] both
    true stands in the championship group and in the eliminated group, and
    the name of its team (the last team of the list with the entry's team
    id) is written, at the entry's place among the comma-separated names, in
    the CHAMPIONSHIP CONTENDERS sentence and in the ELIMINATED sentence of
    the same approach text. *)
Theorem C10_champion_and_eliminated_named_twice :
  forall (playoff_bracket : list BracketEntry.t) (all_teams : list Team.t)
         (e : BracketEntry.t) (t : Team.t) (name : string),
    In e playoff_bracket ->
    flag (BracketEntry.is_championship e) = true ->
    flag (BracketEntry.is_eliminated e) = true ->
    last_team_with (Py.get (BracketEntry.team_id e) EmptyString) all_teams = Some t ->
    Team.name t = Some name ->
    let names := team_names all_teams in
    let text := _build_playoff_roasting_approach playoff_bracket all_teams in
    let listing (before after : list BracketEntry.t) :=
      Py.str_join ", "
        (map (approach_name names) before +++ name :: map (approach_name names) after) in
    In e (champ_teams playoff_bracket)
    /\ In e (eliminated playoff_bracket)
    /\ (exists before after,
          champ_teams playoff_bracket = before +++ e :: after
          /\ occurs_in
               ("CHAMPIONSHIP CONTENDERS (" ++ listing before after
                  ++ "): These teams are playing for ")
               text)
    /\ (exists before after,
          eliminated playoff_bracket = before +++ e :: after
          /\ occurs_in
               ("ELIMINATED (" ++ listing before after
                  ++ "): Absolute destruction. Their season is OVER. ")
               text).
Proof.
  intros b all_teams e t name Hin Hc He Ht Hn names text listing.
  assert (Hce : In e (champ_teams b)) by (apply filter_In; now split).
  assert (Hee : In e (eliminated b)) by (apply filter_In; now split).
  assert (Hname : approach_name names e = name)
    by now apply approach_name_of_team with t.
  assert (Hlist : forall before after,
            map (approach_name names) (before +++ e :: after)
            = map (approach_name names) before +++ name :: map (approach_name names) after).
  { intros before after. rewrite map_app. cbn [map]. now rewrite Hname. }
  split; [exact Hce|]. split; [exact Hee|]. split.
  - destruct (in_split e (champ_teams b) Hce) as (before & after & Eg).
    exists before, after. split; [exact Eg|].
    subst listing. cbv beta. rewrite <- Hlist, <- Eg. fold (champ_names names b).
    apply occurs_in_trans with (contenders_sentence (champ_names names b));
      [apply contenders_sentence_names|].
    subst text. unfold _build_playoff_roasting_approach. apply occurs_in_line.
    unfold playoff_approach_lines. fold names.
    apply in_or_app. right. apply in_or_app. left.
    now apply when_nonempty_In with (x := e).
  - destruct (in_split e (eliminated b) Hee) as (before & after & Eg).
    exists before, after. split; [exact Eg|].
    subst listing. cbv beta. rewrite <- Hlist, <- Eg. fold (eliminated_names names b).
    apply occurs_in_trans with (eliminated_sentence (eliminated_names names b));
      [apply eliminated_sentence_names|].
    subst text. unfold _build_playoff_roasting_approach. apply occurs_in_line.
    unfold playoff_approach_lines. fold names.
    apply in_or_app. right. apply in_or_app. right. apply in_or_app. right.
    apply in_or_app. right.
    now apply when_nonempty_In with (x := e).
Qed.

Lemma C10_fallen_finalist_witness :
  let b := [Sample.both_flags; Sample.fallen_finalist] in
  let e := Sample.fallen_finalist in
  let names := team_names Sample.teams in
  let text := _build_playoff_roasting_approach b Sample.teams in
  let listing (before after : list BracketEntry.t) :=
    Py.str_join ", "
      (map (approach_name names) before +++ "Bears" :: map (approach_name names) after) in
  (In e b /\ flag (BracketEntry.is_championship e) = true
   /\ flag (BracketEntry.is_eliminated e) = true
   /\ last_team_with (Py.get (BracketEntry.team_id e) EmptyString) Sample.teams
      = Some (Sample.team "2" "Bears")
   /\ Team.name (Sample.team "2" "Bears") = Some "Bears")
  /\ In e (champ_teams b)
  /\ In e (eliminated b)
  /\ (exists before after,
        champ_teams b = before +++ e :: after
        /\ occurs_in
             ("CHAMPIONSHIP CONTENDERS (" ++ listing before after
                ++ "): These teams are playing for ")
             text)
  /\ (exists before after,
        eliminated b = before +++ e :: after
        /\ occurs_in
             ("ELIMINATED (" ++ listing before after
                ++ "): Absolute destruction. Their season is OVER. ")
             text).
Proof.
  split; [simpl; auto 6|].
  apply (C10_champion_and_eliminated_named_twice
           [Sample.both_flags; Sample.fallen_finalist] Sample.teams Sample.fallen_finalist
           (Sample.team "2" "Bears") "Bears");
    simpl; auto.
Defined.

(** The approach text of the two flagged finalists names "Bears" in both
    sentences. *)
Example fallen_finalist_sample :
  let text :=
    _build_playoff_roasting_approach [Sample.both_flags; Sample.fallen_finalist]
      Sample.teams in
  Py.contains "CHAMPIONSHIP CONTENDERS (Eagles, Bears): These teams" text = true
  /\ Py.contains "ELIMINATED (Bears): Absolute destruction." text = true.
Proof. split; reflexivity. Qed.

(** ** C4: top scorer and biggest bust *)

(** C4.  On the matchup of the test suite the section marks the top
    scorer and the biggest bust of each side, but with the bytes the source
    file holds in its two marker literals, not with the star and the
    pile-of-poo emoji: the lines the tests [test_top_scorer_highlighted] and
    [test_biggest_bust_highlighted] look for are not in the section. *)
Theorem C4_markers_at_the_test_matchup :
  let section := _format_matchups_section (Some [Suite.matchup]) Suite.teams (Some 5%Z) in
  section
  = Py.str_join Py.nl
      ["=== WEEK 5'S MATCHUPS ===";
       EmptyString;
       "Eagles (110.0) vs Bears (95.0)";
       EmptyString;
       "  Eagles -- 110.0 pts (WIN)";
       "    Star QB (QB): 30.0 pts â­ TOP SCORER";
       "    Bust WR (WR): 2.1 pts ðŸ’© BIGGEST BUST";
       EmptyString;
       "  Bears -- 95.0 pts (LOSS)";
       "    Solid RB (RB): 18.5 pts â­ TOP SCORER";
       "    OK TE (TE): 8.0 pts ðŸ’© BIGGEST BUST";
       EmptyString;
       "---"]
  /\ Py.contains Suite.expected_top section = false
  /\ Py.contains Suite.expected_bust section = false
  /\ Py.contains "Star QB (QB): 30.0 pts" section = true
  /\ Py.contains "Bust WR (WR): 2.1 pts" section = true
  /\ Py.contains " TOP SCORER" section = true
  /\ Py.contains " BIGGEST BUST" section = true.
Proof. repeat split; vm_compute; reflexivity. Qed.

(** *** Which line carries which marker *)

Section Extremes.

Variable A : Type.
Variable key : A -> Q.





End Extremes.





(** ** C6: batches and their prompts *)

Section Chunks.

Variable A : Type.
Variable step : nat.
Hypothesis step_pos : 0 < step.

Lemma slices_are_chunks (l : list A) :
  map (fun i => slice l i (i + step)) (range_step (length l) step)
  = map (chunk step l) (seq 0 ((length l + step - 1) / step)).
Proof.
  unfold range_step. rewrite map_map. apply map_ext. intros k.
  unfold slice, chunk. f_equal. lia.
Qed.

Lemma chunk_count_bounds (n : nat) :
  n <= (n + step - 1) / step * step
  /\ (0 < n -> ((n + step - 1) / step - 1) * step < n).
Proof.
  pose proof (Nat.div_mod_eq (n + step - 1) step) as E.
  pose proof (Nat.mod_upper_bound (n + step - 1) step ltac:(lia)) as B.
  set (c := (n + step - 1) / step) in *. nia.
Qed.

Lemma concat_chunks (c : nat) :
  forall l : list A, length l <= c * step -> concat (map (chunk step l) (seq 0 c)) = l.
Proof.
  induction c as [|c IH]; intros l Hlen.
  - destruct l; [reflexivity | simpl in Hlen; lia].
  - cbn [seq map concat]. rewrite <- seq_shift, map_map.
    replace (map (fun k => chunk step l (S k)) (seq 0 c))
      with (map (chunk step (skipn step l)) (seq 0 c)).
    + rewrite IH.
      * unfold chunk. cbn [Nat.mul skipn]. apply firstn_skipn.
      * rewrite length_skipn. lia.
    + apply map_ext. intros k. unfold chunk. rewrite skipn_skipn.
      f_equal. f_equal. lia.
Qed.

Lemma length_chunk (l : list A) (k : nat) :
  length (chunk step l k) = Nat.min step (length l - k * step).
Proof. unfold chunk. now rewrite length_firstn, length_skipn. Qed.

End Chunks.

Lemma batches_are_chunks (teams : list Team.t) :
  batches teams
  = map (chunk BATCH_SIZE teams) (seq 0 ((length teams + BATCH_SIZE - 1) / BATCH_SIZE)).
Proof. apply slices_are_chunks. unfold BATCH_SIZE. lia. Qed.

Lemma batch_at (teams : list Team.t) (k : nat) (batch : list Team.t) :
  nth_error (batches teams) k = Some batch ->
  batch = firstn BATCH_SIZE (skipn (k * BATCH_SIZE) teams)
  /\ 1 <= length batch <= BATCH_SIZE
  /\ (S k < length (batches teams) -> length batch = BATCH_SIZE)
  /\ teams <> [].
Proof.
  intros Hk.
  assert (Hlt : k < length (batches teams)) by (apply nth_error_Some; congruence).
  rewrite batches_are_chunks in Hk, Hlt |- *.
  rewrite length_map, length_seq in Hlt |- *.
  rewrite nth_error_map, nth_error_seq in Hk.
  destruct (Nat.ltb_spec k ((length teams + BATCH_SIZE - 1) / BATCH_SIZE)); [|lia].
  simpl in Hk. injection Hk as <-.
  assert (Hpos : 0 < BATCH_SIZE) by (unfold BATCH_SIZE; lia).
  destruct (chunk_count_bounds BATCH_SIZE Hpos (length teams)) as [_ Hlast].
  assert (Hn : 0 < length teams).
  { destruct teams; [simpl in Hlt; unfold BATCH_SIZE in Hlt; simpl in Hlt; lia | simpl; lia]. }
  specialize (Hlast Hn).
  split; [reflexivity|]. rewrite length_chunk.
  set (c := (length teams + BATCH_SIZE - 1) / BATCH_SIZE) in *.
  repeat split; try nia.
  intros ->. simpl in Hn. lia.
Qed.

Lemma concat_batches (teams : list Team.t) : concat (batches teams) = teams.
Proof.
  rewrite batches_are_chunks. apply concat_chunks.
  - unfold BATCH_SIZE; lia.
  - apply chunk_count_bounds. unfold BATCH_SIZE; lia.
Qed.

Lemma length_batches (teams : list Team.t) :
  length (batches teams) = (length teams + 1) / 2.
Proof.
  rewrite batches_are_chunks, length_map, length_seq. unfold BATCH_SIZE.
  f_equal. lia.
Qed.

Section ServiceFacts.

Variable json_loads_roasts : string -> option Roasts.
Variable invoke_model : string -> result string.
Variable as_completed : list (result Roasts) -> list (result Roasts).

Lemma submit_all_calls (prompt_of : list Team.t -> result string)
    (bs : list (list Team.t)) :
  forall calls,
    snd (submit_all json_loads_roasts invoke_model prompt_of bs calls)
    = calls +++ ok_prefix (map prompt_of bs).
Proof.
  induction bs as [|b bs IH]; intros calls.
  - simpl. now rewrite app_nil_r.
  - cbn [submit_all map ok_prefix]. unfold bind at 1, lift.
    destruct (prompt_of b) as [p|e]; [|simpl; now rewrite app_nil_r].
    unfold bind at 1, submit, _call_bedrock. cbn [fst snd].
    unfold bind at 1.
    specialize (IH (calls +++ [p])).
    destruct (submit_all json_loads_roasts invoke_model prompt_of bs (calls +++ [p]))
      as [[futures|e] calls'] eqn:E; cbn [snd] in IH; subst calls';
      cbn [ret snd]; now rewrite <- app_assoc.
Qed.

Lemma generate_roasts_calls teams ctx matchups week_number season_phase playoff_bracket :
  snd (_generate_roasts_parallel json_loads_roasts invoke_model as_completed
         teams ctx matchups week_number season_phase playoff_bracket [])
  = ok_prefix
      (map (batch_prompt teams ctx matchups week_number season_phase playoff_bracket)
         (batches teams)).
Proof.
  unfold _generate_roasts_parallel.
  set (prompt_of := batch_prompt teams ctx matchups week_number season_phase
                      playoff_bracket).
  destruct (batches teams) as [|b1 [|b2 bs]].
  - reflexivity.
  - cbn [map ok_prefix]. unfold bind, lift.
    destruct (prompt_of b1); reflexivity.
  - unfold bind at 1.
    pose proof (submit_all_calls prompt_of (b1 :: b2 :: bs) []) as H.
    destruct (submit_all json_loads_roasts invoke_model prompt_of (b1 :: b2 :: bs) [])
      as [[futures|e] calls'] eqn:E; cbn [snd] in H; subst calls'; reflexivity.
Qed.

End ServiceFacts.

(** The key list of a batch, written out: a batch holds one team or two. *)
Lemma batch_keys (teams : list Team.t) (k : nat) (batch : list Team.t) :
  nth_error (batches teams) k = Some batch ->
  (exists t,
     batch = [t]
     /\ nth_error teams (k * BATCH_SIZE) = Some t
     /\ nth_error teams (k * BATCH_SIZE + 1) = None
     /\ id_list batch = Py.dq ++ Team.id t ++ Py.dq)
  \/ (exists t u,
        batch = [t; u]
        /\ nth_error teams (k * BATCH_SIZE) = Some t
        /\ nth_error teams (k * BATCH_SIZE + 1) = Some u
        /\ id_list batch
           = Py.dq ++ Team.id t ++ Py.dq ++ ", " ++ Py.dq ++ Team.id u ++ Py.dq).
Proof.
  intros Hk. destruct (batch_at teams k batch Hk) as (Hb & Hlen & _ & _).
  assert (H0 : nth_error teams (k * BATCH_SIZE)
               = nth_error (skipn (k * BATCH_SIZE) teams) 0)
    by (rewrite nth_error_skipn; f_equal; lia).
  assert (H1 : nth_error teams (k * BATCH_SIZE + 1)
               = nth_error (skipn (k * BATCH_SIZE) teams) 1)
    by (now rewrite nth_error_skipn).
  destruct (skipn (k * BATCH_SIZE) teams) as [|t [|u rest]].
  - subst batch. simpl in Hlen. lia.
  - left. exists t. subst batch. repeat split; assumption.
  - right. exists t, u. subst batch. repeat split; try assumption.
    unfold id_list. cbn [map Py.str_join firstn BATCH_SIZE].
    now rewrite !string_app_assoc.
Qed.

Lemma ok_prefix_map_Ok {A : Type} (l : list A) : ok_prefix (map Ok l) = l.
Proof. induction l as [|x l IH]; [reflexivity|]. cbn [map ok_prefix]. now rewrite IH. Qed.

(** C6.  [_generate_roasts_parallel] cuts the team list into consecutive
    chunks of [BATCH_SIZE] teams in the original order, the last chunk alone
    possibly shorter, so the chunks concatenated give the list back.  Chunk
    [k] holds the teams at the positions [2k] and [2k + 1] of the list, and
    its key list is the id of the first, in double quotes, followed for a
    chunk of two by a comma, a space and the quoted id of the second.  A
    prompt built for a chunk is built on the chunk as the teams to roast and
    on the full list as the source of names: its approach text, matchup
    section and bracket section are those of the full list, and it ends with
    "Keys for this batch: ", the key list of the chunk and the fixed closing
    text.  The generation calls started are these prompts, in chunk order,
    up to the first build that raises: all of them when every build
    succeeds. *)
Theorem C6_batches_and_their_prompts :
  forall (json_loads_roasts : string -> option Roasts)
         (invoke_model : string -> result string)
         (as_completed : list (result Roasts) -> list (result Roasts))
         (teams : list Team.t) (ctx : Ctx.t) (matchups : option (list Matchup.t))
         (week_number : option Z) (season_phase : string)
         (playoff_bracket : option (list BracketEntry.t)),
    let build (batch : list Team.t) :=
      _build_prompt batch ctx (Z.of_nat (length teams)) matchups week_number
        season_phase playoff_bracket (Some teams) in
    let mode :=
      mode_text season_phase playoff_bracket teams
        (Py.get (Ctx.sacko_punishment ctx) NOT_SPECIFIED) (Z.of_nat (length teams)) in
    let calls :=
      snd (_generate_roasts_parallel json_loads_roasts invoke_model as_completed
             teams ctx matchups week_number season_phase playoff_bracket []) in
    concat (batches teams) = teams
    /\ (forall k batch,
          nth_error (batches teams) k = Some batch ->
          batch = firstn BATCH_SIZE (skipn (k * BATCH_SIZE) teams)
          /\ 1 <= length batch <= BATCH_SIZE
          /\ (S k < length (batches teams) -> length batch = BATCH_SIZE)
          /\ ((exists t,
                 batch = [t]
                 /\ nth_error teams (k * BATCH_SIZE) = Some t
                 /\ nth_error teams (k * BATCH_SIZE + 1) = None
                 /\ id_list batch = Py.dq ++ Team.id t ++ Py.dq)
              \/ (exists t u,
                    batch = [t; u]
                    /\ nth_error teams (k * BATCH_SIZE) = Some t
                    /\ nth_error teams (k * BATCH_SIZE + 1) = Some u
                    /\ id_list batch
                       = Py.dq ++ Team.id t ++ Py.dq ++ ", "
                           ++ Py.dq ++ Team.id u ++ Py.dq))
          /\ (forall prompt,
                build batch = Ok prompt ->
                exists middle,
                  prompt
                  = PREAMBLE ++ Py.nl ++ Py.nl ++ roasting_approach mode ++ Py.nl ++ Py.nl
                      ++ _format_matchups_section matchups teams week_number
                      ++ bracket_section mode ++ "=== REQUIREMENTS ===" ++ Py.nl
                      ++ middle
                      ++ "Keys for this batch: " ++ id_list batch ++ OUTPUT_TAIL))
    /\ calls = ok_prefix (map build (batches teams))
    /\ (forall prompts, map build (batches teams) = map Ok prompts -> calls = prompts).
Proof.
  intros json_loads_roasts invoke_model as_completed teams ctx matchups week_number
    season_phase playoff_bracket build mode calls.
  assert (Hcalls : calls = ok_prefix (map build (batches teams)))
    by apply generate_roasts_calls.
  split; [apply concat_batches|]. split; [|split; [exact Hcalls|]].
  - intros k batch Hk.
    destruct (batch_at teams k batch Hk) as (Hb & Hlen & Hfull & Hne).
    split; [exact Hb|]. split; [exact Hlen|]. split; [exact Hfull|].
    split; [now apply batch_keys|].
    intros prompt Hp. destruct (prompt_layout _ _ _ _ _ _ _ _ _ Hp) as (middle & E).
    assert (Hresolve : resolve_teams (Some teams) batch = teams)
      by (destruct teams; [congruence | reflexivity]).
    rewrite Hresolve in E. now exists middle.
  - intros prompts Hall. rewrite Hcalls, Hall. apply ok_prefix_map_Ok.
Qed.

(** Three teams: two chunks, the keys of the second chunk are the id of
    the third team alone. *)
Example batch_keys_sample :
  map id_list (batches Sample.teams)
  = [Py.dq ++ "1" ++ Py.dq ++ ", " ++ Py.dq ++ "2" ++ Py.dq; Py.dq ++ "3" ++ Py.dq].
Proof. reflexivity. Qed.

(** ** C7: decoding a response *)

Lemma str_rev_app (a b : string) : Str.rev (a ++ b) = Str.rev b ++ Str.rev a.
Proof.
  induction a as [|c a IH]; simpl.
  - now rewrite string_app_nil_r.
  - now rewrite IH, string_app_assoc.
Qed.

Lemma str_rev_involutive (s : string) : Str.rev (Str.rev s) = s.
Proof.
  induction s as [|c s IH]; [reflexivity|].
  simpl. rewrite str_rev_app, IH. reflexivity.
Qed.

Lemma strip_leading_stop marks fuel s :
  Str.strip_one marks s = None -> Str.strip_leading marks fuel s = s.
Proof. intros H. destruct fuel; [reflexivity|]. simpl. now rewrite H. Qed.

(** A text that opens with a solid character has nothing to strip on the
    left; one that closes with a solid character has nothing to strip on the
    right. *)
Lemma lstrip_solid c s : solid c -> Str.lstrip (String c s) = String c s.
Proof.
  intros [-> | [-> | ->]]; unfold Str.lstrip; apply strip_leading_stop; reflexivity.
Qed.

Lemma rstrip_solid c s :
  solid c -> Str.rstrip (s ++ String c EmptyString) = s ++ String c EmptyString.
Proof.
  intros H. unfold Str.rstrip. rewrite str_rev_app. cbn [Str.rev append].
  rewrite strip_leading_stop.
  - change (String c (Str.rev s)) with (Str.rev (String c EmptyString) ++ Str.rev s).
    now rewrite <- str_rev_app, str_rev_involutive.
  - destruct H as [-> | [-> | ->]]; reflexivity.
Qed.

Lemma rstrip_solid_newline c s :
  solid c ->
  Str.rstrip (s ++ String c EmptyString ++ Py.nl) = s ++ String c EmptyString.
Proof.
  intros H. unfold Str.rstrip.
  rewrite <- string_app_assoc, str_rev_app, str_rev_app.
  change (Str.rev Py.nl) with Py.nl. cbn [Str.rev append].
  destruct (String.length ((s ++ String c "") ++ Py.nl)) as [|fuel] eqn:Elen.
  { destruct s; discriminate. }
  change (Str.strip_leading (map Str.rev Str.whitespace) (S fuel)
            (Py.nl ++ String c (Str.rev s)))
    with (Str.strip_leading (map Str.rev Str.whitespace) fuel (String c (Str.rev s))).
  rewrite strip_leading_stop.
  - change (String c (Str.rev s)) with (Str.rev (String c EmptyString) ++ Str.rev s).
    now rewrite <- str_rev_app, str_rev_involutive.
  - destruct H as [-> | [-> | ->]]; reflexivity.
Qed.

Lemma after_first_newline_app (a rest : string) :
  Str.has_newline a = false ->
  Str.has_newline (a ++ Py.nl ++ rest) = true
  /\ Str.after_first_newline (a ++ Py.nl ++ rest) = rest.
Proof.
  induction a as [|c a IH]; intros H.
  - split; reflexivity.
  - simpl in H |- *. destruct (Ascii.eqb c Str.newline); [discriminate|].
    now apply IH.
Qed.

Lemma endswith_app (p s : string) : Str.endswith p (s ++ p) = true.
Proof.
  unfold Str.endswith, Str.startswith. rewrite str_rev_app. apply prefix_app.
  induction (Str.rev p) as [|c r IH]; [reflexivity|].
  simpl. now destruct (ascii_dec c c).
Qed.

Lemma drop_last_fence (s : string) : Str.drop_last 3 (s ++ FENCE) = s.
Proof.
  unfold Str.drop_last. rewrite str_rev_app. cbn. apply str_rev_involutive.
Qed.

Lemma strip_solid (c d : ascii) (s : string) :
  solid c -> solid d ->
  Str.strip (String c s ++ String d EmptyString) = String c s ++ String d EmptyString.
Proof.
  intros Hc Hd. unfold Str.strip.
  change (String c s ++ String d EmptyString) with (String c (s ++ String d EmptyString)).
  rewrite lstrip_solid by exact Hc.
  change (String c (s ++ String d EmptyString)) with (String c s ++ String d EmptyString).
  now apply rstrip_solid.
Qed.

Lemma strip_solid_newline (c d : ascii) (s : string) :
  solid c -> solid d ->
  Str.strip (String c s ++ String d EmptyString ++ Py.nl)
  = String c s ++ String d EmptyString.
Proof.
  intros Hc Hd. unfold Str.strip.
  change (String c s ++ String d EmptyString ++ Py.nl)
    with (String c (s ++ String d EmptyString ++ Py.nl)).
  rewrite lstrip_solid by exact Hc.
  change (String c (s ++ String d EmptyString ++ Py.nl))
    with (String c s ++ String d EmptyString ++ Py.nl).
  now apply rstrip_solid_newline.
Qed.

Lemma strip_fences_bare (body : string) :
  strip_fences ("{" ++ body ++ "}") = "{" ++ body ++ "}".
Proof.
  unfold strip_fences.
  change ("{" ++ body ++ "}") with (String "{" body ++ "}").
  rewrite strip_solid; [reflexivity | left; reflexivity | right; left; reflexivity].
Qed.

Lemma strip_fences_fenced (info body : string) :
  Str.has_newline info = false ->
  strip_fences (FENCE ++ info ++ Py.nl ++ ("{" ++ body ++ "}") ++ Py.nl ++ FENCE)
  = "{" ++ body ++ "}".
Proof.
  intros Hinfo. unfold strip_fences.
  set (s := "{" ++ body ++ "}").
  set (text := FENCE ++ info ++ Py.nl ++ s ++ Py.nl ++ FENCE).
  assert (Etext : Str.strip text = text).
  { assert (Eshape : text
                     = String "`" ("``" ++ info ++ Py.nl ++ s ++ Py.nl ++ "``") ++ "`").
    { unfold text. cbn [FENCE append]. rewrite !string_app_assoc. reflexivity. }
    rewrite Eshape. apply strip_solid; right; right; reflexivity. }
  rewrite Etext.
  assert (Estart : Str.startswith FENCE text = true).
  { unfold text, Str.startswith. apply prefix_app. reflexivity. }
  rewrite Estart.
  assert (Hinfo' : Str.has_newline (FENCE ++ info) = false) by exact Hinfo.
  destruct (after_first_newline_app (FENCE ++ info) (s ++ Py.nl ++ FENCE) Hinfo')
    as [Hnl Hafter].
  rewrite string_app_assoc in Hnl, Hafter. fold text in Hnl, Hafter.
  rewrite Hnl, Hafter.
  rewrite <- (string_app_assoc s Py.nl FENCE).
  rewrite endswith_app, drop_last_fence.
  unfold s. change ("{" ++ body ++ "}") with (String "{" body ++ "}").
  rewrite string_app_assoc.
  apply strip_solid_newline; [left | right; left]; reflexivity.
Qed.

(** C7.  Let [s] be a JSON object text that [json.loads] decodes to the
    mapping [m].  When the response text is [s] itself, or [s] wrapped in
    one fenced code block (an opening line that starts with three
    backquotes, then [s], then a closing line of three backquotes), the
    fence stripping gives [s] back and [_call_bedrock] returns exactly
    [m]. *)
Theorem C7_response_round_trip :
  forall (json_loads_roasts : string -> option Roasts)
         (invoke_model : string -> result string)
         (body info prompt : string) (m : Roasts) (calls : list string),
    let s := "{" ++ body ++ "}" in
    let fenced := FENCE ++ info ++ Py.nl ++ s ++ Py.nl ++ FENCE in
    json_loads_roasts s = Some m ->
    Str.has_newline info = false ->
    invoke_model prompt = Ok s \/ invoke_model prompt = Ok fenced ->
    strip_fences s = s
    /\ strip_fences fenced = s
    /\ parse_response json_loads_roasts s = Ok m
    /\ parse_response json_loads_roasts fenced = Ok m
    /\ fst (_call_bedrock json_loads_roasts invoke_model prompt calls) = Ok m.
Proof.
  intros json_loads_roasts invoke_model body info prompt m calls s fenced Hm Hinfo Hresp.
  assert (Hs : strip_fences s = s) by apply strip_fences_bare.
  assert (Hf : strip_fences fenced = s) by now apply strip_fences_fenced.
  assert (Hps : parse_response json_loads_roasts s = Ok m).
  { unfold parse_response. now rewrite Hs, Hm. }
  assert (Hpf : parse_response json_loads_roasts fenced = Ok m).
  { unfold parse_response. now rewrite Hf, Hm. }
  repeat split; try assumption.
  unfold _call_bedrock. cbn [fst].
  destruct Hresp as [-> | ->]; assumption.
Qed.

Lemma C7_fenced_sample_witness :
  let s := "{" ++ Sample.roasts_body ++ "}" in
  strip_fences s = s
  /\ strip_fences Sample.fenced_response = s
  /\ parse_response Sample.loads_roasts s = Ok Sample.roasts
  /\ parse_response Sample.loads_roasts Sample.fenced_response = Ok Sample.roasts
  /\ fst (_call_bedrock Sample.loads_roasts (fun _ => Ok Sample.fenced_response)
            "prompt" [])
     = Ok Sample.roasts.
Proof.
  apply (C7_response_round_trip Sample.loads_roasts (fun _ => Ok Sample.fenced_response)
           Sample.roasts_body "json" "prompt" Sample.roasts []).
  - reflexivity.
  - reflexivity.
  - right. reflexivity.
Defined.

(** ** C8: requests without teams *)

(** C8 as stated fails: a request without any team list whose body is the
    JSON text of a list, or whose body is null, is answered with status 500,
    not 400. *)
Lemma C8_non_object_body_counterexample :
  Sample.loads_body "[]" = Some DOther
  /\ handler Sample.loads_body Sample.loads_roasts Sample.no_service Sample.in_order
       (BodyText "[]")
     = (_response 500 (ErrorBody "Failed to generate roasts"), [])
  /\ handler Sample.loads_body Sample.loads_roasts Sample.no_service Sample.in_order
       BodyNull
     = (_response 500 (ErrorBody "Failed to generate roasts"), []).
Proof. repeat split. Qed.

(** C8 (amended).  When the body text is not decodable JSON, and when it
    decodes to a JSON object whose team list is empty or absent, the handler
    answers with status 400 and starts no generation call; a missing body
    counts as the text of an empty object.  When the body is null or decodes
    to a JSON value that is not an object, no generation call is started
    either. *)
Theorem C8_client_error_without_generation :
  forall (json_loads_body : string -> option Decoded)
         (json_loads_roasts : string -> option Roasts)
         (invoke_model : string -> result string)
         (as_completed : list (result Roasts) -> list (result Roasts))
         (event_body : EventBody),
    let answer :=
      handler json_loads_body json_loads_roasts invoke_model as_completed event_body in
    let text :=
      match event_body with
      | BodyMissing => Some "{}"
      | BodyNull => None
      | BodyText s => Some s
      end in
    (forall s, text = Some s -> json_loads_body s = None ->
       answer = (_response 400 (ErrorBody "Invalid JSON body"), []))
    /\ (forall s r, text = Some s -> json_loads_body s = Some (DObject r) ->
          Py.truthy_list (Request.teams r) = false ->
          answer = (_response 400 (ErrorBody "No teams provided"), []))
    /\ (forall s, text = Some s -> json_loads_body s = Some DOther -> snd answer = [])
    /\ (text = None -> snd answer = []).
Proof.
  intros json_loads_body json_loads_roasts invoke_model as_completed event_body answer text.
  subst answer text. unfold handler, handler_body.
  repeat split.
  - intros s Hs Hd. destruct event_body; try discriminate;
      injection Hs as <-; unfold bind, ret, raise; now rewrite Hd.
  - intros s r Hs Hd Hteams. destruct event_body; try discriminate;
      injection Hs as <-; unfold bind, ret, raise; rewrite Hd; now rewrite Hteams.
  - intros s Hs Hd. destruct event_body; try discriminate;
      injection Hs as <-; unfold bind, ret, raise; now rewrite Hd.
  - intros Hs. destruct event_body; try discriminate. reflexivity.
Qed.

(** * Further properties of the code *)

(** ** Sections are empty exactly on empty input *)

(** X1.  [_format_matchups_section] returns the empty string exactly when
    the matchup list is empty or absent. *)
Theorem X1_matchups_section_empty_iff :
  forall (matchups : option (list Matchup.t)) (all_teams : list Team.t)
         (week_number : option Z),
    _format_matchups_section matchups all_teams week_number = EmptyString
    <-> Py.truthy_list matchups = false.
Proof.
  intros matchups all_teams week_number.
  destruct matchups as [[|m ms]|]; try (split; reflexivity).
  destruct (matchups_section_shape m ms all_teams week_number) as (rest & E).
  rewrite E. split; discriminate.
Qed.

(** A non-empty bracket gives the header, a title and the line of an
    entry: every entry passes one of the three filters. *)
Lemma bracket_lines_open (e : BracketEntry.t) (b : list BracketEntry.t)
    (all_teams : list Team.t) :
  exists title line rest,
    In title [CHAMPIONSHIP_TITLE; WINNERS_TITLE; CONSOLATION_TITLE]
    /\ bracket_lines (e :: b) all_teams
       = (PLAYOFF_BRACKET_HEADER ++ Py.nl) :: title :: line :: rest.
Proof.
  unfold bracket_lines.
  destruct (championship_group (e :: b)) as [|y1 g1] eqn:E1.
  - destruct (winners_group (e :: b)) as [|y2 g2] eqn:E2.
    + destruct (consolation_group (e :: b)) as [|y3 g3] eqn:E3.
      * exfalso.
        destruct (flag (BracketEntry.is_championship e)) eqn:Hc.
        -- assert (H : In e (championship_group (e :: b)))
             by (apply filter_In; split; [now left | exact Hc]).
           now rewrite E1 in H.
        -- destruct (flag (BracketEntry.is_consolation e)) eqn:Hs.
           ++ assert (H : In e (consolation_group (e :: b)))
                by (apply filter_In; split; [now left | exact Hs]).
              now rewrite E3 in H.
           ++ assert (H : In e (winners_group (e :: b)))
                by (apply filter_In; split; [now left | now rewrite Hc, Hs]).
              now rewrite E2 in H.
      * eexists. eexists. eexists. split; [|reflexivity]. simpl. tauto.
    + eexists. eexists. eexists. split; [|reflexivity]. simpl. tauto.
  - eexists. eexists. eexists. split; [|reflexivity]. simpl. tauto.
Qed.

(** X2.  [_format_playoff_bracket_section] returns the empty string exactly
    when the bracket list is empty or absent; otherwise the section opens
    with the PLAYOFF BRACKET header, an empty line, and the title of a
    group on the line after it. *)
Theorem X2_bracket_section_empty_iff :
  forall (playoff_bracket : option (list BracketEntry.t)) (all_teams : list Team.t),
    (_format_playoff_bracket_section playoff_bracket all_teams = EmptyString
     <-> Py.truthy_list playoff_bracket = false)
    /\ (Py.truthy_list playoff_bracket = true ->
        exists title rest,
          In title [CHAMPIONSHIP_TITLE; WINNERS_TITLE; CONSOLATION_TITLE]
          /\ _format_playoff_bracket_section playoff_bracket all_teams
             = PLAYOFF_BRACKET_HEADER ++ Py.nl ++ Py.nl ++ title ++ Py.nl ++ rest).
Proof.
  intros playoff_bracket all_teams.
  destruct playoff_bracket as [[|e b]|];
    try (split; [split; reflexivity | discriminate]).
  assert (H : exists title rest,
             In title [CHAMPIONSHIP_TITLE; WINNERS_TITLE; CONSOLATION_TITLE]
             /\ _format_playoff_bracket_section (Some (e :: b)) all_teams
                = PLAYOFF_BRACKET_HEADER ++ Py.nl ++ Py.nl ++ title ++ Py.nl ++ rest).
  { destruct (bracket_lines_open e b all_teams) as (title & line & rest & Ht & E).
    exists title, (Py.str_join Py.nl (line :: rest)). split; [exact Ht|].
    unfold _format_playoff_bracket_section. rewrite E.
    rewrite !str_join_cons. now rewrite !string_app_assoc. }
  split; [|intros _; exact H].
  destruct H as (title & rest & _ & ->). split; discriminate.
Qed.

(** ** Outcome labels *)

(** X3.  The labels of a matchup are (WIN, LOSS) exactly when the home
    score is greater, (LOSS, WIN) exactly when the away score is greater,
    and (TIE, TIE) exactly when the scores are equal. *)
Theorem X3_outcome_labels :
  forall home away : Q,
    (outcome home away = ("WIN", "LOSS") <-> (away < home)%Q)
    /\ (outcome home away = ("LOSS", "WIN") <-> (home < away)%Q)
    /\ (outcome home away = ("TIE", "TIE") <-> (home == away)%Q).
Proof.
  intros home away.
  destruct (outcome_spec home away) as (Hw & Hl & Ht).
  destruct (Q_dec home away) as [[Hlt|Hgt]|Heq].
  - rewrite (Hl Hlt). repeat split; try discriminate; try tauto; intros H; exfalso.
    + apply (Qlt_irrefl home). now apply Qlt_trans with away.
    + rewrite H in Hlt. now apply (Qlt_irrefl away).
  - rewrite (Hw Hgt). repeat split; try discriminate; try tauto; intros H; exfalso.
    + apply (Qlt_irrefl home). now apply Qlt_trans with away.
    + rewrite H in Hgt. now apply (Qlt_irrefl away).
  - rewrite (Ht Heq). repeat split; try discriminate; try tauto; intros H; exfalso;
      rewrite Heq in H; now apply (Qlt_irrefl away).
Qed.

(** ** Starters and bench players *)

(** X4.  A side without any starter gets the single line "No starter data
    available"; otherwise it gets one line per starter, in order, each
    opening with that starter's name, position and points, and no line for
    a player who is not a starter. *)
Theorem X4_only_starters_are_listed :
  forall players : list PlayerStat.t,
    let starters := starters_of players in
    (starters = [] -> starter_lines starters = ["    No starter data available"])
    /\ (starters <> [] ->
        length (starter_lines starters) = length starters
        /\ forall k line,
             nth_error (starter_lines starters) k = Some line ->
             exists p,
               nth_error starters k = Some p
               /\ In p players
               /\ PlayerStat.is_starter p = Some true
               /\ Str.startswith (starter_text p) line = true).
Proof.
  intros players starters. split.
  - intros ->. reflexivity.
  - intros Hne. destruct starters as [|s0 rest] eqn:E; [congruence|].
    cbn [starter_lines]. split; [apply length_map|].
    intros k line Hk. rewrite nth_error_map in Hk.
    destruct (nth_error (s0 :: rest) k) as [p|] eqn:Ep; [|discriminate].
    injection Hk as <-. exists p. split; [reflexivity|].
    assert (Hin : In p (starters_of players)).
    { unfold starters in E. rewrite E. eapply nth_error_In; eassumption. }
    apply filter_In in Hin. destruct Hin as [Hin Hflag].
    split; [exact Hin|]. split.
    + destruct (PlayerStat.is_starter p) as [[|]|]; try discriminate. reflexivity.
    + unfold starter_line, Str.startswith. apply prefix_app.
      generalize (starter_text p). intros s.
      induction s as [|c s IH]; [reflexivity|].
      simpl. now destruct (ascii_dec c c).
Qed.

(** ** Dictionaries: the team directory and the merge of results *)

(** X5.  The team directory resolves an id to the name of the last team of
    the list that carries this id (a later team replaces an earlier one with
    the same id), to "Team {id}" when that team has no name, and to
    "Team {id}" when no team of the list carries the id. *)
Theorem X5_team_directory_lookup :
  forall (all_teams : list Team.t) (tid : string),
    display_name (team_names all_teams) tid
    = match find (fun t => String.eqb (Team.id t) tid) (rev all_teams) with
      | Some t => Py.get (Team.name t) ("Team " ++ tid)
      | None => "Team " ++ tid
      end.
Proof.
  intros all_teams tid. unfold display_name, team_names.
  induction all_teams as [|t l IH] using rev_ind; [reflexivity|].
  rewrite fold_left_app, rev_app_distr. cbn [fold_left rev app find].
  destruct (String.eqb (Team.id t) tid) eqn:E.
  - apply String.eqb_eq in E. subst tid. now rewrite dict_get_set_same.
  - rewrite dict_get_set_other by exact E. exact IH.
Qed.

Lemma dict_update_snoc {V : Type} (d e : Py.dict V) (k : string) (v : V) :
  Py.dict_update d (e +++ [(k, v)]) = Py.dict_set k v (Py.dict_update d e).
Proof. unfold Py.dict_update. now rewrite fold_left_app. Qed.

Lemma dict_update_lookup {V : Type} (d e : Py.dict V) (k : string) :
  Py.dict_get k (Py.dict_update d e)
  = match find (fun kv => String.eqb (fst kv) k) (rev e) with
    | Some kv => Some (snd kv)
    | None => Py.dict_get k d
    end.
Proof.
  induction e as [|[k' v'] e IH] using rev_ind; [reflexivity|].
  rewrite dict_update_snoc, rev_app_distr. cbn [rev app find fst snd].
  destruct (String.eqb k' k) eqn:E.
  - apply String.eqb_eq in E. subst k'. apply dict_get_set_same.
  - rewrite dict_get_set_other by exact E. exact IH.
Qed.

Lemma fold_dict_update {V : Type} (rs : list (Py.dict V)) (d : Py.dict V) :
  fold_left Py.dict_update rs d = Py.dict_update d (concat rs).
Proof.
  revert d. induction rs as [|r rs IH]; intros d; [reflexivity|].
  cbn [fold_left concat]. rewrite IH. unfold Py.dict_update. now rewrite fold_left_app.
Qed.

Lemma merge_results_shape (merged : Roasts) (futures : list (result Roasts)) :
  match merge_results merged futures with
  | Ok roasts =>
      exists rs, futures = map Ok rs /\ roasts = fold_left Py.dict_update rs merged
  | Raise e =>
      exists rs rest, futures = map Ok rs +++ Raise e :: rest
  end.
Proof.
  revert merged. induction futures as [|[r|e] futures IH]; intros merged.
  - exists []. now split.
  - cbn [merge_results]. specialize (IH (Py.dict_update merged r)).
    destruct (merge_results (Py.dict_update merged r) futures) as [roasts|e].
    + destruct IH as (rs & -> & ->). exists (r :: rs). now split.
    + destruct IH as (rs & rest & ->). exists (r :: rs), rest. reflexivity.
  - exists [], futures. reflexivity.
Qed.

(** X6.  The merge of the batch results is all or nothing.  It returns a
    mapping only when every future holds one; the mapping then gives a team
    id the text of the last result, in the order of completion, that has
    this id as a key (the last writer wins), and no text when no result has
    it.  When a future holds an exception the merge raises the first one in
    the order of completion. *)
Theorem X6_merge_is_all_or_nothing :
  forall futures : list (result Roasts),
    match merge_results [] futures with
    | Ok roasts =>
        exists rs,
          futures = map Ok rs
          /\ forall tid,
               Py.dict_get tid roasts
               = option_map snd
                   (find (fun kv => String.eqb (fst kv) tid) (rev (concat rs)))
    | Raise e =>
        exists rs rest, futures = map Ok rs +++ Raise e :: rest
    end.
Proof.
  intros futures. pose proof (merge_results_shape [] futures) as H.
  destruct (merge_results [] futures) as [roasts|e]; [|exact H].
  destruct H as (rs & Hf & ->). exists rs. split; [exact Hf|].
  intros tid. rewrite fold_dict_update, dict_update_lookup.
  now destruct (find _ _).
Qed.

(** ** Building a prompt: a team without a name *)

Lemma team_block_result (t : Team.t) :
  match team_block t with
  | Ok _ => Team.name t <> None
  | Raise e => e = KeyError /\ Team.name t = None
  end.
Proof. unfold team_block. destruct (Team.name t); [discriminate | now split]. Qed.

Lemma nameless_team_raises teams ctx total_teams matchups week_number season_phase
    playoff_bracket all_teams (t : Team.t) :
  In t teams ->
  Team.name t = None ->
  _build_prompt teams ctx total_teams matchups week_number season_phase
    playoff_bracket all_teams = Raise KeyError.
Proof.
  intros Hin Hname.
  unfold _build_prompt. pose proof (map_result_shape team_block teams) as H.
  destruct (map_result team_block teams) as [blocks|e]; cbn [bind_result].
  - exfalso. destruct (Forall2_In_l _ _ _ t H Hin) as (block & _ & Hb).
    pose proof (team_block_result t) as Ht. rewrite Hb in Ht. now elim Ht.
  - destruct H as (x & _ & Hx). pose proof (team_block_result x) as Hb.
    rewrite Hx in Hb. now destruct Hb as [-> _].
Qed.

(** X8.  A team without a name among the teams to roast makes
    [_build_prompt] raise [KeyError], whatever the other arguments are: the
    loop over the teams is its first statement and no prompt is built. *)
Theorem X8_nameless_team_raises_key_error :
  forall (teams : list Team.t) (ctx : Ctx.t) (total_teams : Z)
         (matchups : option (list Matchup.t)) (week_number : option Z)
         (season_phase : string) (playoff_bracket : option (list BracketEntry.t))
         (all_teams : option (list Team.t)) (t : Team.t),
    In t teams ->
    Team.name t = None ->
    _build_prompt teams ctx total_teams matchups week_number season_phase
      playoff_bracket all_teams = Raise KeyError.
Proof.
  intros teams ctx total_teams matchups week_number season_phase playoff_bracket
    all_teams t. apply nameless_team_raises.
Qed.

Lemma X8_nameless_team_witness :
  (In Demo.nameless [Demo.team; Demo.nameless] /\ Team.name Demo.nameless = None)
  /\ _build_prompt [Demo.team; Demo.nameless] Ctx.empty 2 None None "regular_season"
       None None = Raise KeyError.
Proof.
  assert (H : In Demo.nameless [Demo.team; Demo.nameless]
              /\ Team.name Demo.nameless = None)
    by (split; [right; now left | reflexivity]).
  split; [exact H|].
  exact (X8_nameless_team_raises_key_error [Demo.team; Demo.nameless] Ctx.empty 2 None
           None "regular_season" None None Demo.nameless (proj1 H) (proj2 H)).
Defined.

(** ** One generation call per batch *)

(** X7.  When the prompt of every batch builds, [_generate_roasts_parallel]
    starts one generation call per batch, in batch order, each with the
    prompt of its batch: [ceil(n / 2)] calls for [n] teams.  This holds
    whatever the service answers: a call that fails does not keep the later
    batches from being called. *)
Theorem X7_one_call_per_batch :
  forall (json_loads_roasts : string -> option Roasts)
         (invoke_model : string -> result string)
         (as_completed : list (result Roasts) -> list (result Roasts))
         (teams : list Team.t) (ctx : Ctx.t) (matchups : option (list Matchup.t))
         (week_number : option Z) (season_phase : string)
         (playoff_bracket : option (list BracketEntry.t)) (prompts : list string),
    map (fun batch =>
           _build_prompt batch ctx (Z.of_nat (length teams)) matchups week_number
             season_phase playoff_bracket (Some teams))
      (batches teams)
    = map Ok prompts ->
    let calls :=
      snd (_generate_roasts_parallel json_loads_roasts invoke_model as_completed
             teams ctx matchups week_number season_phase playoff_bracket []) in
    calls = prompts
    /\ length calls = (length teams + 1) / 2.
Proof.
  intros json_loads_roasts invoke_model as_completed teams ctx matchups week_number
    season_phase playoff_bracket prompts Hall calls.
  assert (E : calls = prompts).
  { subst calls. rewrite generate_roasts_calls.
    change (map (batch_prompt teams ctx matchups week_number season_phase playoff_bracket)
              (batches teams))
      with (map (fun batch =>
                   _build_prompt batch ctx (Z.of_nat (length teams)) matchups week_number
                     season_phase playoff_bracket (Some teams))
              (batches teams)).
    rewrite Hall. apply ok_prefix_map_Ok. }
  split; [exact E|].
  rewrite E, <- length_batches, <- (length_map Ok prompts), <- Hall. apply length_map.
Qed.

Lemma X7_three_teams_witness :
  let builds :=
    map (fun batch =>
           _build_prompt batch Ctx.empty (Z.of_nat (length Sample.teams)) None None
             "regular_season" None (Some Sample.teams))
      (batches Sample.teams) in
  let prompts := ok_prefix builds in
  let calls :=
    snd (_generate_roasts_parallel Sample.loads_roasts Sample.no_service
           Sample.in_order Sample.teams Ctx.empty None None "regular_season" None []) in
  builds = map Ok prompts
  /\ calls = prompts
  /\ length calls = (length Sample.teams + 1) / 2.
Proof.
  assert (H : let builds :=
                map (fun batch =>
                       _build_prompt batch Ctx.empty (Z.of_nat (length Sample.teams)) None
                         None "regular_season" None (Some Sample.teams))
                  (batches Sample.teams) in
              builds = map Ok (ok_prefix builds)) by reflexivity.
  split; [exact H|].
  exact (X7_one_call_per_batch Sample.loads_roasts Sample.no_service Sample.in_order
           Sample.teams Ctx.empty None None "regular_season" None _ H).
Defined.

(** ** The handler on a request with teams *)

Section HandlerFacts.

Variable json_loads_body : string -> option Decoded.
Variable json_loads_roasts : string -> option Roasts.
Variable invoke_model : string -> result string.
Variable as_completed : list (result Roasts) -> list (result Roasts).

Lemma handler_cases (event_body : EventBody) :
  handler json_loads_body json_loads_roasts invoke_model as_completed event_body
  = match body_text_of event_body with
    | None => (_response 500%Z (ErrorBody "Failed to generate roasts"), [])
    | Some s =>
        match json_loads_body s with
        | None => (_response 400%Z (ErrorBody "Invalid JSON body"), [])
        | Some DOther => (_response 500%Z (ErrorBody "Failed to generate roasts"), [])
        | Some (DObject r) =>
            if Py.truthy_list (Request.teams r) then answer_of (run_of json_loads_roasts invoke_model as_completed r)
            else (_response 400%Z (ErrorBody "No teams provided"), [])
        end
    end.
Proof.
  assert (H : forall s,
    match handler_body json_loads_body json_loads_roasts invoke_model as_completed
            (BodyText s) [] with
    | (Ok response, calls) => (response, calls)
    | (Raise JSONDecodeError, calls) =>
        (_response 400%Z (ErrorBody "Invalid JSON body"), calls)
    | (Raise _, calls) => (_response 500%Z (ErrorBody "Failed to generate roasts"), calls)
    end
    = match json_loads_body s with
      | None => (_response 400%Z (ErrorBody "Invalid JSON body"), [])
      | Some DOther => (_response 500%Z (ErrorBody "Failed to generate roasts"), [])
      | Some (DObject r) =>
          if Py.truthy_list (Request.teams r) then answer_of (run_of json_loads_roasts invoke_model as_completed r)
          else (_response 400%Z (ErrorBody "No teams provided"), [])
      end).
  { intros s. unfold handler_body.
    unfold bind at 1, ret at 1. unfold bind at 1.
    destruct (json_loads_body s) as [[r|]|]; try reflexivity.
    unfold ret at 1. destruct (Py.truthy_list (Request.teams r)); cbn [negb];
      [|reflexivity].
    unfold bind at 1, answer_of, run_of.
    destruct (_generate_roasts_parallel _ _ _ _ _ _ _ _ _ _) as [[roasts|e] calls];
      cbn [fst snd]; [reflexivity | now destruct e]. }
  destruct event_body as [| |s]; [exact (H "{}") | reflexivity | exact (H s)].
Qed.

Lemma submit_all_ok (prompt_of : list Team.t -> result string)
    (bs : list (list Team.t)) :
  forall calls futures,
    fst (submit_all json_loads_roasts invoke_model prompt_of bs calls) = Ok futures ->
    forall b, In b bs -> exists p, prompt_of b = Ok p.
Proof.
  induction bs as [|b0 bs IH]; intros calls futures H b Hin; [destruct Hin|].
  cbn [submit_all] in H. unfold bind at 1, lift in H.
  destruct (prompt_of b0) as [p|e] eqn:Ep; [|discriminate].
  unfold bind at 1, submit in H. cbn [fst snd] in H. unfold bind at 1 in H.
  destruct (submit_all json_loads_roasts invoke_model prompt_of bs
              (snd (_call_bedrock json_loads_roasts invoke_model p calls)))
    as [[fs|e] calls'] eqn:E; [|discriminate].
  destruct Hin as [<-|Hin]; [now exists p|].
  apply (IH (snd (_call_bedrock json_loads_roasts invoke_model p calls)) fs);
    [now rewrite E | exact Hin].
Qed.

Lemma generate_roasts_success teams ctx matchups week_number season_phase playoff_bracket
    roasts :
  fst (_generate_roasts_parallel json_loads_roasts invoke_model as_completed
         teams ctx matchups week_number season_phase playoff_bracket []) = Ok roasts ->
  batches teams <> []
  /\ forall b, In b (batches teams) ->
       exists p,
         batch_prompt teams ctx matchups week_number season_phase playoff_bracket b = Ok p.
Proof.
  unfold _generate_roasts_parallel.
  set (prompt_of := batch_prompt teams ctx matchups week_number season_phase
                      playoff_bracket).
  destruct (batches teams) as [|b1 [|b2 bs]].
  - discriminate.
  - unfold bind, lift. destruct (prompt_of b1) as [p|e] eqn:Ep; [|discriminate].
    intros _. split; [discriminate|]. intros b [<-|[]]. now exists p.
  - unfold bind at 1.
    destruct (submit_all json_loads_roasts invoke_model prompt_of (b1 :: b2 :: bs) [])
      as [[futures|e] calls'] eqn:E; [|discriminate].
    intros _. split; [discriminate|].
    apply (submit_all_ok prompt_of (b1 :: b2 :: bs) [] futures). now rewrite E.
Qed.

End HandlerFacts.

(** X9.  The handler answers with status 200, 400 or 500 and nothing else,
    and with the roasts exactly under status 200.  Status 200 means that the
    body decoded to an object with a non-empty team list, that the prompt of
    every batch was built, and that one generation call per batch was
    started, so at least one.  The answer "No teams provided" means that no
    call was started. *)
Theorem X9_handler_statuses :
  forall (json_loads_body : string -> option Decoded)
         (json_loads_roasts : string -> option Roasts)
         (invoke_model : string -> result string)
         (as_completed : list (result Roasts) -> list (result Roasts))
         (event_body : EventBody),
    let answer :=
      handler json_loads_body json_loads_roasts invoke_model as_completed event_body in
    let status := Response.statusCode (fst answer) in
    (status = 200%Z \/ status = 400%Z \/ status = 500%Z)
    /\ (status = 200%Z <-> exists roasts, Response.body (fst answer) = RoastsBody roasts)
    /\ (status = 200%Z ->
        exists s r,
          body_text_of event_body = Some s
          /\ json_loads_body s = Some (DObject r)
          /\ Py.truthy_list (Request.teams r) = true
          /\ map Ok (snd answer)
             = map (batch_prompt (Py.get (Request.teams r) [])
                      (Py.get (Request.context r) Ctx.empty)
                      (Some (Py.get (Request.matchups r) [])) (Request.week_number r)
                      (Py.get (Request.season_phase r) "regular_season")
                      (Request.playoff_bracket r))
                 (batches (Py.get (Request.teams r) []))
          /\ snd answer <> [])
    /\ (Response.body (fst answer) = ErrorBody "No teams provided" -> snd answer = []).
Proof.
  intros json_loads_body json_loads_roasts invoke_model as_completed event_body
    answer status.
  subst status answer. rewrite handler_cases.
  destruct (body_text_of event_body) as [s|] eqn:Etext;
    [|cbn; repeat split; try tauto; try discriminate; intros (x & H); discriminate].
  destruct (json_loads_body s) as [[r|]|] eqn:Hd;
    try (cbn; repeat split; try tauto; try discriminate; intros (x & H); discriminate).
  destruct (Py.truthy_list (Request.teams r)) eqn:Ht;
    [|cbn; repeat split; try tauto; try discriminate; intros (x & H); discriminate].
  unfold answer_of.
  destruct (fst (run_of json_loads_roasts invoke_model as_completed r)) as [roasts|e]
    eqn:Erun.
  - cbn [fst snd _response Response.statusCode Response.body].
    split; [tauto|]. split; [split; [intros _; now exists roasts | reflexivity]|].
    split; [|discriminate]. intros _. exists s, r.
    split; [reflexivity|]. split; [exact Hd|]. split; [exact Ht|].
    unfold run_of in *.
    destruct (generate_roasts_success _ _ _ _ _ _ _ _ _ _ Erun) as [Hne Hall].
    rewrite generate_roasts_calls.
    assert (E := ok_prefix_all _ _ Hall). split; [exact E|].
    intros Hnil. rewrite Hnil in E. cbn [map] in E.
    destruct (batches (Py.get (Request.teams r) [])); [congruence | discriminate].
  - destruct e; cbn [fst snd _response Response.statusCode Response.body];
      (split; [tauto|]); (split; [split; [discriminate | intros (x & H); discriminate]|]);
      (split; [discriminate|]); discriminate.
Qed.

(** ** One batch: a synchronous call *)

Lemma batches_of_one_or_two (teams : list Team.t) :
  1 <= length teams <= 2 -> batches teams = [teams].
Proof.
  intros H. destruct teams as [|a [|b [|c l]]]; simpl in H; try lia; reflexivity.
Qed.

(** X10.  For a request of one or two teams there is one batch.  When its
    prompt builds, one generation call is made, with that prompt, and the
    answer follows what the call gives: the decoded roasts with status 200;
    status 400 "Invalid JSON body" when the response text is not decodable
    JSON, as for an undecodable request body; status 500 when the call
    itself raises.  When the build raises, as it does with [KeyError] for a
    team without a name, no call is made and the answer is status 500. *)
Theorem X10_single_batch_request :
  forall (json_loads_body : string -> option Decoded)
         (json_loads_roasts : string -> option Roasts)
         (invoke_model : string -> result string)
         (as_completed : list (result Roasts) -> list (result Roasts))
         (event_body : EventBody) (s : string) (r : Request.t)
         (teams : list Team.t),
    body_text_of event_body = Some s ->
    json_loads_body s = Some (DObject r) ->
    Request.teams r = Some teams ->
    1 <= length teams <= 2 ->
    let build :=
      _build_prompt teams (Py.get (Request.context r) Ctx.empty)
        (Z.of_nat (length teams)) (Some (Py.get (Request.matchups r) []))
        (Request.week_number r) (Py.get (Request.season_phase r) "regular_season")
        (Request.playoff_bracket r) (Some teams) in
    let answer :=
      handler json_loads_body json_loads_roasts invoke_model as_completed event_body in
    (forall prompt,
       build = Ok prompt ->
       snd answer = [prompt]
       /\ (forall text roasts,
             invoke_model prompt = Ok text ->
             json_loads_roasts (strip_fences text) = Some roasts ->
             fst answer = _response 200%Z (RoastsBody roasts))
       /\ (forall text,
             invoke_model prompt = Ok text ->
             json_loads_roasts (strip_fences text) = None ->
             fst answer = _response 400%Z (ErrorBody "Invalid JSON body"))
       /\ (forall e,
             invoke_model prompt = Raise e -> e <> JSONDecodeError ->
             fst answer = _response 500%Z (ErrorBody "Failed to generate roasts")))
    /\ (forall e,
          build = Raise e -> e <> JSONDecodeError ->
          answer = (_response 500%Z (ErrorBody "Failed to generate roasts"), []))
    /\ (forall t,
          In t teams -> Team.name t = None ->
          answer = (_response 500%Z (ErrorBody "Failed to generate roasts"), [])).
Proof.
  intros json_loads_body json_loads_roasts invoke_model as_completed event_body s r
    teams Htext Hd Hteams Hlen build answer.
  assert (Ht : Py.truthy_list (Request.teams r) = true).
  { rewrite Hteams. destruct teams; [simpl in Hlen; lia | reflexivity]. }
  assert (Eanswer : answer = answer_of (run_of json_loads_roasts invoke_model as_completed r))
    by (subst answer; now rewrite handler_cases, Htext, Hd, Ht).
  assert (Erun : run_of json_loads_roasts invoke_model as_completed r
                 = match build with
                   | Ok prompt =>
                       (bind_result (invoke_model prompt) (parse_response json_loads_roasts),
                        [prompt])
                   | Raise e => (Raise e, [])
                   end).
  { unfold run_of, _generate_roasts_parallel. rewrite Hteams. cbn [Py.get].
    rewrite (batches_of_one_or_two teams Hlen). unfold batch_prompt. fold build.
    unfold bind, lift. now destruct build. }
  assert (Hraise : forall e, build = Raise e -> e <> JSONDecodeError ->
            answer = (_response 500%Z (ErrorBody "Failed to generate roasts"), [])).
  { intros e He Hne. rewrite Eanswer, Erun, He. unfold answer_of. cbn [fst snd].
    destruct e; try reflexivity. now elim Hne. }
  split; [|split; [exact Hraise|]].
  - intros prompt Hprompt. rewrite Eanswer, Erun, Hprompt. unfold answer_of.
    cbn [fst snd]. split; [|split; [|split]].
    + destruct (bind_result _ _) as [roasts|[]]; reflexivity.
    + intros text roasts Hi Hl. rewrite Hi. cbn [bind_result]. unfold parse_response.
      now rewrite Hl.
    + intros text Hi Hl. rewrite Hi. cbn [bind_result]. unfold parse_response.
      now rewrite Hl.
    + intros e Hi He. rewrite Hi. cbn [bind_result]. destruct e; try reflexivity.
      now elim He.
  - intros t Hin Hname. apply (Hraise KeyError); [|discriminate].
    subst build. now apply nameless_team_raises with t.
Qed.

Lemma X10_prose_answer_witness :
  let build :=
    _build_prompt [Demo.team] Ctx.empty 1 (Some []) None "regular_season" None
      (Some [Demo.team]) in
  let answer :=
    handler Demo.loads_body Sample.loads_roasts Demo.prose_service Sample.in_order
      (BodyText Demo.body_text) in
  (forall prompt,
     build = Ok prompt ->
     snd answer = [prompt]
     /\ (forall text roasts,
           Demo.prose_service prompt = Ok text ->
           Sample.loads_roasts (strip_fences text) = Some roasts ->
           fst answer = _response 200%Z (RoastsBody roasts))
     /\ (forall text,
           Demo.prose_service prompt = Ok text ->
           Sample.loads_roasts (strip_fences text) = None ->
           fst answer = _response 400%Z (ErrorBody "Invalid JSON body"))
     /\ (forall e,
           Demo.prose_service prompt = Raise e -> e <> JSONDecodeError ->
           fst answer = _response 500%Z (ErrorBody "Failed to generate roasts")))
  /\ (forall e,
        build = Raise e -> e <> JSONDecodeError ->
        answer = (_response 500%Z (ErrorBody "Failed to generate roasts"), []))
  /\ (forall t,
        In t [Demo.team] -> Team.name t = None ->
        answer = (_response 500%Z (ErrorBody "Failed to generate roasts"), [])).
Proof.
  apply (X10_single_batch_request Demo.loads_body Sample.loads_roasts Demo.prose_service
           Sample.in_order (BodyText Demo.body_text) Demo.body_text Demo.request
           [Demo.team]).
  - reflexivity.
  - reflexivity.
  - reflexivity.
  - simpl. lia.
Defined.

Example prose_answer_sample :
  fst (handler Demo.loads_body Sample.loads_roasts Demo.prose_service Sample.in_order
         (BodyText Demo.body_text))
  = _response 400%Z (ErrorBody "Invalid JSON body").
Proof. reflexivity. Qed.

(** ** Phases and matchups in the prompt *)

Lemma mode_text_regular phase bracket resolve sacko total_teams :
  is_playoff_mode phase bracket = false ->
  is_offseason phase = false ->
  mode_text phase bracket resolve sacko total_teams
  = mkModeText (regular_approach sacko total_teams) EmptyString EmptyString.
Proof. intros H1 H2. unfold mode_text. now rewrite H1, H2. Qed.

Lemma build_prompt_mode teams ctx total_teams matchups week_number phase1 bracket1
    phase2 bracket2 all_teams :
  (forall resolve sacko,
     mode_text phase1 bracket1 resolve sacko total_teams
     = mode_text phase2 bracket2 resolve sacko total_teams) ->
  _build_prompt teams ctx total_teams matchups week_number phase1 bracket1 all_teams
  = _build_prompt teams ctx total_teams matchups week_number phase2 bracket2 all_teams.
Proof. intros H. unfold _build_prompt. now rewrite H. Qed.

(** X11.  A season phase other than "playoffs" and "offseason" is treated
    as "regular_season", and outside the phase "playoffs" the playoff
    bracket has no effect on the prompt. *)
Theorem X11_other_phases_are_regular_season :
  forall (teams : list Team.t) (ctx : Ctx.t) (total_teams : Z)
         (matchups : option (list Matchup.t)) (week_number : option Z)
         (season_phase : string) (bracket other_bracket : option (list BracketEntry.t))
         (all_teams : option (list Team.t)),
    season_phase <> "playoffs" ->
    _build_prompt teams ctx total_teams matchups week_number season_phase bracket all_teams
    = _build_prompt teams ctx total_teams matchups week_number season_phase other_bracket
        all_teams
    /\ (season_phase <> "offseason" ->
        _build_prompt teams ctx total_teams matchups week_number season_phase bracket
          all_teams
        = _build_prompt teams ctx total_teams matchups week_number "regular_season"
            other_bracket all_teams).
Proof.
  intros teams ctx total_teams matchups week_number season_phase bracket other_bracket
    all_teams Hp.
  assert (Hpm : forall b, is_playoff_mode season_phase b = false).
  { intros b. unfold is_playoff_mode. apply String.eqb_neq in Hp. now rewrite Hp. }
  split.
  - apply build_prompt_mode. intros resolve sacko. unfold mode_text.
    now rewrite !Hpm.
  - intros Ho. apply build_prompt_mode. intros resolve sacko.
    apply String.eqb_neq in Ho.
    rewrite mode_text_regular by (try apply Hpm; exact Ho).
    now rewrite mode_text_regular by reflexivity.
Qed.

Lemma X11_preseason_witness :
  "preseason" <> "playoffs"
  /\ _build_prompt Sample.teams Ctx.empty 3 None None "preseason"
       (Some [Sample.both_flags]) (Some Sample.teams)
     = _build_prompt Sample.teams Ctx.empty 3 None None "preseason" None
         (Some Sample.teams)
  /\ ("preseason" <> "offseason" ->
      _build_prompt Sample.teams Ctx.empty 3 None None "preseason"
        (Some [Sample.both_flags]) (Some Sample.teams)
      = _build_prompt Sample.teams Ctx.empty 3 None None "regular_season" None
          (Some Sample.teams)).
Proof.
  split; [discriminate|].
  apply (X11_other_phases_are_regular_season Sample.teams Ctx.empty 3 None None
           "preseason" (Some [Sample.both_flags]) None (Some Sample.teams)).
  discriminate.
Defined.

(** X12.  With an empty or absent matchup list the prompt has the legacy
    form: it is the prompt of the same request without any matchup list,
    and the week number has no effect on it. *)
Theorem X12_no_matchups_legacy_prompt :
  forall (teams : list Team.t) (ctx : Ctx.t) (total_teams : Z)
         (matchups : option (list Matchup.t)) (week_number other_week : option Z)
         (season_phase : string) (playoff_bracket : option (list BracketEntry.t))
         (all_teams : option (list Team.t)),
    Py.truthy_list matchups = false ->
    _build_prompt teams ctx total_teams matchups week_number season_phase playoff_bracket
      all_teams
    = _build_prompt teams ctx total_teams None other_week season_phase playoff_bracket
        all_teams.
Proof.
  intros teams ctx total_teams matchups week_number other_week season_phase
    playoff_bracket all_teams Hm.
  unfold _build_prompt. now rewrite Hm.
Qed.

Lemma X12_empty_matchups_witness :
  Py.truthy_list (Some (@nil Matchup.t)) = false
  /\ _build_prompt Sample.teams Ctx.empty 3 (Some []) (Some 7%Z) "regular_season" None
       (Some Sample.teams)
     = _build_prompt Sample.teams Ctx.empty 3 None None "regular_season" None
         (Some Sample.teams).
Proof.
  split; [reflexivity|].
  apply (X12_no_matchups_legacy_prompt Sample.teams Ctx.empty 3 (Some []) (Some 7%Z) None
           "regular_season" None (Some Sample.teams)).
  reflexivity.
Defined.

(** ** The groups of the playoff approach *)

(** X13.  Every bracket entry stands in at least one of the four groups of
    the playoff approach (championship, eliminated, consolation, active).
    An active entry stands in no other group and a consolation entry is
    never in the eliminated group, so two groups can share an entry only
    when one of them is the championship group. *)
Theorem X13_approach_groups_cover_the_bracket :
  forall (playoff_bracket : list BracketEntry.t) (e : BracketEntry.t),
    In e playoff_bracket ->
    (In e (champ_teams playoff_bracket) \/ In e (eliminated playoff_bracket)
     \/ In e (consolation playoff_bracket) \/ In e (active playoff_bracket))
    /\ (In e (active playoff_bracket) ->
        ~ In e (champ_teams playoff_bracket)
        /\ ~ In e (eliminated playoff_bracket)
        /\ ~ In e (consolation playoff_bracket))
    /\ (In e (consolation playoff_bracket) -> ~ In e (eliminated playoff_bracket)).
Proof.
  intros b e Hin.
  unfold champ_teams, eliminated, consolation, active.
  rewrite !filter_In.
  destruct (flag (BracketEntry.is_championship e)),
    (flag (BracketEntry.is_eliminated e)), (flag (BracketEntry.is_consolation e));
    cbn [negb andb]; intuition discriminate.
Qed.

Lemma X13_both_flags_witness :
  In Sample.both_flags [Sample.both_flags; Sample.fallen_finalist]
  /\ (In Sample.both_flags (champ_teams [Sample.both_flags; Sample.fallen_finalist])
      \/ In Sample.both_flags (eliminated [Sample.both_flags; Sample.fallen_finalist])
      \/ In Sample.both_flags (consolation [Sample.both_flags; Sample.fallen_finalist])
      \/ In Sample.both_flags (active [Sample.both_flags; Sample.fallen_finalist]))
  /\ (In Sample.both_flags (active [Sample.both_flags; Sample.fallen_finalist]) ->
      ~ In Sample.both_flags (champ_teams [Sample.both_flags; Sample.fallen_finalist])
      /\ ~ In Sample.both_flags (eliminated [Sample.both_flags; Sample.fallen_finalist])
      /\ ~ In Sample.both_flags (consolation [Sample.both_flags; Sample.fallen_finalist]))
  /\ (In Sample.both_flags (consolation [Sample.both_flags; Sample.fallen_finalist]) ->
      ~ In Sample.both_flags (eliminated [Sample.both_flags; Sample.fallen_finalist])).
Proof.
  assert (H : In Sample.both_flags [Sample.both_flags; Sample.fallen_finalist])
    by (left; reflexivity).
  split; [exact H|].
  exact (X13_approach_groups_cover_the_bracket
           [Sample.both_flags; Sample.fallen_finalist] Sample.both_flags H).
Defined.

(** ** The decoder on padded and unclosed fences *)

Lemma ascii_space_cases (c : ascii) :
  ascii_space c = true ->
  In c (map ascii_of_nat [9; 10; 11; 12; 13; 28; 29; 30; 31; 32]).
Proof.
  unfold ascii_space. rewrite existsb_exists. intros (x & Hin & Hx).
  apply Ascii.eqb_eq in Hx. now subst x.
Qed.

Lemma strip_one_space (c : ascii) (x : string) :
  ascii_space c = true ->
  Str.strip_one Str.whitespace (String c x) = Some x
  /\ Str.strip_one (map Str.rev Str.whitespace) (String c x) = Some x.
Proof.
  intros H. apply ascii_space_cases in H. cbn [map In] in H.
  repeat (destruct H as [<-|H]; [split; destruct x; reflexivity|]).
  destruct H.
Qed.

Lemma strip_one_solid (c : ascii) (x : string) :
  solid c ->
  Str.strip_one Str.whitespace (String c x) = None
  /\ Str.strip_one (map Str.rev Str.whitespace) (String c x) = None.
Proof. intros [-> | [-> | ->]]; split; reflexivity. Qed.

Lemma string_length_app (a b : string) :
  String.length (a ++ b) = String.length a + String.length b.
Proof. induction a as [|c a IH]; simpl; [reflexivity | now rewrite IH]. Qed.

Lemma string_length_rev (a : string) : String.length (Str.rev a) = String.length a.
Proof.
  induction a as [|c a IH]; simpl; [reflexivity|].
  rewrite string_length_app, IH. simpl. lia.
Qed.

Lemma blank_app (a b : string) : blank (a ++ b) = blank a && blank b.
Proof.
  induction a as [|c a IH]; simpl; [reflexivity|]. now rewrite IH, andb_assoc.
Qed.

Lemma blank_rev (a : string) : blank (Str.rev a) = blank a.
Proof.
  induction a as [|c a IH]; simpl; [reflexivity|].
  rewrite blank_app, IH. simpl. rewrite andb_true_r. apply andb_comm.
Qed.

Section Padding.

Variable marks : list string.
Hypothesis marks_space :
  forall c x, ascii_space c = true -> Str.strip_one marks (String c x) = Some x.

Lemma strip_leading_blank (w rest : string) :
  forall fuel,
    blank w = true ->
    String.length w <= fuel ->
    Str.strip_one marks rest = None ->
    Str.strip_leading marks fuel (w ++ rest) = rest.
Proof.
  induction w as [|c w IH]; intros fuel Hb Hlen Hrest.
  - now apply strip_leading_stop.
  - simpl in Hb, Hlen. apply andb_true_iff in Hb. destruct Hb as [Hc Hw].
    destruct fuel as [|fuel]; [lia|].
    cbn [append Str.strip_leading]. rewrite (marks_space c _ Hc).
    apply IH; [exact Hw | lia | exact Hrest].
Qed.

End Padding.

Lemma lstrip_padded (w : string) (c : ascii) (x : string) :
  blank w = true -> solid c -> Str.lstrip (w ++ String c x) = String c x.
Proof.
  intros Hw Hc. unfold Str.lstrip. apply strip_leading_blank.
  - intros c' x' H. exact (proj1 (strip_one_space c' x' H)).
  - exact Hw.
  - rewrite string_length_app. lia.
  - exact (proj1 (strip_one_solid c x Hc)).
Qed.

Lemma rstrip_padded (w : string) (c : ascii) (x : string) :
  blank w = true -> solid c ->
  Str.rstrip ((x ++ String c EmptyString) ++ w) = x ++ String c EmptyString.
Proof.
  intros Hw Hc. unfold Str.rstrip.
  rewrite str_rev_app. rewrite (str_rev_app x). cbn [Str.rev append].
  rewrite strip_leading_blank.
  - change (String c (Str.rev x)) with (Str.rev (String c EmptyString) ++ Str.rev x).
    now rewrite <- str_rev_app, str_rev_involutive.
  - intros c' x' H. exact (proj2 (strip_one_space c' x' H)).
  - now rewrite blank_rev.
  - rewrite string_length_app, !string_length_rev. lia.
  - exact (proj2 (strip_one_solid c (Str.rev x) Hc)).
Qed.

Lemma strip_padded (w w' : string) (c d : ascii) (x : string) :
  blank w = true -> blank w' = true -> solid c -> solid d ->
  Str.strip (w ++ (String c x ++ String d EmptyString) ++ w')
  = String c x ++ String d EmptyString.
Proof.
  intros Hw Hw' Hc Hd. unfold Str.strip.
  change ((String c x ++ String d EmptyString) ++ w')
    with (String c ((x ++ String d EmptyString) ++ w')).
  rewrite lstrip_padded by assumption.
  change (String c ((x ++ String d EmptyString) ++ w'))
    with ((String c x ++ String d EmptyString) ++ w').
  now apply rstrip_padded.
Qed.

Lemma has_newline_app (a b : string) :
  Str.has_newline (a ++ b) = Str.has_newline a || Str.has_newline b.
Proof.
  induction a as [|c a IH]; simpl; [reflexivity|].
  destruct (Ascii.eqb c Str.newline); [reflexivity | exact IH].
Qed.

Lemma endswith_fence_brace (x : string) :
  Str.endswith FENCE (x ++ "}") = false.
Proof. unfold Str.endswith, Str.startswith. rewrite str_rev_app. reflexivity. Qed.

(** X14.  The decoder gives the JSON object text back from a response that
    is padded with blanks, whether the text is bare, wrapped in a fence with
    an opening line, wrapped in a fence whose closing marker is missing, or
    wrapped in a fence on a single line. *)
Theorem X14_fences_and_blanks_are_stripped :
  forall (w1 w2 w3 w4 info body : string),
    blank w1 = true -> blank w2 = true -> blank w3 = true -> blank w4 = true ->
    Str.has_newline info = false ->
    let s := "{" ++ body ++ "}" in
    strip_fences (w1 ++ s ++ w2) = s
    /\ strip_fences (w1 ++ FENCE ++ info ++ Py.nl ++ w2 ++ s ++ w3 ++ FENCE ++ w4) = s
    /\ strip_fences (w1 ++ FENCE ++ info ++ Py.nl ++ w2 ++ s ++ w3) = s
    /\ (Str.has_newline body = false -> strip_fences (w1 ++ FENCE ++ s ++ FENCE ++ w4) = s).
Proof.
  intros w1 w2 w3 w4 info body H1 H2 H3 H4 Hinfo s.
  assert (Hbrace : solid "{"%char) by (left; reflexivity).
  assert (Hclose : solid "}"%char) by (right; left; reflexivity).
  assert (Htick : solid "`"%char) by (right; right; reflexivity).
  assert (Es : s = String "{" body ++ "}") by reflexivity.
  assert (Hinner : forall w w', blank w = true -> blank w' = true ->
                                Str.strip (w ++ s ++ w') = s).
  { intros w w' Hw Hw'. rewrite Es. now apply strip_padded. }
  assert (Hinfo' : Str.has_newline (FENCE ++ info) = false) by exact Hinfo.
  split; [|split; [|split]].
  - unfold strip_fences. rewrite (Hinner w1 w2 H1 H2). reflexivity.
  - unfold strip_fences.
    set (text := FENCE ++ info ++ Py.nl ++ w2 ++ s ++ w3 ++ FENCE).
    assert (Etext : Str.strip (w1 ++ FENCE ++ info ++ Py.nl ++ w2 ++ s ++ w3 ++ FENCE ++ w4)
                    = text).
    { replace (w1 ++ FENCE ++ info ++ Py.nl ++ w2 ++ s ++ w3 ++ FENCE ++ w4)
        with (w1 ++ (String "`" ("``" ++ info ++ Py.nl ++ w2 ++ s ++ w3 ++ "``") ++ "`")
              ++ w4).
      - rewrite strip_padded by assumption. unfold text. cbn [FENCE append].
        rewrite !string_app_assoc. reflexivity.
      - cbn [FENCE append]. rewrite !string_app_assoc. reflexivity. }
    rewrite Etext.
    assert (Estart : Str.startswith FENCE text = true).
    { unfold text, Str.startswith. apply prefix_app. reflexivity. }
    rewrite Estart.
    destruct (after_first_newline_app (FENCE ++ info) (w2 ++ s ++ w3 ++ FENCE) Hinfo')
      as [Hnl Hafter].
    rewrite string_app_assoc in Hnl, Hafter. fold text in Hnl, Hafter.
    rewrite Hnl, Hafter.
    replace (w2 ++ s ++ w3 ++ FENCE) with ((w2 ++ s ++ w3) ++ FENCE)
      by (now rewrite !string_app_assoc).
    rewrite endswith_app, drop_last_fence. now apply Hinner.
  - unfold strip_fences.
    set (text := FENCE ++ info ++ Py.nl ++ w2 ++ s).
    assert (Etext : Str.strip (w1 ++ FENCE ++ info ++ Py.nl ++ w2 ++ s ++ w3) = text).
    { replace (w1 ++ FENCE ++ info ++ Py.nl ++ w2 ++ s ++ w3)
        with (w1 ++ (String "`" ("``" ++ info ++ Py.nl ++ w2 ++ String "{" body) ++ "}")
              ++ w3).
      - rewrite strip_padded by assumption. unfold text. rewrite Es. cbn [FENCE append].
        rewrite !string_app_assoc. reflexivity.
      - rewrite Es. cbn [FENCE append]. rewrite !string_app_assoc. reflexivity. }
    rewrite Etext.
    assert (Estart : Str.startswith FENCE text = true).
    { unfold text, Str.startswith. apply prefix_app. reflexivity. }
    rewrite Estart.
    destruct (after_first_newline_app (FENCE ++ info) (w2 ++ s) Hinfo') as [Hnl Hafter].
    rewrite string_app_assoc in Hnl, Hafter. fold text in Hnl, Hafter.
    rewrite Hnl, Hafter.
    assert (Eend : Str.endswith FENCE (w2 ++ s) = false).
    { rewrite Es. rewrite <- string_app_assoc. apply endswith_fence_brace. }
    rewrite Eend.
    replace (w2 ++ s) with (w2 ++ s ++ EmptyString) by (now rewrite string_app_nil_r).
    now apply Hinner.
  - intros Hbody. unfold strip_fences.
    set (text := FENCE ++ s ++ FENCE).
    assert (Etext : Str.strip (w1 ++ FENCE ++ s ++ FENCE ++ w4) = text).
    { replace (w1 ++ FENCE ++ s ++ FENCE ++ w4)
        with (w1 ++ (String "`" ("``" ++ s ++ "``") ++ "`") ++ w4).
      - rewrite strip_padded by assumption. unfold text. cbn [FENCE append].
        rewrite !string_app_assoc. reflexivity.
      - cbn [FENCE append]. rewrite !string_app_assoc. reflexivity. }
    rewrite Etext.
    assert (Estart : Str.startswith FENCE text = true).
    { unfold text, Str.startswith. apply prefix_app. reflexivity. }
    rewrite Estart.
    assert (Hnl : Str.has_newline text = false).
    { unfold text. rewrite Es. rewrite !has_newline_app. cbn.
      rewrite Hbody. reflexivity. }
    rewrite Hnl.
    change (Str.drop 3 text) with (s ++ FENCE).
    rewrite endswith_app, drop_last_fence.
    replace s with (EmptyString ++ s ++ EmptyString) at 1
      by (cbn [append]; now rewrite string_app_nil_r).
    now apply Hinner.
Qed.

Lemma X14_padded_sample_witness :
  let s := "{" ++ Sample.roasts_body ++ "}" in
  (blank " " = true /\ blank Py.nl = true /\ Str.has_newline "json" = false)
  /\ strip_fences (" " ++ s ++ Py.nl) = s
  /\ strip_fences (" " ++ FENCE ++ "json" ++ Py.nl ++ Py.nl ++ s ++ Py.nl ++ FENCE ++ Py.nl)
     = s
  /\ strip_fences (" " ++ FENCE ++ "json" ++ Py.nl ++ Py.nl ++ s ++ Py.nl) = s
  /\ (Str.has_newline Sample.roasts_body = false ->
      strip_fences (" " ++ FENCE ++ s ++ FENCE ++ Py.nl) = s).
Proof.
  split; [repeat split|].
  apply (X14_fences_and_blanks_are_stripped " " Py.nl Py.nl Py.nl "json"
           Sample.roasts_body); reflexivity.
Defined.

(** ** Batches of teams with distinct ids *)

Lemma NoDup_app_disjoint {A : Type} (a b : list A) (x : A) :
  NoDup (a +++ b) -> In x a -> In x b -> False.
Proof.
  induction a as [|y a IH]; intros Hnd Ha Hb; [destruct Ha|].
  cbn [app] in Hnd. inversion Hnd as [|? ? Hy Hnd']; subst.
  destruct Ha as [->|Ha]; [|now apply IH].
  apply Hy. apply in_or_app. now right.
Qed.

Lemma NoDup_concat_disjoint {A : Type} (l : list (list A)) :
  NoDup (concat l) ->
  forall i j a b x,
    i < j -> nth_error l i = Some a -> nth_error l j = Some b ->
    In x a -> In x b -> False.
Proof.
  induction l as [|h l IH]; intros Hnd i j a b x Hij Hi Hj Ha Hb.
  - destruct i; discriminate.
  - cbn [concat] in Hnd. destruct j as [|j]; [lia|]. cbn [nth_error] in Hj.
    destruct i as [|i].
    + cbn [nth_error] in Hi. injection Hi as ->.
      apply (NoDup_app_disjoint a (concat l) x Hnd Ha).
      apply in_concat. exists b. split; [eapply nth_error_In; eassumption | exact Hb].
    + cbn [nth_error] in Hi.
      apply (IH (NoDup_app_remove_l _ _ Hnd) i j a b x); try assumption. lia.
Qed.

(** X15.  When the team ids of a request are pairwise distinct, no team id
    is a key of two batches: the key lists of different batches are
    disjoint, and together, in order, they are the ids of the request. *)
Theorem X15_batch_keys_are_disjoint :
  forall teams : list Team.t,
    NoDup (map Team.id teams) ->
    concat (map (map Team.id) (batches teams)) = map Team.id teams
    /\ forall i j bi bj tid,
         i <> j ->
         nth_error (batches teams) i = Some bi ->
         nth_error (batches teams) j = Some bj ->
         In tid (map Team.id bi) -> ~ In tid (map Team.id bj).
Proof.
  intros teams Hnd.
  assert (E : concat (map (map Team.id) (batches teams)) = map Team.id teams).
  { rewrite <- concat_map. now rewrite concat_batches. }
  split; [exact E|].
  intros i j bi bj tid Hij Hi Hj Hbi Hbj.
  rewrite <- E in Hnd.
  assert (Hi' : nth_error (map (map Team.id) (batches teams)) i = Some (map Team.id bi))
    by (now rewrite nth_error_map, Hi).
  assert (Hj' : nth_error (map (map Team.id) (batches teams)) j = Some (map Team.id bj))
    by (now rewrite nth_error_map, Hj).
  destruct (Nat.lt_total i j) as [Hlt|[Heq|Hgt]]; [|contradiction|].
  - exact (NoDup_concat_disjoint _ Hnd i j _ _ tid Hlt Hi' Hj' Hbi Hbj).
  - exact (NoDup_concat_disjoint _ Hnd j i _ _ tid Hgt Hj' Hi' Hbj Hbi).
Qed.

Lemma X15_three_teams_witness :
  NoDup (map Team.id Sample.teams)
  /\ concat (map (map Team.id) (batches Sample.teams)) = map Team.id Sample.teams
  /\ forall i j bi bj tid,
       i <> j ->
       nth_error (batches Sample.teams) i = Some bi ->
       nth_error (batches Sample.teams) j = Some bj ->
       In tid (map Team.id bi) -> ~ In tid (map Team.id bj).
Proof.
  assert (H : NoDup (map Team.id Sample.teams)).
  { simpl. repeat constructor; simpl; intuition discriminate. }
  split; [exact H|].
  exact (X15_batch_keys_are_disjoint Sample.teams H).
Defined.

(** ** What the matchup section and the prompt contain *)

Lemma starter_lines_In (starters : list PlayerStat.t) (p : PlayerStat.t) :
  In p starters ->
  exists mark, In (starter_text p ++ mark) (starter_lines starters).
Proof.
  intros Hin. destruct starters as [|s0 rest]; [destruct Hin|].
  cbn [starter_lines]. eexists. apply in_map_iff. exists p. split; [|exact Hin].
  reflexivity.
Qed.

Lemma side_lines_In team_name score result players p :
  In p (starters_of (Py.get players [])) ->
  exists mark, In (starter_text p ++ mark) (side_lines team_name score result players).
Proof.
  intros Hin. destruct (starter_lines_In _ p Hin) as (mark & H).
  exists mark. unfold side_lines. right. apply in_or_app. now left.
Qed.

Lemma matchup_data_in_section (matchups : list Matchup.t) (all_teams : list Team.t)
    (week_number : option Z) (m : Matchup.t) :
  In m matchups ->
  occurs_in (title_of (team_names all_teams) m)
    (_format_matchups_section (Some matchups) all_teams week_number)
  /\ forall p,
       In p (starters_in m) ->
       occurs_in (starter_text p)
         (_format_matchups_section (Some matchups) all_teams week_number).
Proof.
  intros Hin. set (names := team_names all_teams).
  assert (Hsec : forall line,
            In line (matchup_lines names m) ->
            occurs_in line (_format_matchups_section (Some matchups) all_teams week_number)).
  { intros line Hline. unfold _format_matchups_section.
    destruct matchups as [|m0 ms]; [destruct Hin|].
    apply occurs_in_line. right. apply in_flat_map. exists m. now split. }
  split.
  - apply Hsec. unfold matchup_lines, title_of. destruct (outcome _ _). now left.
  - intros p Hp. unfold starters_in in Hp. apply in_app_or in Hp.
    assert (Hline : exists mark, In (starter_text p ++ mark) (matchup_lines names m)).
    { unfold matchup_lines. destruct (outcome _ _) as [rh ra].
      destruct Hp as [Hp|Hp].
      - destruct (side_lines_In
                    (display_name names (Py.get (Matchup.home_team_id m) EmptyString))
                    (Py.get (Matchup.home_score m) 0%Q) rh _ p Hp) as (mark & H).
        exists mark. rewrite !in_app_iff. tauto.
      - destruct (side_lines_In
                    (display_name names (Py.get (Matchup.away_team_id m) EmptyString))
                    (Py.get (Matchup.away_score m) 0%Q) ra _ p Hp) as (mark & H).
        exists mark. rewrite !in_app_iff. tauto. }
    destruct Hline as (mark & Hline).
    apply occurs_in_prefix with mark. now apply Hsec.
Qed.

(** X16.  For every matchup of a non-empty list the section has the title
    line of the matchup, with both names and both scores, and for each
    starter of each side the starter's name, position and points. *)
Theorem X16_matchup_data_is_in_the_section :
  forall (matchups : list Matchup.t) (all_teams : list Team.t) (week_number : option Z)
         (m : Matchup.t),
    In m matchups ->
    occurs_in (title_of (team_names all_teams) m)
      (_format_matchups_section (Some matchups) all_teams week_number)
    /\ forall p,
         In p (starters_in m) ->
         occurs_in (starter_text p)
           (_format_matchups_section (Some matchups) all_teams week_number).
Proof. exact matchup_data_in_section. Qed.

Lemma X16_sample_matchup_witness :
  In Sample.matchup [Sample.matchup]
  /\ occurs_in (title_of (team_names Sample.teams) Sample.matchup)
       (_format_matchups_section (Some [Sample.matchup]) Sample.teams None)
  /\ forall p,
       In p (starters_in Sample.matchup) ->
       occurs_in (starter_text p)
         (_format_matchups_section (Some [Sample.matchup]) Sample.teams None).
Proof.
  assert (H : In Sample.matchup [Sample.matchup]) by (left; reflexivity).
  split; [exact H|].
  exact (X16_matchup_data_is_in_the_section [Sample.matchup] Sample.teams None
           Sample.matchup H).
Defined.

(** X17.  A prompt built for a request with matchups contains, for every
    matchup, its title line and the name, position and points of every
    starter of both sides; the team names are resolved against the full team
    list when one is given, not against the batch. *)
Theorem X17_matchup_data_is_in_the_prompt :
  forall (teams : list Team.t) (ctx : Ctx.t) (total_teams : Z)
         (matchups : list Matchup.t) (week_number : option Z)
         (season_phase : string) (playoff_bracket : option (list BracketEntry.t))
         (all_teams : option (list Team.t)) (prompt : string) (m : Matchup.t),
    _build_prompt teams ctx total_teams (Some matchups) week_number season_phase
      playoff_bracket all_teams = Ok prompt ->
    In m matchups ->
    occurs_in (title_of (team_names (resolve_teams all_teams teams)) m) prompt
    /\ (forall p, In p (starters_in m) -> occurs_in (starter_text p) prompt)
    /\ (forall t ts, all_teams = Some (t :: ts) -> resolve_teams all_teams teams = t :: ts).
Proof.
  intros teams ctx total_teams matchups week_number season_phase playoff_bracket
    all_teams prompt m Hp Hin.
  destruct (prompt_layout _ _ _ _ _ _ _ _ _ Hp) as (middle & E).
  assert (Hsec : occurs_in
                   (_format_matchups_section (Some matchups)
                      (resolve_teams all_teams teams) week_number) prompt).
  { rewrite E. do 6 apply occurs_in_app_r. apply occurs_in_app_l. apply occurs_in_refl. }
  destruct (matchup_data_in_section matchups (resolve_teams all_teams teams)
              week_number m Hin) as [Ht Hs].
  split; [now apply occurs_in_trans with (2 := Hsec)|]. split.
  - intros p Hpl. apply occurs_in_trans with (2 := Hsec). now apply Hs.
  - intros t ts ->. reflexivity.
Qed.

Lemma X17_sample_prompt_witness :
  let prompt :=
    match _build_prompt Sample.teams Ctx.empty 3 (Some [Sample.matchup]) None
            "regular_season" None (Some Sample.teams) with
    | Ok p => p
    | Raise _ => EmptyString
    end in
  occurs_in
    (title_of (team_names (resolve_teams (Some Sample.teams) Sample.teams)) Sample.matchup)
    prompt
  /\ (forall p, In p (starters_in Sample.matchup) -> occurs_in (starter_text p) prompt)
  /\ (forall t ts,
        Some Sample.teams = Some (t :: ts) ->
        resolve_teams (Some Sample.teams) Sample.teams = t :: ts).
Proof.
  apply (X17_matchup_data_is_in_the_prompt Sample.teams Ctx.empty 3 [Sample.matchup] None
           "regular_season" None (Some Sample.teams)).
  - reflexivity.
  - left. reflexivity.
Defined.

(** ** The bracket in the playoff prompt *)

Lemma entry_tag_in_section (playoff_bracket : list BracketEntry.t)
    (all_teams : list Team.t) (e : BracketEntry.t) :
  In e playoff_bracket ->
  occurs_in (entry_tag (team_names all_teams) e)
    (_format_playoff_bracket_section (Some playoff_bracket) all_teams).
Proof.
  intros Hin. set (names := team_names all_teams).
  assert (Hline : exists rest,
            In (entry_tag names e ++ rest) (bracket_lines playoff_bracket all_teams)).
  { unfold bracket_lines. fold names.
    destruct (flag (BracketEntry.is_championship e)) eqn:Hc.
    - exists (" vs " ++ opponent_name names e).
      apply in_or_app. right. apply in_or_app. left.
      replace (entry_tag names e ++ " vs " ++ opponent_name names e)
        with (championship_line names e)
        by (unfold championship_line, entry_tag; now rewrite !string_app_assoc).
      apply group_block_In. apply filter_In. now split.
    - destruct (flag (BracketEntry.is_consolation e)) eqn:Hs.
      + exists (eliminated_tag e).
        apply in_or_app. right. apply in_or_app. right. apply in_or_app. right.
        replace (entry_tag names e ++ eliminated_tag e) with (consolation_line names e)
          by (unfold consolation_line, entry_tag; now rewrite !string_app_assoc).
        apply group_block_In. apply filter_In. now split.
      + exists (" (Round " ++ Py.get (BracketEntry.current_round e) "?" ++ ") vs "
                  ++ opponent_name names e ++ eliminated_tag e).
        apply in_or_app. right. apply in_or_app. right. apply in_or_app. left.
        replace (entry_tag names e ++ " (Round "
                   ++ Py.get (BracketEntry.current_round e) "?" ++ ") vs "
                   ++ opponent_name names e ++ eliminated_tag e)
          with (winners_line names e)
          by (unfold winners_line, entry_tag; now rewrite !string_app_assoc).
        apply group_block_In. apply filter_In. split; [exact Hin|]. now rewrite Hc, Hs. }
  destruct Hline as (rest & Hline).
  apply occurs_in_prefix with rest.
  destruct playoff_bracket as [|e0 b]; [destruct Hin|].
  unfold _format_playoff_bracket_section. now apply occurs_in_line.
Qed.

(** X18.  A prompt built in the playoff mode (phase "playoffs", non-empty
    bracket) contains the playoff approach text, and for every bracket entry
    its seed and its team name, written as "#{seed} {name}". *)
Theorem X18_bracket_data_is_in_the_playoff_prompt :
  forall (teams : list Team.t) (ctx : Ctx.t) (total_teams : Z)
         (matchups : option (list Matchup.t)) (week_number : option Z)
         (playoff_bracket : list BracketEntry.t) (all_teams : option (list Team.t))
         (prompt : string) (e : BracketEntry.t),
    _build_prompt teams ctx total_teams matchups week_number "playoffs"
      (Some playoff_bracket) all_teams = Ok prompt ->
    In e playoff_bracket ->
    occurs_in
      (_build_playoff_roasting_approach playoff_bracket (resolve_teams all_teams teams))
      prompt
    /\ occurs_in (entry_tag (team_names (resolve_teams all_teams teams)) e) prompt.
Proof.
  intros teams ctx total_teams matchups week_number playoff_bracket all_teams prompt e
    Hp Hin.
  destruct (prompt_layout _ _ _ _ _ _ _ _ _ Hp) as (middle & E).
  assert (Hmode : is_playoff_mode "playoffs" (Some playoff_bracket) = true).
  { destruct playoff_bracket; [destruct Hin | reflexivity]. }
  unfold mode_text in E. rewrite Hmode in E. cbn [roasting_approach bracket_section Py.get] in E.
  split.
  - rewrite E. do 3 apply occurs_in_app_r. apply occurs_in_app_l. apply occurs_in_refl.
  - apply occurs_in_trans
      with (_format_playoff_bracket_section (Some playoff_bracket)
              (resolve_teams all_teams teams)).
    + now apply entry_tag_in_section.
    + rewrite E. do 7 apply occurs_in_app_r. apply occurs_in_app_l. apply occurs_in_refl.
Qed.

Lemma X18_playoff_prompt_witness :
  let prompt :=
    match _build_prompt Sample.teams Ctx.empty 3 None None "playoffs"
            (Some [Sample.both_flags; Sample.fallen_finalist]) (Some Sample.teams) with
    | Ok p => p
    | Raise _ => EmptyString
    end in
  occurs_in
    (_build_playoff_roasting_approach [Sample.both_flags; Sample.fallen_finalist]
       (resolve_teams (Some Sample.teams) Sample.teams))
    prompt
  /\ occurs_in
       (entry_tag (team_names (resolve_teams (Some Sample.teams) Sample.teams))
          Sample.fallen_finalist)
       prompt.
Proof.
  apply (X18_bracket_data_is_in_the_playoff_prompt Sample.teams Ctx.empty 3 None None
           [Sample.both_flags; Sample.fallen_finalist] (Some Sample.teams)).
  - reflexivity.
  - right. left. reflexivity.
Defined.

(** ** No empty headers in the playoff approach *)

(** The four sentences differ from each other and from the three lines that
    are always written. *)
Lemma sentences_differ (cn en : string) :
  let cs := contenders_sentence cn in
  let es := eliminated_sentence en in
  let stakes :=
    "This is the PLAYOFFS. Every game is win-or-go-home. The stakes are real, "
      ++ "the pressure is crushing, and the roasts should match the intensity." in
  cs <> es /\ cs <> active_sentence /\ cs <> consolation_sentence
  /\ es <> active_sentence /\ es <> consolation_sentence
  /\ active_sentence <> consolation_sentence
  /\ cs <> PLAYOFF_MODE_HEADER /\ es <> PLAYOFF_MODE_HEADER
  /\ active_sentence <> PLAYOFF_MODE_HEADER /\ consolation_sentence <> PLAYOFF_MODE_HEADER
  /\ cs <> stakes /\ es <> stakes /\ active_sentence <> stakes
  /\ consolation_sentence <> stakes
  /\ cs <> EmptyString /\ es <> EmptyString /\ active_sentence <> EmptyString
  /\ consolation_sentence <> EmptyString.
Proof.
  cbv zeta.
  repeat split; apply first_char_differs;
    unfold contenders_sentence, eliminated_sentence, active_sentence,
      consolation_sentence, PLAYOFF_MODE_HEADER;
    cbn [append String.get]; discriminate.
Qed.

(** X19.  Each of the four sentences of the playoff approach is written
    exactly when its group has an entry: CHAMPIONSHIP CONTENDERS for the
    championship entries, ACTIVE BRACKET for the active ones, CONSOLATION
    BRACKET for the consolation entries that are not eliminated, ELIMINATED
    for the eliminated ones. *)
Theorem X19_approach_sentences_follow_groups :
  forall (playoff_bracket : list BracketEntry.t) (all_teams : list Team.t),
    let names := team_names all_teams in
    let lines := playoff_approach_lines playoff_bracket all_teams in
    (In (contenders_sentence (champ_names names playoff_bracket)) lines
       <-> champ_teams playoff_bracket <> [])
    /\ (In active_sentence lines <-> active playoff_bracket <> [])
    /\ (In consolation_sentence lines <-> consolation playoff_bracket <> [])
    /\ (In (eliminated_sentence (eliminated_names names playoff_bracket)) lines
          <-> eliminated playoff_bracket <> []).
Proof.
  intros b all_teams names lines. subst lines. unfold playoff_approach_lines. fold names.
  generalize (champ_names names b) (eliminated_names names b). intros cn en.
  pose proof (sentences_differ cn en) as D.
  set (cs := contenders_sentence cn) in *.
  set (es := eliminated_sentence en) in *.
  set (acts := active_sentence) in *.
  set (cons := consolation_sentence) in *.
  set (header := PLAYOFF_MODE_HEADER) in *.
  set (stakes := "This is the PLAYOFFS. Every game is win-or-go-home. The stakes are real, "
                   ++ "the pressure is crushing, and the roasts should match the intensity.")
    in *.
  clearbody cs es acts cons header stakes.
  destruct D as (D1 & D2 & D3 & D4 & D5 & D6 & D7 & D8 & D9 & D10 & D11 & D12 & D13
                   & D14 & D15 & D16 & D17 & D18).
  destruct (champ_teams b), (active b), (consolation b), (eliminated b);
    cbn [when_nonempty app In];
    (split; [|split; [|split]]); (split; intros H);
    try discriminate; try congruence;
    try (solve [repeat (first [left; reflexivity | right])]);
    try (exfalso; intuition congruence).
Qed.

(** ** The teams in the prompt *)

(** X20.  A prompt that is built describes every team to roast: the block
    of the team, with its id, name, owner and record, stands in the prompt.
    A team without season points, streak and top players is described with
    "?" for each missing value and "none listed" for its players. *)
Theorem X20_team_blocks_are_in_the_prompt :
  forall (teams : list Team.t) (ctx : Ctx.t) (total_teams : Z)
         (matchups : option (list Matchup.t)) (week_number : option Z)
         (season_phase : string) (playoff_bracket : option (list BracketEntry.t))
         (all_teams : option (list Team.t)) (prompt : string) (t : Team.t),
    _build_prompt teams ctx total_teams matchups week_number season_phase
      playoff_bracket all_teams = Ok prompt ->
    In t teams ->
    exists name block,
      Team.name t = Some name
      /\ team_block t = Ok block
      /\ occurs_in block prompt
      /\ occurs_in
           ("- ID: " ++ Team.id t ++ " | " ++ Py.dq ++ name ++ Py.dq ++ " owned by "
              ++ Team.owner t ++ Py.nl ++ "  Record: " ++ Team.record t ++ " | PF: ")
           prompt
      /\ (Team.points_for t = None -> Team.points_against t = None ->
          Team.streak t = None -> Py.truthy_list (Team.top_players t) = false ->
          block
          = "- ID: " ++ Team.id t ++ " | " ++ Py.dq ++ name ++ Py.dq ++ " owned by "
              ++ Team.owner t ++ Py.nl ++ "  Record: " ++ Team.record t
              ++ " | PF: ? | PA: ? | Streak: ?" ++ Py.nl
              ++ "  Top players: none listed").
Proof.
  intros teams ctx total_teams matchups week_number season_phase playoff_bracket
    all_teams prompt t Hp Hin.
  unfold _build_prompt in Hp.
  pose proof (map_result_shape team_block teams) as Hblocks.
  destruct (map_result team_block teams) as [blocks|]; [|discriminate].
  cbn [bind_result] in Hp. cbv zeta in Hp. apply Ok_inj in Hp.
  destruct (Forall2_In_l _ _ _ t Hblocks Hin) as (block & Hb & Ht).
  destruct (Team.name t) as [name|] eqn:Hname;
    [|unfold team_block in Ht; rewrite Hname in Ht; discriminate].
  exists name, block. split; [reflexivity|]. split; [exact Ht|].
  assert (Hocc : occurs_in block prompt).
  { apply occurs_in_trans with (Py.str_join Py.nl blocks); [now apply occurs_in_line|].
    rewrite <- Hp.
    match goal with
    | |- occurs_in _ (prompt_head ?m ?s ?x ?tt ?c ++ ?tail) =>
        assert (H : occurs_in tt (prompt_head m s x tt c))
    end.
    { unfold prompt_head. apply occurs_in_line. do 16 right. left. reflexivity. }
    now apply occurs_in_app_l. }
  split; [exact Hocc|].
  unfold team_block in Ht. rewrite Hname in Ht. apply Ok_inj in Ht.
  split.
  - apply occurs_in_trans with (2 := Hocc). rewrite <- Ht.
    set (rest := Py.get (Team.points_for t) "?" ++ _).
    exists EmptyString, rest. now rewrite !string_app_assoc.
  - intros H1 H2 H3 H4. rewrite <- Ht, H1, H2, H3. cbn [Py.get].
    assert (E : Py.get (Team.top_players t) [] = []).
    { destruct (Team.top_players t) as [[|? ?]|]; try reflexivity; discriminate. }
    rewrite E. reflexivity.
Qed.

Lemma X20_demo_team_witness :
  let prompt :=
    match _build_prompt [Demo.team] Ctx.empty 1 None None "regular_season" None None with
    | Ok p => p
    | Raise _ => EmptyString
    end in
  let t := Demo.team in
  exists name block,
    Team.name t = Some name
    /\ team_block t = Ok block
    /\ occurs_in block prompt
    /\ occurs_in
         ("- ID: " ++ Team.id t ++ " | " ++ Py.dq ++ name ++ Py.dq ++ " owned by "
            ++ Team.owner t ++ Py.nl ++ "  Record: " ++ Team.record t ++ " | PF: ")
         prompt
    /\ (Team.points_for t = None -> Team.points_against t = None ->
        Team.streak t = None -> Py.truthy_list (Team.top_players t) = false ->
        block
        = "- ID: " ++ Team.id t ++ " | " ++ Py.dq ++ name ++ Py.dq ++ " owned by "
            ++ Team.owner t ++ Py.nl ++ "  Record: " ++ Team.record t
            ++ " | PF: ? | PA: ? | Streak: ?" ++ Py.nl
            ++ "  Top players: none listed").
Proof.
  apply (X20_team_blocks_are_in_the_prompt [Demo.team] Ctx.empty 1 None None
           "regular_season" None None).
  - reflexivity.
  - left. reflexivity.
Defined.

(** ** A failed batch fails the request *)

Section Failure.

Variable json_loads_roasts : string -> option Roasts.
Variable invoke_model : string -> result string.

Lemma submit_all_futures (prompt_of : list Team.t -> result string)
    (bs : list (list Team.t)) :
  forall calls futures,
    fst (submit_all json_loads_roasts invoke_model prompt_of bs calls) = Ok futures ->
    forall b p, In b bs -> prompt_of b = Ok p ->
    In (outcome_of json_loads_roasts invoke_model p) futures.
Proof.
  induction bs as [|b0 bs IH]; intros calls futures H b p Hin Hp; [destruct Hin|].
  cbn [submit_all] in H. unfold bind at 1, lift in H.
  destruct (prompt_of b0) as [p0|e] eqn:Ep; [|discriminate].
  unfold bind at 1, submit in H. cbn [fst snd] in H. unfold bind at 1 in H.
  destruct (submit_all json_loads_roasts invoke_model prompt_of bs
              (snd (_call_bedrock json_loads_roasts invoke_model p0 calls)))
    as [[fs|e] calls'] eqn:E; [|discriminate].
  unfold ret in H. cbn [fst] in H. apply Ok_inj in H. subst futures.
  destruct Hin as [<-|Hin].
  - left. rewrite Ep in Hp. apply Ok_inj in Hp. now subst p0.
  - right.
    refine (IH (snd (_call_bedrock json_loads_roasts invoke_model p0 calls)) fs _ b p Hin Hp).
    now rewrite E.
Qed.

End Failure.

(** X21.  A failed batch fails the whole request.  When [as_completed]
    yields every submitted future, and the call of one batch raises or its
    response cannot be decoded, [_generate_roasts_parallel] raises: no
    partial mapping is returned, whatever the other batches gave. *)
Theorem X21_one_failed_batch_fails_all :
  forall (json_loads_roasts : string -> option Roasts)
         (invoke_model : string -> result string)
         (as_completed : list (result Roasts) -> list (result Roasts))
         (teams : list Team.t) (ctx : Ctx.t) (matchups : option (list Matchup.t))
         (week_number : option Z) (season_phase : string)
         (playoff_bracket : option (list BracketEntry.t))
         (batch : list Team.t) (prompt : string) (e : exn),
    (forall futures future, In future futures -> In future (as_completed futures)) ->
    In batch (batches teams) ->
    batch_prompt teams ctx matchups week_number season_phase playoff_bracket batch
    = Ok prompt ->
    outcome_of json_loads_roasts invoke_model prompt = Raise e ->
    exists e',
      fst (_generate_roasts_parallel json_loads_roasts invoke_model as_completed
             teams ctx matchups week_number season_phase playoff_bracket [])
      = Raise e'.
Proof.
  intros json_loads_roasts invoke_model as_completed teams ctx matchups week_number
    season_phase playoff_bracket batch prompt e Hall Hin Hp He.
  unfold _generate_roasts_parallel.
  set (prompt_of := batch_prompt teams ctx matchups week_number season_phase
                      playoff_bracket) in *.
  destruct (batches teams) as [|b1 [|b2 bs]] eqn:Eb.
  - destruct Hin.
  - destruct Hin as [<-|[]]. unfold bind, lift. rewrite Hp.
    unfold _call_bedrock. cbn [fst]. exists e. exact He.
  - unfold bind at 1.
    destruct (submit_all json_loads_roasts invoke_model prompt_of (b1 :: b2 :: bs) [])
      as [[futures|e0] calls'] eqn:E; [|now exists e0].
    unfold lift. cbn [fst].
    assert (Hf : In (Raise e) (as_completed futures)).
    { apply Hall. rewrite <- He.
      apply (submit_all_futures json_loads_roasts invoke_model prompt_of
               (b1 :: b2 :: bs) [] futures) with (b := batch);
        [now rewrite E | exact Hin | exact Hp]. }
    pose proof (merge_results_shape [] (as_completed futures)) as Hm.
    destruct (merge_results [] (as_completed futures)) as [roasts|e']; [|now exists e'].
    destruct Hm as (rs & Hrs & _). rewrite Hrs in Hf.
    apply in_map_iff in Hf. destruct Hf as (x & Hx & _). discriminate.
Qed.

Lemma X21_failing_service_witness :
  exists e',
    fst (_generate_roasts_parallel Sample.loads_roasts Sample.no_service Sample.in_order
           Sample.teams Ctx.empty None None "regular_season" None [])
    = Raise e'.
Proof.
  apply (X21_one_failed_batch_fails_all Sample.loads_roasts Sample.no_service
           Sample.in_order Sample.teams Ctx.empty None None "regular_season" None
           [Sample.team "3" "Lions"]
           (match batch_prompt Sample.teams Ctx.empty None None "regular_season" None
                    [Sample.team "3" "Lions"] with
            | Ok p => p
            | Raise _ => EmptyString
            end)
           ServiceError).
  - intros futures future H. exact H.
  - right. left. reflexivity.
  - reflexivity.
  - reflexivity.
Defined.
